(** * Emergency dispatch back end: lifecycle, dashboard and hospital services

    A shallow embedding of the NestJS services
      - [sos/sos.service.ts]             (class SosService),
      - [dashboard/dashboard.service.ts] (class DashboardService),
      - [hospital/hospital.service.ts]   (class HospitalService),
    over an explicit model of the Prisma store they talk to.

    Rows are records, the tables keyed by id are finite maps, the response
    table is a list in insertion order.  An [async] method is a function from
    the world (store and emitted side effects) to an outcome and a new
    world; a rejected promise is a [Thrown] outcome.  Everything outside the
    services (store faults, the notification service, the socket gateway,
    generated ids and the clock) is collected in an environment [Env].

    Numbers: a JavaScript number is the rational it denotes, with [NaN] and
    the infinities added where an operation can produce them.  The numbers
    read from JSON columns are only compared and added up as they stand; the
    average response time is computed in double precision, every operation
    rounding to the nearest double ([round64]).  Time stamps are
    milliseconds since the epoch.  Info-level logger calls do not influence
    control flow and are left out; the warning written when an error is
    swallowed is kept. *)

From Stdlib Require Import ZArith QArith Qround Qabs Lia.
From stdpp Require Import base strings list gmap.

Local Open Scope string_scope.
Local Set Warnings "-register-all".

(** ** JSON values (the Prisma [Json] columns) *)

Inductive Json : Type :=
| JNull
| JBool (b : bool)
| JNumber (q : Q)
| JString (s : string)
| JArray (items : list Json)
| JObject (fields : list (string * Json)).

(** A number as a JavaScript expression can produce it. *)
Inductive JsNumber : Type :=
| NaN
| Infinity (negative : bool)
| Finite (q : Q).

(** [a === b] on numbers: [NaN] equals nothing, not even itself. *)
Definition strict_eq_number (a b : JsNumber) : bool :=
  match a, b with
  | Finite x, Finite y => Qeq_bool x y
  | Infinity s, Infinity t => Bool.eqb s t
  | _, _ => false
  end.

(** JavaScript truthiness of a value read from a [Json] column. *)
Definition truthy (v : Json) : bool :=
  match v with
  | JNull => false
  | JBool b => b
  | JNumber q => negb (Qeq_bool q 0)
  | JString s => negb (bool_decide (s = ""))
  | JArray _ | JObject _ => true
  end.

(** Property read [o.key]; [None] is [undefined]. *)
Fixpoint get_field (key : string) (fields : list (string * Json)) : option Json :=
  match fields with
  | [] => None
  | (k, v) :: rest => if bool_decide (k = key) then Some v else get_field key rest
  end.

(** Property write as in an object literal [{ ...o, key: v }]: an existing
    key keeps its place and takes the new value, a new key goes last. *)
Fixpoint set_field (key : string) (v : Json) (fields : list (string * Json))
  : list (string * Json) :=
  match fields with
  | [] => [(key, v)]
  | (k, w) :: rest =>
      if bool_decide (k = key) then (k, v) :: rest
      else (k, w) :: set_field key v rest
  end.

(** [v.key] on any value: only objects carry the keys read here. *)
Definition property (v : Json) (key : string) : option Json :=
  match v with
  | JObject fields => get_field key fields
  | _ => None
  end.

(** ** The enumeration [EmergencyStatus] *)

(** Modelled from the spec: the enum [EmergencyStatus] of [sos/dto/sos.dto.ts],
    which is not among the sources.  The services use its five members by
    name and compare them with plain strings, so each member is the string of
    its name. *)
Module EmergencyStatus.
Definition PENDING : string := "PENDING".
Definition ASSIGNED : string := "ASSIGNED".
Definition IN_PROGRESS : string := "IN_PROGRESS".
Definition COMPLETED : string := "COMPLETED".
Definition CANCELLED : string := "CANCELLED".

Definition members : list string :=
  [PENDING; ASSIGNED; IN_PROGRESS; COMPLETED; CANCELLED].
End EmergencyStatus.

(** Modelled from the spec: the members of Prisma's [UserRole] used by the
    services; the generated client is not among the sources. *)
Module UserRole.
Definition EMERGENCY_CENTER : string := "EMERGENCY_CENTER".
Definition HOSPITAL : string := "HOSPITAL".
Definition RESCUE_TEAM : string := "RESCUE_TEAM".
End UserRole.

(** [xs.includes(x)] on an array of strings. *)
Definition includes (xs : list string) (x : string) : bool :=
  existsb (fun y => bool_decide (y = x)) xs.

(** ** Rows *)

Record EmergencyRequest := {
  er_id : string;
  er_status : string;
  er_type : string;
  er_description : string;
  er_location : string;
  er_latitude : Q;
  er_longitude : Q;
  er_medicalInfo : Json;
  er_patientId : string;
  er_updatedBy : option string;
}.

Record Organization := {
  org_id : string;
  org_name : string;
  org_type : string;
  org_status : string;
  org_availableBeds : option Z;
  org_updatedAt : Z;
}.

Record EmergencyResponse := {
  resp_id : string;
  resp_emergencyRequestId : string;
  resp_organizationId : string;
  resp_status : string;
  resp_dispatchTime : option Z;
  resp_completionTime : option Z;
  resp_notes : option string;
  resp_createdAt : Z;
}.

Record User := {
  user_id : string;
  user_firstName : string;
  user_lastName : string;
  user_role : string;
  user_status : string;
  user_organizationId : option string;
}.

Definition with_status (st : string) (r : EmergencyRequest) : EmergencyRequest :=
  {| er_id := er_id r; er_status := st; er_type := er_type r;
     er_description := er_description r; er_location := er_location r;
     er_latitude := er_latitude r; er_longitude := er_longitude r;
     er_medicalInfo := er_medicalInfo r; er_patientId := er_patientId r;
     er_updatedBy := er_updatedBy r |}.

Definition with_updatedBy (u : string) (r : EmergencyRequest) : EmergencyRequest :=
  {| er_id := er_id r; er_status := er_status r; er_type := er_type r;
     er_description := er_description r; er_location := er_location r;
     er_latitude := er_latitude r; er_longitude := er_longitude r;
     er_medicalInfo := er_medicalInfo r; er_patientId := er_patientId r;
     er_updatedBy := Some u |}.

Definition with_response_status (st : string) (r : EmergencyResponse) : EmergencyResponse :=
  {| resp_id := resp_id r; resp_emergencyRequestId := resp_emergencyRequestId r;
     resp_organizationId := resp_organizationId r; resp_status := st;
     resp_dispatchTime := resp_dispatchTime r;
     resp_completionTime := resp_completionTime r;
     resp_notes := resp_notes r; resp_createdAt := resp_createdAt r |}.

(** [data: { availableBeds: { decrement: 1 }, updatedAt: t }]; SQL arithmetic
    on a NULL column stays NULL. *)
Definition decrement_beds (t : Z) (o : Organization) : Organization :=
  {| org_id := org_id o; org_name := org_name o; org_type := org_type o;
     org_status := org_status o;
     org_availableBeds := (fun b => b - 1)%Z <$> org_availableBeds o;
     org_updatedAt := t |}.

(** ** The store *)

Record Store := {
  requests : gmap string EmergencyRequest;
  organizations : gmap string Organization;
  responses : list EmergencyResponse;
  users : gmap string User;
}.

(** ** Side effects and the environment *)

(** The argument of [createNotification]; its free-form [metadata] is left
    out. *)
Record NotificationInput := {
  n_type : string;
  n_title : string;
  n_body : string;
  n_userId : string;
}.

Inductive BroadcastEvent : Type :=
| EmergencyBroadcast (id type grade location : string) (latitude longitude : Q)
| HospitalUpdate (hospitalId : string) (availableBeds : option Z)
| StatusUpdate (emergencyId status : string)
| StatsUpdated.

Inductive Effect : Type :=
| Notified (n : NotificationInput)
| Broadcasted (ev : BroadcastEvent)
| Warned (message : string).

Inductive PrismaCall : Type :=
| EmergencyRequest_findUnique
| EmergencyRequest_findMany
| EmergencyRequest_count
| EmergencyRequest_create
| EmergencyRequest_update
| EmergencyResponse_findUnique
| EmergencyResponse_findMany
| EmergencyResponse_create
| EmergencyResponse_update
| Organization_findUnique
| Organization_findFirst
| Organization_update
| Organization_findMany
| Organization_count
| User_findMany.

(** What the services cannot control: which store calls are refused (the
    store is unreachable, a constraint fails), which notification writes and
    which gateway emits throw, the id the store generates for a new row and
    the reading of the clock. *)
Record Env := {
  prisma_fails : PrismaCall -> bool;
  notification_fails : NotificationInput -> bool;
  gateway_fails : BroadcastEvent -> bool;
  uuid : string;
  now : Z;
}.

Inductive Exception : Type :=
| NotFoundException (message : string)
| BadRequestException (message : string)
| InternalServerErrorException (message : string)
| PrismaClientError (call : PrismaCall)
| NotificationError (n : NotificationInput)
| GatewayError (ev : BroadcastEvent).

(** [error.message] *)
Definition message_of (e : Exception) : string :=
  match e with
  | NotFoundException m | BadRequestException m
  | InternalServerErrorException m => m
  | PrismaClientError _ => "prisma client error"
  | NotificationError _ => "notification error"
  | GatewayError _ => "gateway error"
  end.

(** The error classes of the spec: [Validation] is HTTP 400. *)
Definition is_validation (e : Exception) : bool :=
  match e with BadRequestException _ => true | _ => false end.

(** ** Promises: state and exceptions *)

Record World := {
  db : Store;
  outbox : list Effect;
}.

Inductive Outcome (A : Type) : Type :=
| Returned (a : A)
| Thrown (e : Exception).
Arguments Returned {A} a.
Arguments Thrown {A} e.

Definition Async (A : Type) : Type := World -> Outcome A * World.

Definition ret {A} (a : A) : Async A := fun w => (Returned a, w).

Definition throw {A} (e : Exception) : Async A := fun w => (Thrown e, w).

Definition bind {A B} (m : Async A) (k : A -> Async B) : Async B :=
  fun w =>
    match m w with
    | (Returned a, w') => k a w'
    | (Thrown e, w') => (Thrown e, w')
    end.

Notation "'await' x <- m ; k" := (bind m (fun x => k))
  (at level 10, x name, m at level 100, k at level 200,
   format "'[v' 'await'  x  <-  m ; '/' k ']'").
Notation "'await_' m ; k" := (bind m (fun _ => k))
  (at level 10, m at level 100, k at level 200,
   format "'[v' 'await_'  m ; '/' k ']'").

(** [try { m } catch (err) { handler err }] *)
Definition try_catch {A} (m : Async A) (handler : Exception -> Async A) : Async A :=
  fun w =>
    match m w with
    | (Returned a, w') => (Returned a, w')
    | (Thrown e, w') => handler e w'
    end.

(** [prisma.$transaction(async (prisma) => m)]: when the callback throws, the
    rows go back to what they were; what was sent through services that do
    not use the transaction client stays sent. *)
Definition transaction {A} (m : Async A) : Async A :=
  fun w =>
    match m w with
    | (Returned a, w') => (Returned a, w')
    | (Thrown e, w') => (Thrown e, {| db := db w; outbox := outbox w' |})
    end.

(** [for (const x of xs) { await body x }] *)
Fixpoint for_of {A} (xs : list A) (body : A -> Async unit) : Async unit :=
  match xs with
  | [] => ret tt
  | x :: rest => await_ body x; for_of rest body
  end.

Definition get_db : Async Store := fun w => (Returned (db w), w).

Definition put_db (s : Store) : Async unit :=
  fun w => (Returned tt, {| db := s; outbox := outbox w |}).

Definition emit (e : Effect) : Async unit :=
  fun w => (Returned tt, {| db := db w; outbox := outbox w ++ [e] |}).

(** ** The Prisma client *)

Section Services.

Variable env : Env.

(** Every store call first asks the environment whether the store answers. *)
Definition prisma {A} (call : PrismaCall) (m : Async A) : Async A :=
  if prisma_fails env call then throw (PrismaClientError call) else m.

Definition set_requests (m : gmap string EmergencyRequest) (s : Store) : Store :=
  {| requests := m; organizations := organizations s;
     responses := responses s; users := users s |}.

Definition set_organizations (m : gmap string Organization) (s : Store) : Store :=
  {| requests := requests s; organizations := m;
     responses := responses s; users := users s |}.

Definition set_responses (l : list EmergencyResponse) (s : Store) : Store :=
  {| requests := requests s; organizations := organizations s;
     responses := l; users := users s |}.

(** [prisma.emergencyRequest.findUnique({ where: { id } })] *)
Definition emergencyRequest_findUnique (id : string) : Async (option EmergencyRequest) :=
  prisma EmergencyRequest_findUnique
    (await s <- get_db; ret (requests s !! id)).

(** [prisma.emergencyRequest.findMany()], in the order of the table *)
Definition emergencyRequest_findMany : Async (list EmergencyRequest) :=
  prisma EmergencyRequest_findMany
    (await s <- get_db; ret ((map_to_list (requests s)).*2)).

(** [prisma.emergencyRequest.update({ where: { id }, data })]; updating a
    row that does not exist is refused. *)
Definition emergencyRequest_update (id : string)
    (data : EmergencyRequest -> EmergencyRequest) : Async EmergencyRequest :=
  prisma EmergencyRequest_update
    (await s <- get_db;
     match requests s !! id with
     | None => throw (PrismaClientError EmergencyRequest_update)
     | Some r =>
         await_ put_db (set_requests (<[id := data r]> (requests s)) s);
         ret (data r)
     end).

(** [prisma.emergencyRequest.create({ data })] with
    [patient: { connect: { id } }]: the patient must exist, and the
    generated id must be unused. *)
Definition emergencyRequest_create (data : EmergencyRequest) : Async EmergencyRequest :=
  prisma EmergencyRequest_create
    (await s <- get_db;
     match requests s !! er_id data, users s !! er_patientId data with
     | None, Some _ =>
         await_ put_db (set_requests (<[er_id data := data]> (requests s)) s);
         ret data
     | _, _ => throw (PrismaClientError EmergencyRequest_create)
     end).

(** [include: { responses: ... }] *)
Definition responses_of (s : Store) (emergencyId : string) : list EmergencyResponse :=
  filter (fun r => resp_emergencyRequestId r = emergencyId) (responses s).

Definition organization_findUnique (id : string) : Async (option Organization) :=
  prisma Organization_findUnique
    (await s <- get_db; ret (organizations s !! id)).

(** [prisma.organization.findFirst({ where: { id, type: "HOSPITAL" } })] *)
Definition organization_findFirst_hospital (id : string) : Async (option Organization) :=
  prisma Organization_findFirst
    (await s <- get_db;
     ret (match organizations s !! id with
          | Some o => if bool_decide (org_type o = "HOSPITAL") then Some o else None
          | None => None
          end)).

Definition organization_update (id : string)
    (data : Organization -> Organization) : Async Organization :=
  prisma Organization_update
    (await s <- get_db;
     match organizations s !! id with
     | None => throw (PrismaClientError Organization_update)
     | Some o =>
         await_ put_db (set_organizations (<[id := data o]> (organizations s)) s);
         ret (data o)
     end).

Definition find_response (id : string) (l : list EmergencyResponse)
  : option EmergencyResponse :=
  List.find (fun r => bool_decide (resp_id r = id)) l.

Definition emergencyResponse_findUnique (id : string) : Async (option EmergencyResponse) :=
  prisma EmergencyResponse_findUnique
    (await s <- get_db; ret (find_response id (responses s))).

Definition emergencyResponse_findMany (where_ : EmergencyResponse -> bool)
  : Async (list EmergencyResponse) :=
  prisma EmergencyResponse_findMany
    (await s <- get_db; ret (List.filter where_ (responses s))).

(** [prisma.emergencyResponse.create({ data })]: the row gets the generated
    id; both foreign keys must point at existing rows. *)
Definition emergencyResponse_create (data : EmergencyResponse) : Async EmergencyResponse :=
  prisma EmergencyResponse_create
    (await s <- get_db;
     match find_response (resp_id data) (responses s),
           requests s !! resp_emergencyRequestId data,
           organizations s !! resp_organizationId data with
     | None, Some _, Some _ =>
         await_ put_db (set_responses (responses s ++ [data]) s);
         ret data
     | _, _, _ => throw (PrismaClientError EmergencyResponse_create)
     end).

Definition emergencyResponse_update (id : string)
    (data : EmergencyResponse -> EmergencyResponse) : Async EmergencyResponse :=
  prisma EmergencyResponse_update
    (await s <- get_db;
     match find_response id (responses s) with
     | None => throw (PrismaClientError EmergencyResponse_update)
     | Some r =>
         await_ put_db
           (set_responses
              (List.map (fun x => if bool_decide (resp_id x = id) then data x else x)
                        (responses s)) s);
         ret (data r)
     end).

Definition user_findMany (where_ : User -> bool) : Async (list User) :=
  prisma User_findMany
    (await s <- get_db; ret (List.filter where_ (map_to_list (users s)).*2)).

(** ** The notification service and the gateway

    Neither [NotificationService] nor [NotificationGateway] is among the
    sources: a call either throws, as the environment decides, or is
    recorded in the outbox. *)

Definition createNotification (n : NotificationInput) : Async unit :=
  if notification_fails env n then throw (NotificationError n)
  else emit (Notified n).

Definition broadcast (ev : BroadcastEvent) : Async unit :=
  if gateway_fails env ev then throw (GatewayError ev)
  else emit (Broadcasted ev).

Definition logger_warn (message : string) : Async unit := emit (Warned message).

(** ** [sos/sos.service.ts]: class SosService *)

(** Modelled from the spec: the fields of [CreateEmergencyRequestDto] that
    [createEmergencyRequest] reads; the DTO class is not among the sources.
    [medicalInfo], when present, is an object. *)
Record CreateEmergencyRequestDto := {
  dto_patientId : option string;
  dto_type : string;
  dto_description : string;
  dto_location : string;
  dto_latitude : Q;
  dto_longitude : Q;
  dto_medicalInfo : option (list (string * Json));
  dto_grade : string;
}.

(** [createSosDto.patientId || userId]: an absent or empty id is falsy. *)
Definition patientId_of (dto : CreateEmergencyRequestDto) (userId : string) : string :=
  match dto_patientId dto with
  | Some p => if bool_decide (p = "") then userId else p
  | None => userId
  end.

(** [grade === "CRITICAL" ? 5 : grade === "URGENT" ? 3 : 1] *)
Definition severity_of_grade (grade : string) : Q :=
  if bool_decide (grade = "CRITICAL") then 5
  else if bool_decide (grade = "URGENT") then 3
  else 1.

(** [{ ...(dto.medicalInfo || {}), grade, severity, emergencyType }] *)
Definition medicalInfo_of (dto : CreateEmergencyRequestDto) : Json :=
  JObject
    (set_field "emergencyType" (JString (dto_type dto))
       (set_field "severity" (JNumber (severity_of_grade (dto_grade dto)))
          (set_field "grade" (JString (dto_grade dto))
             (default [] (dto_medicalInfo dto))))).

Definition is_responder (u : User) : bool :=
  includes [UserRole.EMERGENCY_CENTER; UserRole.HOSPITAL; UserRole.RESCUE_TEAM]
           (user_role u)
  && bool_decide (user_status u = "ACTIVE").

Definition createEmergencyRequest (createSosDto : CreateEmergencyRequestDto)
    (userId : string) : Async EmergencyRequest :=
  let patientId := patientId_of createSosDto userId in
  let medicalInfo := medicalInfo_of createSosDto in
  await emergencyRequest <-
    emergencyRequest_create
      {| er_id := uuid env;
         er_status := EmergencyStatus.PENDING;
         er_type := dto_type createSosDto;
         er_description := dto_description createSosDto;
         er_location := dto_location createSosDto;
         er_latitude := dto_latitude createSosDto;
         er_longitude := dto_longitude createSosDto;
         er_medicalInfo := medicalInfo;
         er_patientId := patientId;
         er_updatedBy := None |};
  await responders <- user_findMany is_responder;
  await_ for_of responders (fun responder =>
    createNotification
      {| n_type := "EMERGENCY";
         n_title := "New Emergency Request";
         n_body := "Emergency " +:+ dto_type createSosDto +:+ " - "
                   +:+ dto_grade createSosDto +:+ " grade";
         n_userId := user_id responder |});
  await_ broadcast
    (EmergencyBroadcast (er_id emergencyRequest) (dto_type createSosDto)
       (dto_grade createSosDto) (er_location emergencyRequest)
       (er_latitude emergencyRequest) (er_longitude emergencyRequest));
  ret emergencyRequest.

Definition is_hospital_user (hospitalId : string) (u : User) : bool :=
  bool_decide (user_organizationId u = Some hospitalId)
  && bool_decide (user_role u = UserRole.HOSPITAL)
  && bool_decide (user_status u = "ACTIVE").

(** [hospital.availableBeds === null || hospital.availableBeds <= 0] *)
Definition no_available_beds (o : Organization) : bool :=
  match org_availableBeds o with
  | None => true
  | Some b => (b <=? 0)%Z
  end.

(** The callback handed to [prisma.$transaction] by [assignToHospital]. *)
Definition assignToHospital_tx (emergencyId hospitalId userId : string)
  : Async EmergencyRequest :=
  await found <- emergencyRequest_findUnique emergencyId;
  match found with
  | None => throw (NotFoundException "Emergency request not found")
  | Some emergency =>
    await s <- get_db;
    let existingResponse :=
      List.find (fun r => bool_decide (resp_organizationId r = hospitalId))
                (responses_of s emergencyId) in
    if bool_decide (is_Some existingResponse) then
      throw (BadRequestException "This case has already been assigned to this hospital")
    else
    let normalizedStatus :=
      if bool_decide (er_status emergency = "Active")
         || bool_decide (er_status emergency = "ACTIVE")
      then EmergencyStatus.PENDING else er_status emergency in
    if negb (bool_decide (normalizedStatus = EmergencyStatus.PENDING))
       && negb (bool_decide (normalizedStatus = EmergencyStatus.ASSIGNED)) then
      throw (BadRequestException
               ("Only PENDING or ASSIGNED cases can be assigned. Current status: "
                +:+ er_status emergency))
    else
    await_ (if negb (bool_decide (er_status emergency = normalizedStatus)) then
              await_ emergencyRequest_update emergencyId (with_status normalizedStatus);
              ret tt
            else ret tt);
    await hospital_found <- organization_findUnique hospitalId;
    match hospital_found with
    | None => throw (NotFoundException "Hospital not found")
    | Some hospital =>
      if negb (bool_decide (org_type hospital = "HOSPITAL")) then
        throw (NotFoundException "Hospital not found")
      else if no_available_beds hospital then
        throw (BadRequestException "No available beds in the selected hospital")
      else
      await updated <-
        emergencyRequest_update emergencyId
          (fun r => with_updatedBy userId (with_status EmergencyStatus.ASSIGNED r));
      await_ emergencyResponse_create
        {| resp_id := uuid env;
           resp_emergencyRequestId := emergencyId;
           resp_organizationId := hospitalId;
           resp_status := "ASSIGNED";
           resp_dispatchTime := None;
           resp_completionTime := None;
           resp_notes := None;
           resp_createdAt := now env |};
      await updatedHospital <-
        organization_update hospitalId (decrement_beds (now env));
      await hospitalUsers <- user_findMany (is_hospital_user hospitalId);
      await_ for_of hospitalUsers (fun user =>
        createNotification
          {| n_type := "ASSIGNMENT";
             n_title := "New Emergency Assignment";
             n_body := "You have been assigned to emergency case " +:+ emergencyId
                       +:+ " (" +:+ er_type emergency +:+ ")";
             n_userId := user_id user |});
      await_ createNotification
        {| n_type := "STATUS_UPDATE";
           n_title := "Emergency Status Update";
           n_body := "Your emergency request has been assigned to "
                     +:+ org_name hospital;
           n_userId := er_patientId emergency |};
      await_ broadcast
        (HospitalUpdate hospitalId (org_availableBeds updatedHospital));
      ret updated
    end
  end.

Definition assignToHospital (emergencyId hospitalId userId : string)
  : Async EmergencyRequest :=
  await updatedEmergency <-
    transaction (assignToHospital_tx emergencyId hospitalId userId);
  await_ broadcast
    (StatusUpdate (er_id updatedEmergency) (er_status updatedEmergency));
  ret updatedEmergency.

(** Modelled from the spec: the fields of [UpdateEmergencyStatusDto]; the
    DTO class is not among the sources. *)
Record UpdateEmergencyStatusDto := {
  usd_status : string;
  usd_notes : option string;
}.

(** [include: { organization: { include: { users: true } } }] *)
Definition users_of_organization (s : Store) (organizationId : string) : list User :=
  List.filter (fun u => bool_decide (user_organizationId u = Some organizationId))
              (map_to_list (users s)).*2.

Definition updateStatus_tx (id : string) (updateStatusDto : UpdateEmergencyStatusDto)
  : Async EmergencyRequest :=
  await found <- emergencyRequest_findUnique id;
  match found with
  | None => throw (NotFoundException "Emergency request not found")
  | Some emergency =>
    await s <- get_db;
    await updated <-
      emergencyRequest_update id (with_status (usd_status updateStatusDto));
    await_ createNotification
      {| n_type := "STATUS_UPDATE";
         n_title := "Emergency Status Update";
         n_body := "Your emergency request status has been updated to "
                   +:+ usd_status updateStatusDto;
         n_userId := er_patientId emergency |};
    await_ for_of (responses_of s id) (fun response =>
      for_of (users_of_organization s (resp_organizationId response)) (fun user =>
        createNotification
          {| n_type := "STATUS_UPDATE";
             n_title := "Emergency Status Update";
             n_body := "Emergency request " +:+ er_id emergency
                       +:+ " status updated to " +:+ usd_status updateStatusDto;
             n_userId := user_id user |}));
    ret updated
  end.

Definition updateStatus (id : string) (updateStatusDto : UpdateEmergencyStatusDto)
  : Async EmergencyRequest :=
  await updatedEmergency <- transaction (updateStatus_tx id updateStatusDto);
  await_ broadcast
    (StatusUpdate (er_id updatedEmergency) (er_status updatedEmergency));
  ret updatedEmergency.

(** [medicalInfo || { grade: "NON_URGENT", severity: 1 }] *)
Definition medicalInfo_or_default (medicalInfo : Json) : Json :=
  if truthy medicalInfo then medicalInfo
  else JObject [("grade", JString "NON_URGENT"); ("severity", JNumber 1)].

(** The object [getEmergencyRequestById] returns: the selected columns with
    [emergencyType] and the defaulted [medicalInfo]. *)
Record EmergencyRequestView := {
  view_request : EmergencyRequest;
  view_emergencyType : string;
  view_medicalInfo : Json;
  view_responses : list EmergencyResponse;
}.

Definition getEmergencyRequestById (id userId : string) : Async EmergencyRequestView :=
  await found <- emergencyRequest_findUnique id;
  await s <- get_db;
  match found with
  | None => throw (NotFoundException "Emergency request not found")
  | Some emergencyRequest =>
    if negb (bool_decide (er_patientId emergencyRequest = userId)) then
      throw (NotFoundException "Emergency request not found")
    else
      ret {| view_request := emergencyRequest;
             view_emergencyType := er_type emergencyRequest;
             view_medicalInfo :=
               medicalInfo_or_default (er_medicalInfo emergencyRequest);
             view_responses := responses_of s id |}
  end.

(** ** [dashboard/dashboard.service.ts]: class DashboardService *)

(** Modelled from the spec: [AssignCaseDto] and [CancelCaseDto] of
    [dashboard/dto/dashboard.dto.ts], which is not among the sources. *)
Record AssignCaseDto := {
  acd_caseId : string;
  acd_assignedToId : string;
}.

Record CancelCaseDto := {
  ccd_caseId : string;
}.

Definition assignCase (dto : AssignCaseDto) : Async EmergencyRequest :=
  let caseId := acd_caseId dto in
  let assignedToId := acd_assignedToId dto in
  try_catch
    (await found <- emergencyRequest_findUnique caseId;
     match found with
     | None => throw (NotFoundException "Emergency case not found")
     | Some emergency =>
       if negb (includes [EmergencyStatus.PENDING; EmergencyStatus.ASSIGNED;
                          EmergencyStatus.IN_PROGRESS] (er_status emergency)) then
         throw (BadRequestException
                  ("Emergency case can only be assigned if it is in PENDING, ASSIGNED, or IN_PROGRESS status. Current status: "
                   +:+ er_status emergency))
       else
       await organization_found <- organization_findUnique assignedToId;
       match organization_found with
       | None => throw (NotFoundException "Organization not found")
       | Some organization =>
         if negb (includes ["RESCUE_TEAM"; "HOSPITAL"] (org_type organization)) then
           throw (BadRequestException
                    "Only RESCUE_TEAM or HOSPITAL can be assigned to a case")
         else
         await_ emergencyResponse_create
           {| resp_id := uuid env;
              resp_emergencyRequestId := caseId;
              resp_organizationId := assignedToId;
              resp_status := "ASSIGNED";
              resp_dispatchTime := Some (now env);
              resp_completionTime := None;
              resp_notes := None;
              resp_createdAt := now env |};
         await updatedEmergency <-
           emergencyRequest_update caseId (with_status EmergencyStatus.ASSIGNED);
         ret updatedEmergency
       end
     end)
    (fun error => throw error).

Definition cancelCase (dto : CancelCaseDto) : Async EmergencyRequest :=
  let caseId := ccd_caseId dto in
  try_catch
    (await found <- emergencyRequest_findUnique caseId;
     match found with
     | None => throw (NotFoundException "Emergency case not found")
     | Some emergency =>
       if bool_decide (er_status emergency = EmergencyStatus.COMPLETED) then
         throw (BadRequestException "Completed emergency case cannot be cancelled")
       else if bool_decide (er_status emergency = EmergencyStatus.CANCELLED) then
         throw (BadRequestException "Emergency case is already cancelled")
       else
       await updatedEmergency <-
         emergencyRequest_update caseId (with_status EmergencyStatus.CANCELLED);
       await_ try_catch
         (broadcast StatsUpdated)
         (fun gwErr =>
            logger_warn ("Failed to broadcast stats update: " +:+ message_of gwErr));
       ret updatedEmergency
     end)
    (fun error => throw error).

(** ** [hospital/hospital.service.ts]: class HospitalService *)

(** [findOne], as far as [acceptEmergency] uses it: the hospital row or a
    [NotFoundException]. *)
Definition findOne (id : string) : Async Organization :=
  await hospital <- organization_findFirst_hospital id;
  match hospital with
  | None => throw (NotFoundException "Hospital not found")
  | Some h => ret h
  end.

(** Modelled from the spec: [AcceptEmergencyDto] of
    [hospital/dto/hospital.dto.ts], which is not among the sources. *)
Record AcceptEmergencyDto := {
  aed_emergencyId : string;
  aed_notes : option string;
}.

Definition acceptEmergency (hospitalId : string)
    (acceptEmergencyDto : AcceptEmergencyDto) : Async EmergencyResponse :=
  await hospital <- findOne hospitalId;
  await found <- emergencyRequest_findUnique (aed_emergencyId acceptEmergencyDto);
  match found with
  | None => throw (NotFoundException "Emergency request not found")
  | Some emergency =>
    if negb (bool_decide (er_status emergency = EmergencyStatus.PENDING)) then
      throw (BadRequestException "Emergency request is no longer pending")
    else
    await response <-
      emergencyResponse_create
        {| resp_id := uuid env;
           resp_emergencyRequestId := er_id emergency;
           resp_organizationId := hospitalId;
           resp_status := "ACCEPTED";
           resp_dispatchTime := None;
           resp_completionTime := None;
           resp_notes := aed_notes acceptEmergencyDto;
           resp_createdAt := now env |};
    await_ emergencyRequest_update (er_id emergency)
             (with_status EmergencyStatus.ASSIGNED);
    await_ createNotification
      {| n_type := "EMERGENCY_ACCEPTED";
         n_title := "Hospital Accepted Your Emergency";
         n_body := org_name hospital +:+ " has accepted your emergency request";
         n_userId := er_patientId emergency |};
    ret response
  end.

Definition updateEmergencyResponseStatus (responseId : string)
  : Async EmergencyResponse :=
  await found <- emergencyResponse_findUnique responseId;
  match found with
  | None => throw (NotFoundException "Emergency response not found")
  | Some emergencyResponse =>
    if negb (bool_decide (resp_status emergencyResponse = "ACCEPTED")) then
      throw (BadRequestException
               "Emergency response must be in ACCEPTED state to update to IN_PROGRESS")
    else
    try_catch
      (await updatedResponse <-
         emergencyResponse_update responseId (with_response_status "IN_PROGRESS");
       await_ emergencyRequest_update (resp_emergencyRequestId emergencyResponse)
                (with_status EmergencyStatus.IN_PROGRESS);
       ret updatedResponse)
      (fun error =>
         throw (BadRequestException
                  ("Failed to update emergency response: " +:+ message_of error)))
  end.

Definition validStatuses : list string :=
  ["ACCEPTED"; "IN_PROGRESS"; "COMPLETED"; "CANCELLED"].

Definition updateEmergencyResponseStatusManual (responseId status : string)
  : Async EmergencyResponse :=
  await found <- emergencyResponse_findUnique responseId;
  match found with
  | None => throw (NotFoundException "Emergency response not found")
  | Some emergencyResponse =>
    if negb (includes validStatuses status) then
      throw (BadRequestException
               "Invalid status. Valid statuses are: ACCEPTED, IN_PROGRESS, COMPLETED, CANCELLED")
    else
    try_catch
      (await updatedResponse <-
         emergencyResponse_update responseId (with_response_status status);
       await_ emergencyRequest_update (resp_emergencyRequestId emergencyResponse)
                (with_status status);
       ret updatedResponse)
      (fun error =>
         throw (BadRequestException
                  ("Failed to update emergency response: " +:+ message_of error)))
  end.

End Services.

(** ** Dashboard statistics *)

(** *** Double precision

    A finite double is the rational it denotes, kept in lowest terms, so
    that equal doubles are equal terms.  The two zeros are one value: they
    are [===] to each other and print alike. *)

(** [floor (log2 x)] of a positive [x]. *)
Definition ilog2 (x : Q) : Z :=
  let e := (Z.log2 (Qnum x) - Z.log2 (Zpos (Qden x)))%Z in
  if Qle_bool (2 ^ e) x then e else (e - 1)%Z.

(** The nearest integer, a tie going to the even one. *)
Definition round_half_even (x : Q) : Z :=
  let n := Qfloor x in
  match (x - inject_Z n ?= 1 # 2)%Q with
  | Lt => n
  | Gt => (n + 1)%Z
  | Eq => if Z.even n then n else (n + 1)%Z
  end.

(** The double nearest to a real number (IEEE 754 binary64, round to
    nearest, ties to even): 53 significant bits, the exponent of the last
    bit no lower than -1074, and an infinity from 2^1024 on. *)
Definition round64 (x : Q) : JsNumber :=
  if Qeq_bool x 0 then Finite 0
  else
    let e := Z.max (ilog2 (Qabs x)) (-1022) in
    let ulp := (2 ^ (e - 52))%Q in
    let y := (inject_Z (round_half_even (x / ulp)) * ulp)%Q in
    if Qle_bool (2 ^ 1024) (Qabs y) then Infinity (negb (Qle_bool 0 x))
    else Finite (Qred y).

(** [a + b] on doubles. *)
Definition add_double (a b : JsNumber) : JsNumber :=
  match a, b with
  | NaN, _ | _, NaN => NaN
  | Infinity s, Infinity t => if Bool.eqb s t then Infinity s else NaN
  | Infinity s, Finite _ | Finite _, Infinity s => Infinity s
  | Finite x, Finite y => round64 (x + y)
  end.

(** [a / d] on doubles, for a divisor that is a positive integer below
    2^53 (such an integer is a double). *)
Definition div_double (a : JsNumber) (d : positive) : JsNumber :=
  match a with
  | Finite x => round64 (x / inject_Z (Zpos d))
  | _ => a
  end.

(** [Number(x.toFixed(2))].  Below 10^21, [toFixed] prints the integer [n]
    for which [n / 100] is nearest to the absolute value of [x] (the larger
    one of two), with the sign of [x] in front, and [Number] reads the
    nearest double back; from 10^21 on, and for [NaN] and the infinities,
    [toFixed] prints the number itself. *)
Definition toFixed2 (x : JsNumber) : JsNumber :=
  match x with
  | Finite q =>
      if Qle_bool (10 ^ 21) (Qabs q) then x
      else
        let n := Qfloor (Qabs q * 100 + (1 # 2)) in
        if Qle_bool 0 q then round64 (inject_Z n / 100)
        else round64 (- (inject_Z n / 100))
  | _ => x
  end.

(** The loop of [getStats] over the selected responses: the running
    [totalMinutes] and [validCount].  A time stamp comes from the store as a
    valid date, whose [getTime()] is an integer a double holds exactly; the
    difference of two is rounded, and is never [NaN], so the inner test
    always passes.  [validCount] counts array elements and stays far below
    2^53, where adding 1 is exact. *)
Definition response_time_step (acc : JsNumber * Z) (r : EmergencyResponse)
  : JsNumber * Z :=
  match resp_dispatchTime r, resp_completionTime r with
  | Some dispatchTime, Some completionTime =>
      let diffMs := round64 (inject_Z (completionTime - dispatchTime)) in
      (add_double (fst acc) (div_double diffMs (1000 * 60)), (snd acc + 1)%Z)
  | _, _ => acc
  end.

Definition averageResponseTime_of (responseTimes : list EmergencyResponse) : JsNumber :=
  let averageResponseTime :=
    if (0 <? Z.of_nat (length responseTimes))%Z then
      let '(totalMinutes, validCount) :=
        fold_left response_time_step responseTimes (Finite 0, 0%Z) in
      if (0 <? validCount)%Z then div_double totalMinutes (Z.to_pos validCount)
      else Finite 0
    else Finite 0 in
  toFixed2 averageResponseTime.

Section DashboardStats.

Variable env : Env.

(** The two built-ins of the JavaScript runtime that [getSeverity] and
    [getAvailableBeds] call: [JSON.parse] ([None] when it throws a
    [SyntaxError]) and the coercion [Number(v)]. *)
Variable JSON_parse : string -> option Json.
Variable Number : Json -> JsNumber.

(** [typeof v === 'number' ? v : Number(v)] *)
Definition number_or_coerce (v : Json) : JsNumber :=
  match v with
  | JNumber q => Finite q
  | _ => Number v
  end.

Definition getSeverity (medicalInfo : Json) : option JsNumber :=
  if negb (truthy medicalInfo) then None
  else
    match medicalInfo with
    | JObject _ | JArray _ =>
        match property medicalInfo "severity" with
        | Some severity => Some (number_or_coerce severity)
        | None => None
        end
    | JString text =>
        match JSON_parse text with
        | Some parsed =>
            if truthy parsed then
              match property parsed "severity" with
              | Some severity => Some (Number severity)
              | None => None
              end
            else None
        | None => None
        end
    | _ => None
    end.

(** [a ?? b] on property reads: [undefined] and [null] fall through. *)
Definition nullish_or (a b : option Json) : option Json :=
  match a with
  | None | Some JNull => b
  | Some v => Some v
  end.

(** [typeof beds === 'number' ? beds : beds ? Number(beds) : null] *)
Definition beds_number (beds : option Json) : option JsNumber :=
  match beds with
  | Some (JNumber q) => Some (Finite q)
  | Some v => if truthy v then Some (Number v) else None
  | None => None
  end.

(** The argument is [None] when the property [medicalInfo] is [undefined]. *)
Definition getAvailableBeds (medicalInfo : option Json) : option JsNumber :=
  match medicalInfo with
  | None => None
  | Some mi =>
    if negb (truthy mi) then None
    else
      match mi with
      | JObject _ | JArray _ =>
          beds_number (nullish_or (property mi "availableBeds")
                                  (property mi "available_beds"))
      | JString text =>
          match JSON_parse text with
          | Some parsed =>
              beds_number (nullish_or (property parsed "availableBeds")
                                      (property parsed "available_beds"))
          | None => None
          end
      | _ => None
      end
  end.

(** The reduction computing [criticalCases]. *)
Definition criticalCases_of (emergenciesWithMedical : list EmergencyRequest) : nat :=
  fold_left
    (fun acc e =>
       match getSeverity (er_medicalInfo e) with
       | Some sev => (acc + (if strict_eq_number sev (Finite 4) then 1 else 0))%nat
       | None => (acc + 0)%nat
       end)
    emergenciesWithMedical 0%nat.

(** [a + b] on numbers. *)
Definition add_number (a b : JsNumber) : JsNumber :=
  match a, b with
  | NaN, _ | _, NaN => NaN
  | Infinity s, Infinity t => if Bool.eqb s t then Infinity s else NaN
  | Infinity s, Finite _ | Finite _, Infinity s => Infinity s
  | Finite x, Finite y => Finite (x + y)
  end.

(** [if (typeof beds === 'number' && !Number.isNaN(beds))
       availableHospitalBeds += beds] *)
Definition add_beds (total : JsNumber) (beds : option JsNumber) : JsNumber :=
  match beds with
  | None | Some NaN => total
  | Some n => add_number total n
  end.

Record Stats := {
  totalEmergencies : nat;
  activeEmergencies : nat;
  completedEmergencies : nat;
  activeTeams : nat;
  connectedHospitals : nat;
  criticalCases : nat;
  averageResponseTime : JsNumber;
  availableHospitalBeds : JsNumber;
  cancelledEmergencies : nat;
}.

Definition emergencyRequest_count (where_ : EmergencyRequest -> bool) : Async nat :=
  prisma env EmergencyRequest_count
    (await s <- get_db;
     ret (length (List.filter where_ (map_to_list (requests s)).*2))).

Definition organization_count (where_ : Organization -> bool) : Async nat :=
  prisma env Organization_count
    (await s <- get_db;
     ret (length (List.filter where_ (map_to_list (organizations s)).*2))).

Definition organization_findMany (where_ : Organization -> bool)
  : Async (list Organization) :=
  prisma env Organization_findMany
    (await s <- get_db;
     ret (List.filter where_ (map_to_list (organizations s)).*2)).

Definition is_active_of_type (type : string) (o : Organization) : bool :=
  bool_decide (org_type o = type) && bool_decide (org_status o = "ACTIVE").

(** The hospitals are selected with [id] and [name] only, so the
    [medicalInfo] handed to [getAvailableBeds] is [undefined] for each. *)
Definition getStats : Async Stats :=
  try_catch
    (await totalEmergencies <- emergencyRequest_count (fun _ => true);
     await activeEmergencies <-
       emergencyRequest_count (fun e =>
         includes [EmergencyStatus.PENDING; EmergencyStatus.ASSIGNED;
                   EmergencyStatus.IN_PROGRESS] (er_status e));
     await completedEmergencies <-
       emergencyRequest_count (fun e =>
         bool_decide (er_status e = EmergencyStatus.COMPLETED));
     await activeTeams <- organization_count (is_active_of_type "RESCUE_TEAM");
     await connectedHospitalsCount <-
       organization_count (is_active_of_type "HOSPITAL");
     await cancelledEmergencies <-
       emergencyRequest_count (fun e =>
         bool_decide (er_status e = EmergencyStatus.CANCELLED));
     await responseTimes <-
       emergencyResponse_findMany env (fun r =>
         bool_decide (resp_status r = "COMPLETED"));
     await hospitalCapacities <-
       organization_findMany (is_active_of_type "HOSPITAL");
     await emergenciesWithMedical <- emergencyRequest_findMany env;
     let criticalCases := criticalCases_of emergenciesWithMedical in
     let availableHospitalBeds :=
       fold_left (fun total (hospital : Organization) =>
                    add_beds total (getAvailableBeds None))
                 hospitalCapacities (Finite 0) in
     ret {| totalEmergencies := totalEmergencies;
            activeEmergencies := activeEmergencies;
            completedEmergencies := completedEmergencies;
            activeTeams := activeTeams;
            connectedHospitals := connectedHospitalsCount;
            criticalCases := criticalCases;
            averageResponseTime := averageResponseTime_of responseTimes;
            availableHospitalBeds := availableHospitalBeds;
            cancelledEmergencies := cancelledEmergencies |})
    (fun error =>
       throw (InternalServerErrorException
                ("Cannot fetch dashboard stats: " +:+ message_of error))).

End DashboardStats.


From Stdlib Require Import Lqa Qpower.

(** * More of the services *)

Section MoreServices.

Variable env : Env.

(** ** [sos/sos.service.ts]: the reads *)

(** [prisma.emergencyRequest.findMany({ where })]; a relation filter looks
    at the other tables. *)
Definition emergencyRequest_findMany_where
    (where_ : Store -> EmergencyRequest -> bool) : Async (list EmergencyRequest) :=
  prisma env EmergencyRequest_findMany
    (await s <- get_db;
     ret (List.filter (where_ s) (map_to_list (requests s)).*2)).

(** [{ ...request, emergencyType: request.type,
       medicalInfo: request.medicalInfo || { grade: "NON_URGENT", severity: 1 } }],
    the request coming with its responses. *)
Definition view_of (s : Store) (request : EmergencyRequest) : EmergencyRequestView :=
  {| view_request := request;
     view_emergencyType := er_type request;
     view_medicalInfo := medicalInfo_or_default (er_medicalInfo request);
     view_responses := responses_of s (er_id request) |}.

Definition getEmergencyRequests (userId : string) : Async (list EmergencyRequestView) :=
  await emergencyRequests <-
    emergencyRequest_findMany_where (fun _ r => bool_decide (er_patientId r = userId));
  await s <- get_db;
  if (length emergencyRequests =? 0)%nat then ret []
  else ret (List.map (view_of s) emergencyRequests).

Definition getAllEmergencyRequests : Async (list EmergencyRequestView) :=
  await emergencyRequests <- emergencyRequest_findMany_where (fun _ _ => true);
  await s <- get_db;
  if (length emergencyRequests =? 0)%nat then ret []
  else ret (List.map (view_of s) emergencyRequests).

(** [responses: { some: { organizationId, status: { in: [...] } } }] *)
Definition some_response (s : Store) (request : EmergencyRequest)
    (test : EmergencyResponse -> bool) : bool :=
  existsb test (responses_of s (er_id request)).

Definition findActiveEmergenciesByHospital (hospitalId : string)
  : Async (list EmergencyRequestView) :=
  await emergencyRequests <-
    emergencyRequest_findMany_where (fun s r =>
      some_response s r (fun x =>
        bool_decide (resp_organizationId x = hospitalId)
        && includes ["ASSIGNED"; "IN_PROGRESS"] (resp_status x)));
  await s <- get_db;
  ret (List.map (view_of s) emergencyRequests).

Definition findCasesByRescueTeam (rescueTeamId : string)
  : Async (list EmergencyRequestView) :=
  await emergencyRequests <-
    emergencyRequest_findMany_where (fun s r =>
      some_response s r (fun x => bool_decide (resp_organizationId x = rescueTeamId)));
  await s <- get_db;
  ret (List.map (view_of s) emergencyRequests).

(** ** [hospital/hospital.service.ts]: more of HospitalService *)

Definition with_org_status (st : string) (o : Organization) : Organization :=
  {| org_id := org_id o; org_name := org_name o; org_type := org_type o;
     org_status := st; org_availableBeds := org_availableBeds o;
     org_updatedAt := org_updatedAt o |}.

Definition remove (id : string) : Async Organization :=
  await hospital <- findOne env id;
  organization_update env id (with_org_status "INACTIVE").

(** A response with the rows its required relations point at. *)
Record EmergencyResponseWithRelations := {
  rel_response : EmergencyResponse;
  rel_emergencyRequest : EmergencyRequest;
  rel_organization : Organization;
}.

(** [include: { emergencyRequest: true, organization: true }]: the client
    refuses a row whose required relation is missing. *)
Definition with_relations (call : PrismaCall) (s : Store) (r : EmergencyResponse)
  : Async EmergencyResponseWithRelations :=
  match requests s !! resp_emergencyRequestId r,
        organizations s !! resp_organizationId r with
  | Some request, Some organization =>
      ret {| rel_response := r; rel_emergencyRequest := request;
             rel_organization := organization |}
  | _, _ => throw (PrismaClientError call)
  end.

Definition emergencyResponse_findUnique_include (id : string)
  : Async (option EmergencyResponseWithRelations) :=
  prisma env EmergencyResponse_findUnique
    (await s <- get_db;
     match find_response id (responses s) with
     | None => ret None
     | Some r =>
         await found <- with_relations EmergencyResponse_findUnique s r;
         ret (Some found)
     end).

Definition getEmergencyResponse (responseId : string)
  : Async EmergencyResponseWithRelations :=
  try_catch
    (await emergencyResponse <- emergencyResponse_findUnique_include responseId;
     match emergencyResponse with
     | None => throw (NotFoundException "Emergency response not found")
     | Some found => ret found
     end)
    (fun error => throw error).

(** The active rescue teams ([include: { users: true }] is read off the
    user table where it is used). *)
Definition is_active_rescue_team (o : Organization) : bool :=
  bool_decide (org_type o = "RESCUE_TEAM") && bool_decide (org_status o = "ACTIVE").

(** [include: { emergencyRequest: { include: { patient: true } },
                organization: true }] *)
Definition emergencyResponse_findUnique_for_notify (id : string)
  : Async (option EmergencyResponseWithRelations) :=
  prisma env EmergencyResponse_findUnique
    (await s <- get_db;
     match find_response id (responses s) with
     | None => ret None
     | Some r =>
         await found <- with_relations EmergencyResponse_findUnique s r;
         match users s !! er_patientId (rel_emergencyRequest found) with
         | Some _ => ret (Some found)
         | None => throw (PrismaClientError EmergencyResponse_findUnique)
         end
     end).

Definition notifyRescueTeam (responseId : string) : Async string :=
  await emergencyResponse <- emergencyResponse_findUnique_for_notify responseId;
  match emergencyResponse with
  | None => throw (NotFoundException "Emergency response not found")
  | Some found =>
    await rescueTeams <- organization_findMany env is_active_rescue_team;
    await s <- get_db;
    if (length rescueTeams =? 0)%nat then
      throw (NotFoundException "No active rescue teams found")
    else
    try_catch
      (await_ for_of rescueTeams (fun rescueTeam =>
         for_of (users_of_organization s (org_id rescueTeam)) (fun user =>
           createNotification env
             {| n_type := "RESCUE_REQUEST";
                n_title := "Emergency Assistance Requested";
                n_body := "Hospital " +:+ org_name (rel_organization found)
                          +:+ " requests assistance for emergency at location: "
                          +:+ er_location (rel_emergencyRequest found);
                n_userId := user_id user |}));
       ret "Rescue teams notified successfully")
      (fun error =>
         throw (BadRequestException
                  ("Failed to notify rescue teams: " +:+ message_of error)))
  end.

(** *** [getActiveRescueTeamsForHospital] *)

Record LinkedCase := {
  lc_emergencyId : string;
  lc_responseId : string;
  lc_status : string;
}.

(** A value of [rescueTeamMap]: the organization spread into an object whose
    [status] is overwritten by the status of the response that introduced the
    team.  Of the organization's columns the row model has [id] and [name];
    [address], [city] and [vehicleTypes] are copied through untouched by the
    source and are left out. *)
Record TeamEntry := {
  te_id : string;
  te_name : string;
  te_status : string;
  te_linkedCases : list LinkedCase;
}.

(** A rescue response with its organization, as the nested include returns
    it: [responses: { where: { organization: { type: "RESCUE_TEAM" } },
    include: { organization: true } }]. *)
Definition rescue_responses (s : Store) (request : EmergencyRequest)
  : list (EmergencyResponse * Organization) :=
  omap (fun x =>
          match organizations s !! resp_organizationId x with
          | Some o => if bool_decide (org_type o = "RESCUE_TEAM") then Some (x, o)
                      else None
          | None => None
          end)
       (responses_of s (er_id request)).

(** [team.linkedCases.push(case)] on the entry under [teamId]. *)
Fixpoint push_case (teamId : string) (case : LinkedCase)
    (m : list (string * TeamEntry)) : list (string * TeamEntry) :=
  match m with
  | [] => []
  | (k, team) :: rest =>
      if bool_decide (k = teamId)
      then (k, {| te_id := te_id team; te_name := te_name team;
                  te_status := te_status team;
                  te_linkedCases := te_linkedCases team ++ [case] |}) :: rest
      else (k, team) :: push_case teamId case rest
  end.

(** [rescueTeamMap.has(teamId)] on a [Map] kept in insertion order. *)
Definition map_has (teamId : string) (m : list (string * TeamEntry)) : bool :=
  existsb (fun kv => bool_decide (kv.1 = teamId)) m.

(** The body of the inner [forEach]. *)
Definition link_rescue_response (request : EmergencyRequest)
    (m : list (string * TeamEntry)) (rescue : EmergencyResponse * Organization)
  : list (string * TeamEntry) :=
  let '(rescueResponse, organization) := rescue in
  let teamId := org_id organization in
  let m1 :=
    if negb (map_has teamId m)
    then (m ++ [(teamId, {| te_id := org_id organization;
                            te_name := org_name organization;
                            te_status := resp_status rescueResponse;
                            te_linkedCases := [] |})])%list
    else m in
  push_case teamId
    {| lc_emergencyId := er_id request;
       lc_responseId := resp_id rescueResponse;
       lc_status := resp_status rescueResponse |}
    m1.

Record ActiveRescueTeam := {
  art_id : string;
  art_name : string;
  art_status : string;
  art_linkedCases : list LinkedCase;
  art_linkedCasesCount : nat;
}.

(** [team.status || team.status || "ACTIVE"] *)
Definition team_of_entry (team : TeamEntry) : ActiveRescueTeam :=
  {| art_id := te_id team;
     art_name := te_name team;
     art_status := if bool_decide (te_status team = "") then "ACTIVE" else te_status team;
     art_linkedCases := te_linkedCases team;
     art_linkedCasesCount := length (te_linkedCases team) |}.

(** The two nested [forEach] loops over the hospital's responses, each with
    its request. *)
Definition rescueTeamMap_of (s : Store)
    (emergencyResponses : list EmergencyResponseWithRelations)
  : list (string * TeamEntry) :=
  fold_left
    (fun m response =>
       fold_left (link_rescue_response (rel_emergencyRequest response))
                 (rescue_responses s (rel_emergencyRequest response)) m)
    emergencyResponses [].

Fixpoint all_with_relations (call : PrismaCall) (s : Store) (rs : list EmergencyResponse)
  : Async (list EmergencyResponseWithRelations) :=
  match rs with
  | [] => ret []
  | r :: rest =>
      await found <- with_relations call s r;
      await others <- all_with_relations call s rest;
      ret (found :: others)
  end.

Definition getActiveRescueTeamsForHospital (hospitalId : string)
  : Async (list ActiveRescueTeam) :=
  try_catch
    (await emergencyResponses <-
       prisma env EmergencyResponse_findMany
         (await s <- get_db;
          all_with_relations EmergencyResponse_findMany s
            (List.filter
               (fun x => bool_decide (resp_organizationId x = hospitalId)
                         && includes ["ASSIGNED"; "IN_PROGRESS"] (resp_status x))
               (responses s)));
     await s <- get_db;
     let rescueTeamMap := rescueTeamMap_of s emergencyResponses in
     ret (List.map (fun kv => team_of_entry kv.2) rescueTeamMap))
    (fun error =>
       throw (BadRequestException
                ("Cannot fetch active rescue teams: " +:+ message_of error))).

End MoreServices.
(** * Vocabulary of the properties *)

(** ** The environment behaving *)

Definition no_prisma_faults (env : Env) : Prop :=
  forall call, prisma_fails env call = false.

Definition notifications_delivered (env : Env) : Prop :=
  forall n, notification_fails env n = false.

Definition gateway_up (env : Env) : Prop :=
  forall ev, gateway_fails env ev = false.

(** ** Sample data

    One patient, one hospital with a staff member and one request; the
    worlds below differ in the status of the request, in the beds of the
    hospital and in the responses already recorded. *)

Module Sample.

Definition env_ok : Env :=
  {| prisma_fails := fun _ => false;
     notification_fails := fun _ => false;
     gateway_fails := fun _ => false;
     uuid := "resp-2";
     now := 1700000000000 |}.

(** The gateway throws on every emit. *)
Definition env_gateway_down : Env :=
  {| prisma_fails := fun _ => false;
     notification_fails := fun _ => false;
     gateway_fails := fun _ => true;
     uuid := "resp-2";
     now := 1700000000000 |}.

(** Every notification write throws. *)
Definition env_notifications_down : Env :=
  {| prisma_fails := fun _ => false;
     notification_fails := fun _ => true;
     gateway_fails := fun _ => false;
     uuid := "resp-2";
     now := 1700000000000 |}.

(** The store refuses updates of request rows and nothing else. *)
Definition env_request_update_refused : Env :=
  {| prisma_fails := fun call =>
       match call with EmergencyRequest_update => true | _ => false end;
     notification_fails := fun _ => false;
     gateway_fails := fun _ => false;
     uuid := "resp-2";
     now := 1700000000000 |}.

Definition patient : User :=
  {| user_id := "patient-1"; user_firstName := "Somchai"; user_lastName := "Dee";
     user_role := "PATIENT"; user_status := "ACTIVE"; user_organizationId := None |}.

Definition nurse : User :=
  {| user_id := "nurse-1"; user_firstName := "Malee"; user_lastName := "Suk";
     user_role := "HOSPITAL"; user_status := "ACTIVE";
     user_organizationId := Some "hospital-1" |}.

Definition hospital (beds : option Z) : Organization :=
  {| org_id := "hospital-1"; org_name := "Central Hospital"; org_type := "HOSPITAL";
     org_status := "ACTIVE"; org_availableBeds := beds; org_updatedAt := 0 |}.

Definition request (status : string) : EmergencyRequest :=
  {| er_id := "case-1"; er_status := status; er_type := "MEDICAL";
     er_description := "chest pain"; er_location := "Bangkok";
     er_latitude := 13.75; er_longitude := 100.5;
     er_medicalInfo := JObject [("grade", JString "URGENT"); ("severity", JNumber 3)];
     er_patientId := "patient-1"; er_updatedBy := None |}.

Definition response (status : string) : EmergencyResponse :=
  {| resp_id := "resp-1"; resp_emergencyRequestId := "case-1";
     resp_organizationId := "hospital-1"; resp_status := status;
     resp_dispatchTime := None; resp_completionTime := None;
     resp_notes := None; resp_createdAt := 0 |}.

Definition store (status : string) (beds : option Z) (rs : list EmergencyResponse)
  : Store :=
  {| requests := {[ "case-1" := request status ]};
     organizations := {[ "hospital-1" := hospital beds ]};
     responses := rs;
     users := <[ "nurse-1" := nurse ]> {[ "patient-1" := patient ]} |}.

Definition world (status : string) (beds : option Z) (rs : list EmergencyResponse)
  : World :=
  {| db := store status beds rs; outbox := [] |}.

(** The environment of an SOS submission: the store hands out a new id. *)
Definition env_new_case : Env :=
  {| prisma_fails := fun _ => false;
     notification_fails := fun _ => false;
     gateway_fails := fun _ => false;
     uuid := "case-2";
     now := 1700000000000 |}.

(** An SOS submission of the given grade; the client also sent a severity
    of its own. *)
Definition sos (grade : string) : CreateEmergencyRequestDto :=
  {| dto_patientId := None;
     dto_type := "ACCIDENT";
     dto_description := "car crash";
     dto_location := "Chiang Mai";
     dto_latitude := 18.79;
     dto_longitude := 98.98;
     dto_medicalInfo := Some [("severity", JNumber 2); ("symptoms", JString "bleeding")];
     dto_grade := grade |}.

End Sample.

(** ** Links between requests and organizations *)

(** The response row [x] links the request [emergencyId] to the organization
    [organizationId]. *)
Definition links (emergencyId organizationId : string) (x : EmergencyResponse) : Prop :=
  resp_emergencyRequestId x = emergencyId /\ resp_organizationId x = organizationId.

Global Instance links_dec emergencyId organizationId x :
  Decision (links emergencyId organizationId x).
Proof. unfold links. apply _. Defined.

(** The rows of the response table that link the pair. *)
Definition links_of (s : Store) (emergencyId organizationId : string)
  : list EmergencyResponse :=
  filter (links emergencyId organizationId) (responses s).

(** ** Intermediate states of the operations *)

(** What [cancelCase] leaves in the outbox after the update: the broadcast,
    or the warning written when the gateway threw. *)
Definition cancel_trace (env : Env) : Effect :=
  if gateway_fails env StatsUpdated
  then Warned ("Failed to broadcast stats update: "
               +:+ message_of (GatewayError StatsUpdated))
  else Broadcasted StatsUpdated.

(** The status after [assignToHospital] has normalised it. *)
Definition normalized (status : string) : string :=
  if bool_decide (status = "Active") || bool_decide (status = "ACTIVE")
  then EmergencyStatus.PENDING else status.

(** Past the first two guards the transaction of [assignToHospital] reaches
    the hospital lookup with the request carrying its normalised status. *)
Definition normalized_world (emergencyId : string) (w : World) (r : EmergencyRequest)
  : World :=
  if bool_decide (er_status r = normalized (er_status r)) then w
  else {| db := set_requests
                  (<[emergencyId := with_status (normalized (er_status r)) r]>
                     (requests (db w))) (db w);
          outbox := outbox w |}.

(** The response row [assignToHospital] creates. *)
Definition assigned_response (env : Env) (emergencyId hospitalId : string)
  : EmergencyResponse :=
  {| resp_id := uuid env;
     resp_emergencyRequestId := emergencyId;
     resp_organizationId := hospitalId;
     resp_status := "ASSIGNED";
     resp_dispatchTime := None;
     resp_completionTime := None;
     resp_notes := None;
     resp_createdAt := now env |}.

(** The store a committed [assignToHospital] leaves: the request ASSIGNED
    and signed by the caller, one response row more, one bed less. *)
Definition assigned_store (env : Env) (emergencyId hospitalId userId : string)
    (r : EmergencyRequest) (h : Organization) (s : Store) : Store :=
  {| requests :=
       <[emergencyId := with_updatedBy userId (with_status EmergencyStatus.ASSIGNED r)]>
         (requests s);
     organizations := <[hospitalId := decrement_beds (now env) h]> (organizations s);
     responses := responses s ++ [assigned_response env emergencyId hospitalId];
     users := users s |}.

(** The response row [assignCase] creates. *)
Definition dashboard_response (env : Env) (dto : AssignCaseDto) : EmergencyResponse :=
  {| resp_id := uuid env;
     resp_emergencyRequestId := acd_caseId dto;
     resp_organizationId := acd_assignedToId dto;
     resp_status := "ASSIGNED";
     resp_dispatchTime := Some (now env);
     resp_completionTime := None;
     resp_notes := None;
     resp_createdAt := now env |}.

(** [assignCase] accepts the request and the organization: the case is open
    and the organization is a rescue team or a hospital. *)
Definition assignable (r : EmergencyRequest) (o : Organization) : Prop :=
  er_status r ∈ [EmergencyStatus.PENDING; EmergencyStatus.ASSIGNED;
                 EmergencyStatus.IN_PROGRESS] /\
  org_type o ∈ ["RESCUE_TEAM"; "HOSPITAL"].

(** ** The status invariant *)

(** Every request of the store carries a member of [EmergencyStatus]. *)
Definition status_invariant (s : Store) : Prop :=
  forall id r, requests s !! id = Some r -> er_status r ∈ EmergencyStatus.members.

(** A computation keeps a property of the store, whatever its outcome. *)
Definition preserves {A} (I : Store -> Prop) (m : Async A) : Prop :=
  forall w, I (db w) -> I (db (m w).2).

(** The row [createEmergencyRequest] writes. *)
Definition created_request (env : Env) (createSosDto : CreateEmergencyRequestDto)
    (userId : string) : EmergencyRequest :=
  {| er_id := uuid env;
     er_status := EmergencyStatus.PENDING;
     er_type := dto_type createSosDto;
     er_description := dto_description createSosDto;
     er_location := dto_location createSosDto;
     er_latitude := dto_latitude createSosDto;
     er_longitude := dto_longitude createSosDto;
     er_medicalInfo := medicalInfo_of createSosDto;
     er_patientId := patientId_of createSosDto userId;
     er_updatedBy := None |}.

(** ** Vocabulary of the dashboard statistics *)

Section StatsVocabulary.

Variable JSON_parse : string -> option Json.
Variable Number : Json -> JsNumber.



End StatsVocabulary.

(** The minutes between dispatch and completion, for a response that has
    both time stamps. *)
Definition response_minutes (r : EmergencyResponse) : option Q :=
  match resp_dispatchTime r, resp_completionTime r with
  | Some dispatchTime, Some completionTime =>
      Some (inject_Z (completionTime - dispatchTime) / (1000 * 60))%Q
  | _, _ => None
  end.

Definition is_completed (r : EmergencyResponse) : bool :=
  bool_decide (resp_status r = "COMPLETED").

(** The durations the average ranges over: COMPLETED responses with both
    time stamps. *)
Definition completed_durations (rs : list EmergencyResponse) : list Q :=
  omap response_minutes (List.filter is_completed rs).

(** The same durations in milliseconds. *)
Definition response_milliseconds (r : EmergencyResponse) : option Z :=
  match resp_dispatchTime r, resp_completionTime r with
  | Some dispatchTime, Some completionTime => Some (completionTime - dispatchTime)%Z
  | _, _ => None
  end.

Definition completed_milliseconds (rs : list EmergencyResponse) : list Z :=
  omap response_milliseconds (List.filter is_completed rs).

(** A duration of so many milliseconds in minutes, as a double. *)
Definition minutes_double (milliseconds : Z) : JsNumber :=
  div_double (round64 (inject_Z milliseconds)) 60000.

(** The sum of doubles, added up from the left, each sum rounded. *)
Definition double_sum (xs : list JsNumber) : JsNumber :=
  fold_left add_double xs (Finite 0).

(** The mean of durations as double-precision arithmetic computes it: each
    duration turned into minutes, the minutes added up one by one, the total
    divided by their number; of no durations at all it is taken to be 0. *)
Definition double_mean (milliseconds : list Z) : JsNumber :=
  match milliseconds with
  | [] => Finite 0
  | _ => div_double (double_sum (List.map minutes_double milliseconds))
                    (Pos.of_nat (length milliseconds))
  end.

Definition Qsum (xs : list Q) : Q := foldr Qplus 0%Q xs.

(** The arithmetic mean; of no numbers at all it is taken to be 0. *)
Definition mean (xs : list Q) : Q :=
  match xs with
  | [] => 0%Q
  | _ => (Qsum xs / inject_Z (Z.of_nat (length xs)))%Q
  end.

(** A response of the sample hospital to the sample request, with the given
    time stamps. *)
Definition timed_response (id status : string) (dispatchTime completionTime : option Z)
  : EmergencyResponse :=
  {| resp_id := id; resp_emergencyRequestId := "case-1";
     resp_organizationId := "hospital-1"; resp_status := status;
     resp_dispatchTime := dispatchTime; resp_completionTime := completionTime;
     resp_notes := None; resp_createdAt := 0 |}.


(** ** Vocabulary of the further properties *)

(** Every request row sits under its own id. *)
Definition keyed (s : Store) : Prop :=
  forall id r, requests s !! id = Some r -> er_id r = id.

(** No hospital has a negative number of available beds. *)
Definition beds_nonnegative (s : Store) : Prop :=
  forall id o b,
    organizations s !! id = Some o -> org_availableBeds o = Some b -> (0 <= b)%Z.

(** The result lists the request [r]. *)
Definition lists (views : list EmergencyRequestView) (r : EmergencyRequest) : Prop :=
  exists v, v ∈ views /\ view_request v = r.

(** The hospital has a response to the request that is ASSIGNED or
    IN_PROGRESS. *)
Definition actively_handles (s : Store) (hospitalId : string) (r : EmergencyRequest)
  : Prop :=
  exists x, x ∈ responses s /\
            resp_emergencyRequestId x = er_id r /\
            resp_organizationId x = hospitalId /\
            (resp_status x = "ASSIGNED" \/ resp_status x = "IN_PROGRESS").

(** The store after [updateStatus] has committed. *)
Definition status_store (id status : string) (r : EmergencyRequest) (s : Store) : Store :=
  set_requests (<[id := with_status status r]> (requests s)) s.

(** The notifications in an outbox. *)
Definition notifications_of (out : list Effect) : list NotificationInput :=
  omap (fun e => match e with Notified n => Some n | _ => None end) out.

(** More sample data: a rescue team with one member, and a second request. *)
Module Sample2.

Definition rescue_team : Organization :=
  {| org_id := "rescue-1"; org_name := "Rescue One"; org_type := "RESCUE_TEAM";
     org_status := "ACTIVE"; org_availableBeds := None; org_updatedAt := 0 |}.

Definition medic : User :=
  {| user_id := "medic-1"; user_firstName := "Anan"; user_lastName := "Chai";
     user_role := "RESCUE_TEAM"; user_status := "ACTIVE";
     user_organizationId := Some "rescue-1" |}.

Definition rescue_response (id status : string) : EmergencyResponse :=
  {| resp_id := id; resp_emergencyRequestId := "case-1";
     resp_organizationId := "rescue-1"; resp_status := status;
     resp_dispatchTime := None; resp_completionTime := None;
     resp_notes := None; resp_createdAt := 0 |}.

Definition store (status : string) (beds : option Z) (rs : list EmergencyResponse)
  : Store :=
  {| requests := {[ "case-1" := Sample.request status ]};
     organizations :=
       <[ "rescue-1" := rescue_team ]> {[ "hospital-1" := Sample.hospital beds ]};
     responses := rs;
     users := <[ "medic-1" := medic ]>
                (<[ "nurse-1" := Sample.nurse ]> {[ "patient-1" := Sample.patient ]}) |}.

Definition world (status : string) (beds : option Z) (rs : list EmergencyResponse)
  : World :=
  {| db := store status beds rs; outbox := [] |}.

End Sample2.

(** The response row [acceptEmergency] creates. *)
Definition accepted_response (env : Env) (hospitalId : string)
    (acceptEmergencyDto : AcceptEmergencyDto) (r : EmergencyRequest) : EmergencyResponse :=
  {| resp_id := uuid env;
     resp_emergencyRequestId := er_id r;
     resp_organizationId := hospitalId;
     resp_status := "ACCEPTED";
     resp_dispatchTime := None;
     resp_completionTime := None;
     resp_notes := aed_notes acceptEmergencyDto;
     resp_createdAt := now env |}.

(** The response table after [id] has been given the status [st]. *)
Definition responses_with_status (id st : string) (l : list EmergencyResponse)
  : list EmergencyResponse :=
  List.map (fun x => if bool_decide (resp_id x = id) then with_response_status st x else x) l.

(** The request is in one of the three open statuses. *)
Definition is_active_status (e : EmergencyRequest) : bool :=
  includes [EmergencyStatus.PENDING; EmergencyStatus.ASSIGNED;
            EmergencyStatus.IN_PROGRESS] (er_status e).


(** The notification [notifyRescueTeam] sends to a member of a rescue team. *)
Definition rescue_request (found : EmergencyResponseWithRelations) (u : User)
  : NotificationInput :=
  {| n_type := "RESCUE_REQUEST";
     n_title := "Emergency Assistance Requested";
     n_body := "Hospital " +:+ org_name (rel_organization found)
               +:+ " requests assistance for emergency at location: "
               +:+ er_location (rel_emergencyRequest found);
     n_userId := user_id u |}.

(** The members of the active rescue teams, team by team. *)
Definition active_rescue_team_members (s : Store) : list User :=
  concat (List.map (fun t => users_of_organization s (org_id t))
                   (List.filter is_active_rescue_team (map_to_list (organizations s)).*2)).

(** Every notification write to the given user throws. *)
Definition env_user_unreachable (userId : string) : Env :=
  {| prisma_fails := fun _ => false;
     notification_fails := fun n => bool_decide (n_userId n = userId);
     gateway_fails := fun _ => false;
     uuid := "resp-2";
     now := 1700000000000 |}.

(** Every response points at an existing request and an existing
    organization, as the foreign keys of the schema demand. *)
Definition referential (s : Store) : Prop :=
  forall x, x ∈ responses s ->
    is_Some (requests s !! resp_emergencyRequestId x) /\
    is_Some (organizations s !! resp_organizationId x).

(** The entry of [linkedCases] for a rescue response to a request. *)
Definition linked_case (r : EmergencyRequest) (y : EmergencyResponse) : LinkedCase :=
  {| lc_emergencyId := er_id r; lc_responseId := resp_id y; lc_status := resp_status y |}.

(** The hospital has an ASSIGNED or IN_PROGRESS response to the request [r],
    and [y] is a response to [r] of the rescue team [o]. *)
Definition rescue_link (s : Store) (hospitalId : string)
    (r : EmergencyRequest) (y : EmergencyResponse) (o : Organization) : Prop :=
  (exists x, x ∈ responses s /\
             resp_organizationId x = hospitalId /\
             (resp_status x = "ASSIGNED" \/ resp_status x = "IN_PROGRESS") /\
             requests s !! resp_emergencyRequestId x = Some r) /\
  y ∈ responses s /\
  resp_emergencyRequestId y = er_id r /\
  organizations s !! resp_organizationId y = Some o /\
  org_type o = "RESCUE_TEAM".

(** The linked case [c] under the team id [k] comes from a rescue link. *)
Definition linked_from (s : Store) (hospitalId : string) (k : string) (c : LinkedCase)
  : Prop :=
  exists r y o, rescue_link s hospitalId r y o /\ k = org_id o /\ c = linked_case r y.

(** The invariant of [rescueTeamMap]: one entry per key, each under the id
    of its team, none without a linked case, every linked case from a
    rescue link. *)
Definition team_map_ok (ok : string -> LinkedCase -> Prop)
    (m : list (string * TeamEntry)) : Prop :=
  NoDup m.*1 /\
  forall k t, (k, t) ∈ m ->
    te_id t = k /\ te_linkedCases t <> [] /\
    forall c, c ∈ te_linkedCases t -> ok k c.

(** The map has the linked case [c] under the key [k]. *)
Definition covers (m : list (string * TeamEntry)) (k : string) (c : LinkedCase) : Prop :=
  exists t, (k, t) ∈ m /\ te_id t = k /\ c ∈ te_linkedCases t.

(** The primary keys of the organization and user tables: every row sits
    under its own id. *)
Definition organizations_keyed (s : Store) : Prop :=
  map_Forall (fun id o => org_id o = id) (organizations s).

Definition users_keyed (s : Store) : Prop :=
  map_Forall (fun id u => user_id u = id) (users s).
(** * Properties *)

(** ** Running the primitives *)

Section Run.

Variable env : Env.

Lemma prisma_ok {A} call (m : Async A) w :
  prisma_fails env call = false -> prisma env call m w = m w.
Proof. intros H. unfold prisma. by rewrite H. Qed.

Lemma prisma_refused {A} call (m : Async A) w :
  prisma_fails env call = true ->
  prisma env call m w = (Thrown (PrismaClientError call), w).
Proof. intros H. unfold prisma. by rewrite H. Qed.

Lemma emergencyRequest_findUnique_ok id w :
  prisma_fails env EmergencyRequest_findUnique = false ->
  emergencyRequest_findUnique env id w = (Returned (requests (db w) !! id), w).
Proof. intros H. unfold emergencyRequest_findUnique. by rewrite prisma_ok. Qed.

Lemma emergencyRequest_update_ok id data w r :
  prisma_fails env EmergencyRequest_update = false ->
  requests (db w) !! id = Some r ->
  emergencyRequest_update env id data w =
    (Returned (data r),
     {| db := set_requests (<[id := data r]> (requests (db w))) (db w);
        outbox := outbox w |}).
Proof.
  intros H Hr. unfold emergencyRequest_update. rewrite prisma_ok by done.
  unfold bind, get_db. by rewrite Hr.
Qed.

Lemma organization_findUnique_ok id w :
  prisma_fails env Organization_findUnique = false ->
  organization_findUnique env id w = (Returned (organizations (db w) !! id), w).
Proof. intros H. unfold organization_findUnique. by rewrite prisma_ok. Qed.

Lemma organization_update_ok id data w o :
  prisma_fails env Organization_update = false ->
  organizations (db w) !! id = Some o ->
  organization_update env id data w =
    (Returned (data o),
     {| db := set_organizations (<[id := data o]> (organizations (db w))) (db w);
        outbox := outbox w |}).
Proof.
  intros H Ho. unfold organization_update. rewrite prisma_ok by done.
  unfold bind, get_db. by rewrite Ho.
Qed.

Lemma emergencyResponse_create_ok data w :
  prisma_fails env EmergencyResponse_create = false ->
  find_response (resp_id data) (responses (db w)) = None ->
  is_Some (requests (db w) !! resp_emergencyRequestId data) ->
  is_Some (organizations (db w) !! resp_organizationId data) ->
  emergencyResponse_create env data w =
    (Returned data,
     {| db := set_responses (responses (db w) ++ [data]) (db w);
        outbox := outbox w |}).
Proof.
  intros H Hfresh [r Hr] [o Ho]. unfold emergencyResponse_create.
  rewrite prisma_ok by done. unfold bind, get_db. by rewrite Hfresh, Hr, Ho.
Qed.

Lemma user_findMany_ok where_ w :
  prisma_fails env User_findMany = false ->
  user_findMany env where_ w =
    (Returned (List.filter where_ (map_to_list (users (db w))).*2), w).
Proof. intros H. unfold user_findMany. by rewrite prisma_ok. Qed.

(** A loop of notification writes that all go through leaves the rows
    alone and returns. *)
Lemma for_of_createNotification_ok {A} (xs : list A) (mk : A -> NotificationInput) w :
  notifications_delivered env ->
  exists out,
    for_of xs (fun x => createNotification env (mk x)) w =
      (Returned tt, {| db := db w; outbox := out |}).
Proof.
  intros Hn. revert w. induction xs as [|x xs IH]; intros w.
  - exists (outbox w). by destruct w.
  - simpl. unfold bind at 1. unfold createNotification at 1. rewrite Hn.
    unfold emit. destruct (IH {| db := db w; outbox := outbox w ++ [Notified (mk x)] |})
      as [out Hout].
    exists out. by rewrite Hout.
Qed.

(** ** Transactions *)

(** A transaction that throws leaves every row as it was. *)
Lemma transaction_rolls_back {A} (m : Async A) w e w' :
  transaction m w = (Thrown e, w') -> db w' = db w.
Proof.
  unfold transaction. destruct (m w) as [[a|e'] w'']; intros [= <- <-]; done || done.
Qed.

Lemma transaction_commits {A} (m : Async A) w a w' :
  transaction m w = (Returned a, w') <-> m w = (Returned a, w').
Proof.
  unfold transaction. destruct (m w) as [[b|e'] w'']; split; intros [= <- <-]; done.
Qed.

End Run.

(** ** Cancelling a case *)

Section Cancel.

Variable env : Env.

Lemma cancelCase_completed dto w r :
  prisma_fails env EmergencyRequest_findUnique = false ->
  requests (db w) !! ccd_caseId dto = Some r ->
  er_status r = EmergencyStatus.COMPLETED ->
  cancelCase env dto w =
    (Thrown (BadRequestException "Completed emergency case cannot be cancelled"), w).
Proof.
  intros Hf Hr Hst. unfold cancelCase, try_catch, bind.
  rewrite emergencyRequest_findUnique_ok, Hr by done.
  by rewrite Hst.
Qed.

Lemma cancelCase_cancelled dto w r :
  prisma_fails env EmergencyRequest_findUnique = false ->
  requests (db w) !! ccd_caseId dto = Some r ->
  er_status r = EmergencyStatus.CANCELLED ->
  cancelCase env dto w =
    (Thrown (BadRequestException "Emergency case is already cancelled"), w).
Proof.
  intros Hf Hr Hst. unfold cancelCase, try_catch, bind.
  rewrite emergencyRequest_findUnique_ok, Hr by done.
  by rewrite Hst.
Qed.

Lemma cancelCase_open dto w r :
  prisma_fails env EmergencyRequest_findUnique = false ->
  prisma_fails env EmergencyRequest_update = false ->
  requests (db w) !! ccd_caseId dto = Some r ->
  er_status r <> EmergencyStatus.COMPLETED ->
  er_status r <> EmergencyStatus.CANCELLED ->
  cancelCase env dto w =
    (Returned (with_status EmergencyStatus.CANCELLED r),
     {| db := set_requests
                (<[ccd_caseId dto := with_status EmergencyStatus.CANCELLED r]>
                   (requests (db w))) (db w);
        outbox := outbox w ++ [cancel_trace env] |}).
Proof.
  intros Hf Hu Hr Hc Hx. unfold cancelCase, try_catch at 1, bind at 1.
  rewrite emergencyRequest_findUnique_ok, Hr by done.
  rewrite !bool_decide_eq_false_2 by done.
  unfold bind at 1. rewrite (emergencyRequest_update_ok _ _ _ _ r) by done.
  unfold bind, try_catch, broadcast, logger_warn, cancel_trace, emit, throw, ret.
  by destruct (gateway_fails env StatsUpdated).
Qed.

End Cancel.

(** C7. Cancelling a request that is COMPLETED, or already CANCELLED, fails
    with a validation error and changes nothing; cancelling a PENDING request
    succeeds and leaves it CANCELLED in the store. *)
Theorem cancelCase_terminal_rejected_pending_cancelled env dto w r :
  no_prisma_faults env ->
  requests (db w) !! ccd_caseId dto = Some r ->
  (er_status r = EmergencyStatus.COMPLETED ->
   exists e, cancelCase env dto w = (Thrown e, w) /\ is_validation e = true) /\
  (er_status r = EmergencyStatus.CANCELLED ->
   exists e, cancelCase env dto w = (Thrown e, w) /\ is_validation e = true) /\
  (er_status r = EmergencyStatus.PENDING ->
   exists updated w',
     cancelCase env dto w = (Returned updated, w') /\
     er_status updated = EmergencyStatus.CANCELLED /\
     requests (db w') !! ccd_caseId dto = Some updated).
Proof.
  intros Hp Hr. repeat split.
  - intros Hst. eexists. split; [by eapply cancelCase_completed|done].
  - intros Hst. eexists. split; [by eapply cancelCase_cancelled|done].
  - intros Hst. eexists _, _. split.
    + eapply cancelCase_open; try done; by rewrite Hst.
    + split; [done|]. simpl. by rewrite lookup_insert_eq.
Qed.

Lemma cancelCase_terminal_rejected_pending_cancelled_witness :
  (exists e, cancelCase Sample.env_ok {| ccd_caseId := "case-1" |}
               (Sample.world "COMPLETED" (Some 3%Z) []) =
             (Thrown e, Sample.world "COMPLETED" (Some 3%Z) [])
             /\ is_validation e = true) /\
  (exists updated w',
     cancelCase Sample.env_ok {| ccd_caseId := "case-1" |}
       (Sample.world "PENDING" (Some 3%Z) []) = (Returned updated, w') /\
     er_status updated = EmergencyStatus.CANCELLED /\
     requests (db w') !! "case-1" = Some updated).
Proof.
  split.
  - destruct (cancelCase_terminal_rejected_pending_cancelled Sample.env_ok
                {| ccd_caseId := "case-1" |} (Sample.world "COMPLETED" (Some 3%Z) [])
                (Sample.request "COMPLETED")) as (Hcompleted & _ & _);
      [intros c; reflexivity | reflexivity | ].
    apply Hcompleted. reflexivity.
  - destruct (cancelCase_terminal_rejected_pending_cancelled Sample.env_ok
                {| ccd_caseId := "case-1" |} (Sample.world "PENDING" (Some 3%Z) [])
                (Sample.request "PENDING")) as (_ & _ & Hpending);
      [intros c; reflexivity | reflexivity | ].
    apply Hpending. reflexivity.
Defined.

(** C6, as amended.  [cancelCase] is the operation that guards its side
    effect: when the gateway throws on the stats broadcast, the error is
    swallowed, a warning is logged, the cancellation stays in the store and
    the operation returns the cancelled request. *)
Theorem cancelCase_swallows_broadcast_failure env dto w r :
  prisma_fails env EmergencyRequest_findUnique = false ->
  prisma_fails env EmergencyRequest_update = false ->
  gateway_fails env StatsUpdated = true ->
  requests (db w) !! ccd_caseId dto = Some r ->
  er_status r <> EmergencyStatus.COMPLETED ->
  er_status r <> EmergencyStatus.CANCELLED ->
  exists w',
    cancelCase env dto w = (Returned (with_status EmergencyStatus.CANCELLED r), w') /\
    requests (db w') !! ccd_caseId dto = Some (with_status EmergencyStatus.CANCELLED r) /\
    outbox w' =
      (outbox w ++ [Warned "Failed to broadcast stats update: gateway error"])%list.
Proof.
  intros Hf Hu Hg Hr Hc Hx. eexists. split; [by apply cancelCase_open|].
  simpl. split; [by rewrite lookup_insert_eq|].
  unfold cancel_trace. by rewrite Hg.
Qed.

Lemma cancelCase_swallows_broadcast_failure_witness :
  exists w',
    cancelCase Sample.env_gateway_down {| ccd_caseId := "case-1" |}
      (Sample.world "ASSIGNED" (Some 2%Z) [Sample.response "ASSIGNED"]) =
      (Returned (with_status EmergencyStatus.CANCELLED (Sample.request "ASSIGNED")), w') /\
    requests (db w') !! "case-1" =
      Some (with_status EmergencyStatus.CANCELLED (Sample.request "ASSIGNED")) /\
    outbox w' = [Warned "Failed to broadcast stats update: gateway error"].
Proof.
  apply (cancelCase_swallows_broadcast_failure Sample.env_gateway_down
           {| ccd_caseId := "case-1" |}
           (Sample.world "ASSIGNED" (Some 2%Z) [Sample.response "ASSIGNED"])
           (Sample.request "ASSIGNED"));
    [reflexivity | reflexivity | reflexivity | reflexivity
    | vm_compute; discriminate | vm_compute; discriminate].
Defined.

(** C6, the claim as stated, fails for the hospital assignment: with a
    working notification service the assignment commits and returns; when the
    notification write throws, the same call throws that error to the client
    and the request is still PENDING with no response recorded. *)
Lemma assignToHospital_notification_failure_is_fatal :
  (exists updated w',
     assignToHospital Sample.env_ok "case-1" "hospital-1" "admin-1"
       (Sample.world "PENDING" (Some 3%Z) []) = (Returned updated, w') /\
     er_status <$> requests (db w') !! "case-1" = Some "ASSIGNED") /\
  (exists n w',
     assignToHospital Sample.env_notifications_down "case-1" "hospital-1" "admin-1"
       (Sample.world "PENDING" (Some 3%Z) []) = (Thrown (NotificationError n), w') /\
     er_status <$> requests (db w') !! "case-1" = Some "PENDING" /\
     responses (db w') = []).
Proof.
  split.
  - eexists _, _. split; [vm_compute; reflexivity|]. vm_compute. reflexivity.
  - eexists _, _. split; [vm_compute; reflexivity|]. split; vm_compute; reflexivity.
Qed.

(** ** Assigning to a hospital *)

Section AssignToHospital.

Variable env : Env.
Variables emergencyId hospitalId userId : string.

(** The lookup [emergency.responses.find(r => r.organizationId === hospitalId)]
    finds a row exactly when a row of the table links the pair. *)
Lemma existingResponse_links (s : Store) :
  is_Some (List.find (fun r => bool_decide (resp_organizationId r = hospitalId))
                     (responses_of s emergencyId))
  <-> links_of s emergencyId hospitalId <> [].
Proof.
  unfold responses_of, links_of. induction (responses s) as [|x l IH]; simpl.
  - split; [by intros [? ?]|done].
  - rewrite !filter_cons.
    destruct (decide (resp_emergencyRequestId x = emergencyId)) as [He|He];
      destruct (decide (links emergencyId hospitalId x)) as [[Hl1 Hl2]|Hl];
      simpl; try done.
    + rewrite bool_decide_eq_true_2 by done. split; [done|by eexists].
    + rewrite bool_decide_eq_false_2; [exact IH|]. intros Ho. by apply Hl.
Qed.

Lemma assignToHospital_tx_duplicate w r :
  prisma_fails env EmergencyRequest_findUnique = false ->
  requests (db w) !! emergencyId = Some r ->
  links_of (db w) emergencyId hospitalId <> [] ->
  assignToHospital_tx env emergencyId hospitalId userId w =
    (Thrown (BadRequestException "This case has already been assigned to this hospital"),
     w).
Proof.
  intros Hf Hr Hl. unfold assignToHospital_tx, bind at 1.
  rewrite emergencyRequest_findUnique_ok, Hr by done.
  unfold bind at 1, get_db.
  rewrite bool_decide_eq_true_2; [done|]. by apply existingResponse_links.
Qed.

Lemma assignToHospital_tx_wrong_status w r :
  prisma_fails env EmergencyRequest_findUnique = false ->
  requests (db w) !! emergencyId = Some r ->
  links_of (db w) emergencyId hospitalId = [] ->
  normalized (er_status r) <> EmergencyStatus.PENDING ->
  normalized (er_status r) <> EmergencyStatus.ASSIGNED ->
  assignToHospital_tx env emergencyId hospitalId userId w =
    (Thrown (BadRequestException
               ("Only PENDING or ASSIGNED cases can be assigned. Current status: "
                +:+ er_status r)), w).
Proof.
  intros Hf Hr Hl Hp Ha. unfold assignToHospital_tx, bind at 1.
  rewrite emergencyRequest_findUnique_ok, Hr by done.
  unfold bind at 1, get_db.
  rewrite bool_decide_eq_false_2
    by (rewrite existingResponse_links; by intros []).
  fold (normalized (er_status r)).
  by rewrite !bool_decide_eq_false_2 by done.
Qed.

Lemma normalized_world_request w r :
  requests (db w) !! emergencyId = Some r ->
  requests (db (normalized_world emergencyId w r)) !! emergencyId =
    Some (with_status (normalized (er_status r)) r).
Proof.
  intros Hr. unfold normalized_world. case_bool_decide as Hn; simpl.
  - rewrite Hr. f_equal. destruct r; simpl in *. by rewrite <- Hn.
  - by rewrite lookup_insert_eq.
Qed.

Lemma normalized_world_rest w r :
  organizations (db (normalized_world emergencyId w r)) = organizations (db w) /\
  responses (db (normalized_world emergencyId w r)) = responses (db w) /\
  users (db (normalized_world emergencyId w r)) = users (db w) /\
  outbox (normalized_world emergencyId w r) = outbox w.
Proof. unfold normalized_world. by case_bool_decide. Qed.

Lemma normalise_step w r :
  prisma_fails env EmergencyRequest_update = false ->
  requests (db w) !! emergencyId = Some r ->
  (if negb (bool_decide (er_status r = normalized (er_status r)))
   then await_ emergencyRequest_update env emergencyId
                 (with_status (normalized (er_status r)));
        ret ()
   else ret ()) w = (Returned (), normalized_world emergencyId w r).
Proof.
  intros Hu Hr. unfold normalized_world. case_bool_decide; simpl; [done|].
  unfold bind. by rewrite (emergencyRequest_update_ok _ _ _ _ r).
Qed.

(** The transaction up to the hospital lookup. *)
Ltac tx_guards r Hr Hl Hst :=
  unfold assignToHospital_tx, bind at 1;
  rewrite emergencyRequest_findUnique_ok, Hr by done;
  unfold bind at 1, get_db;
  rewrite bool_decide_eq_false_2
    by (rewrite existingResponse_links; by intros []);
  fold (normalized (er_status r));
  replace (negb (bool_decide (normalized (er_status r) = EmergencyStatus.PENDING))
           && negb (bool_decide (normalized (er_status r) = EmergencyStatus.ASSIGNED)))
    with false by (destruct Hst as [-> | ->]; reflexivity);
  unfold bind at 1;
  rewrite normalise_step by done;
  unfold bind at 1;
  rewrite organization_findUnique_ok by done;
  rewrite (proj1 (normalized_world_rest _ _)).

Lemma assignToHospital_tx_no_beds w r h :
  prisma_fails env EmergencyRequest_findUnique = false ->
  prisma_fails env EmergencyRequest_update = false ->
  prisma_fails env Organization_findUnique = false ->
  requests (db w) !! emergencyId = Some r ->
  links_of (db w) emergencyId hospitalId = [] ->
  normalized (er_status r) = EmergencyStatus.PENDING \/
  normalized (er_status r) = EmergencyStatus.ASSIGNED ->
  organizations (db w) !! hospitalId = Some h ->
  org_type h = "HOSPITAL" ->
  no_available_beds h = true ->
  assignToHospital_tx env emergencyId hospitalId userId w =
    (Thrown (BadRequestException "No available beds in the selected hospital"),
     normalized_world emergencyId w r).
Proof.
  intros Hf Hu Ho Hr Hl Hst Hh Hty Hbeds.
  tx_guards r Hr Hl Hst. rewrite Hh.
  rewrite bool_decide_eq_true_2 by done. simpl. by rewrite Hbeds.
Qed.

Lemma assignToHospital_tx_assigns w r h :
  no_prisma_faults env ->
  notifications_delivered env ->
  gateway_up env ->
  find_response (uuid env) (responses (db w)) = None ->
  requests (db w) !! emergencyId = Some r ->
  links_of (db w) emergencyId hospitalId = [] ->
  normalized (er_status r) = EmergencyStatus.PENDING \/
  normalized (er_status r) = EmergencyStatus.ASSIGNED ->
  organizations (db w) !! hospitalId = Some h ->
  org_type h = "HOSPITAL" ->
  no_available_beds h = false ->
  exists out,
  assignToHospital_tx env emergencyId hospitalId userId w =
    (Returned (with_updatedBy userId (with_status EmergencyStatus.ASSIGNED r)),
     {| db := assigned_store env emergencyId hospitalId userId r h (db w);
        outbox := out |}).
Proof.
  intros Hp Hn Hg Hfresh Hr Hl Hst Hh Hty Hbeds.
  tx_guards r Hr Hl Hst. rewrite Hh.
  rewrite bool_decide_eq_true_2 by done. simpl. rewrite Hbeds.
  destruct (normalized_world_rest w r) as (Horgs & Hresps & Husers & Hout).
  unfold bind at 1.
  rewrite (emergencyRequest_update_ok _ _ _ _ (with_status (normalized (er_status r)) r))
    by (done || by apply normalized_world_request).
  unfold bind at 1.
  rewrite emergencyResponse_create_ok; simpl;
    [| done | by rewrite Hresps | by rewrite lookup_insert_eq | by rewrite Horgs, Hh].
  unfold bind at 1.
  rewrite (organization_update_ok _ _ _ _ h) by (done || (simpl; by rewrite Horgs)).
  unfold bind at 1. rewrite user_findMany_ok by done.
  unfold bind at 1.
  match goal with
  | |- context [for_of ?xs (fun u => createNotification env (@?mk u)) ?w0] =>
      destruct (for_of_createNotification_ok env xs mk w0 Hn) as [out Hloop]
  end.
  rewrite Hloop.
  unfold bind, createNotification, broadcast, emit, ret. rewrite !Hn, !Hg. simpl.
  eexists. f_equal. f_equal.
  unfold assigned_store, set_requests, set_organizations, set_responses,
    assigned_response; simpl.
  rewrite Horgs, Hresps, Husers. f_equal.
  unfold normalized_world. case_bool_decide; simpl; [done|].
  by rewrite insert_insert_eq.
Qed.

(** An error inside the transaction reaches the caller, and the rows are
    those of before the call. *)
Lemma assignToHospital_thrown_in_tx w e w' :
  assignToHospital_tx env emergencyId hospitalId userId w = (Thrown e, w') ->
  assignToHospital env emergencyId hospitalId userId w =
    (Thrown e, {| db := db w; outbox := outbox w' |}).
Proof.
  intros Htx. unfold assignToHospital, bind, transaction. by rewrite Htx.
Qed.

Lemma no_available_beds_spec h :
  no_available_beds h = true <->
  match org_availableBeds h with Some b => (b <= 0)%Z | None => True end.
Proof.
  unfold no_available_beds. destruct (org_availableBeds h) as [b|]; [|done].
  apply Z.leb_le.
Qed.

(** The guards of [assignToHospital] come before any lasting write: with the
    hospital out of beds the call ends in a validation error, whichever
    guard fires first. *)
Lemma assignToHospital_tx_without_beds w r h :
  no_prisma_faults env ->
  requests (db w) !! emergencyId = Some r ->
  organizations (db w) !! hospitalId = Some h ->
  org_type h = "HOSPITAL" ->
  no_available_beds h = true ->
  exists message w',
    assignToHospital_tx env emergencyId hospitalId userId w =
      (Thrown (BadRequestException message), w').
Proof.
  intros Hp Hr Hh Hty Hbeds.
  destruct (decide (links_of (db w) emergencyId hospitalId = [])) as [Hl|Hl].
  - destruct (decide (normalized (er_status r) = EmergencyStatus.PENDING)) as [Hpen|Hpen];
      [|destruct (decide (normalized (er_status r) = EmergencyStatus.ASSIGNED))
          as [Hass|Hass]].
    + eexists _, _. eapply assignToHospital_tx_no_beds; eauto.
    + eexists _, _. eapply assignToHospital_tx_no_beds; eauto.
    + eexists _, _. by eapply assignToHospital_tx_wrong_status.
  - eexists _, _. by eapply assignToHospital_tx_duplicate.
Qed.

End AssignToHospital.

(** C3. Assigning a request to a hospital whose [availableBeds] is absent,
    zero or negative fails with a validation error, and the store is the one
    of before the call: same request row, same hospital row, no response row
    added. *)
Theorem assignToHospital_without_beds_rejected
    env emergencyId hospitalId userId w r h :
  no_prisma_faults env ->
  requests (db w) !! emergencyId = Some r ->
  organizations (db w) !! hospitalId = Some h ->
  org_type h = "HOSPITAL" ->
  match org_availableBeds h with Some b => (b <= 0)%Z | None => True end ->
  exists e w',
    assignToHospital env emergencyId hospitalId userId w = (Thrown e, w') /\
    is_validation e = true /\
    db w' = db w.
Proof.
  intros Hp Hr Hh Hty Hbeds. apply no_available_beds_spec in Hbeds.
  destruct (assignToHospital_tx_without_beds env emergencyId hospitalId userId w r h)
    as (message & w' & Htx); try done.
  eexists _, _. split; [by apply assignToHospital_thrown_in_tx|done].
Qed.

Lemma assignToHospital_without_beds_rejected_witness :
  exists e w',
    assignToHospital Sample.env_ok "case-1" "hospital-1" "admin-1"
      (Sample.world "PENDING" (Some 0%Z) []) = (Thrown e, w') /\
    is_validation e = true /\
    db w' = db (Sample.world "PENDING" (Some 0%Z) []).
Proof.
  apply (assignToHospital_without_beds_rejected Sample.env_ok
           "case-1" "hospital-1" "admin-1" (Sample.world "PENDING" (Some 0%Z) [])
           (Sample.request "PENDING") (Sample.hospital (Some 0%Z)));
    [intros c; reflexivity | reflexivity | reflexivity | reflexivity | simpl; lia].
Defined.

(** C2, as amended.  For a PENDING request and a hospital with three beds,
    when no response row links the two yet and the store, the notification
    service and the gateway all answer, the assignment returns the request
    ASSIGNED; afterwards the hospital has two beds and the response table has
    exactly one row more, an ASSIGNED row linking the request to the
    hospital, which is the only row linking them. *)
Theorem assignToHospital_pending_three_beds
    env emergencyId hospitalId userId w r h :
  no_prisma_faults env ->
  notifications_delivered env ->
  gateway_up env ->
  find_response (uuid env) (responses (db w)) = None ->
  requests (db w) !! emergencyId = Some r ->
  er_status r = EmergencyStatus.PENDING ->
  organizations (db w) !! hospitalId = Some h ->
  org_type h = "HOSPITAL" ->
  org_availableBeds h = Some 3%Z ->
  links_of (db w) emergencyId hospitalId = [] ->
  exists updated row w',
    assignToHospital env emergencyId hospitalId userId w = (Returned updated, w') /\
    er_status updated = EmergencyStatus.ASSIGNED /\
    requests (db w') !! emergencyId = Some updated /\
    org_availableBeds <$> organizations (db w') !! hospitalId = Some (Some 2%Z) /\
    responses (db w') = (responses (db w) ++ [row])%list /\
    links emergencyId hospitalId row /\
    resp_status row = "ASSIGNED" /\
    links_of (db w') emergencyId hospitalId = [row].
Proof.
  intros Hp Hn Hg Hfresh Hr Hst Hh Hty Hbeds Hl.
  destruct (assignToHospital_tx_assigns env emergencyId hospitalId userId w r h)
    as [out Htx]; try done.
  { left. by rewrite Hst. }
  { unfold no_available_beds. by rewrite Hbeds. }
  exists (with_updatedBy userId (with_status EmergencyStatus.ASSIGNED r)),
         (assigned_response env emergencyId hospitalId).
  eexists. split.
  { unfold assignToHospital, bind, transaction. rewrite Htx.
    unfold broadcast, emit, ret. rewrite Hg. simpl. reflexivity. }
  simpl. repeat split.
  - by rewrite lookup_insert_eq.
  - rewrite lookup_insert_eq. simpl. by rewrite Hbeds.
  - unfold links_of in *. simpl. rewrite filter_app, Hl. simpl.
    rewrite filter_cons, decide_True; [done|]. by split.
Qed.

Lemma assignToHospital_pending_three_beds_witness :
  exists updated row w',
    assignToHospital Sample.env_ok "case-1" "hospital-1" "admin-1"
      (Sample.world "PENDING" (Some 3%Z) []) = (Returned updated, w') /\
    er_status updated = EmergencyStatus.ASSIGNED /\
    requests (db w') !! "case-1" = Some updated /\
    org_availableBeds <$> organizations (db w') !! "hospital-1" = Some (Some 2%Z) /\
    responses (db w') = [row] /\
    links "case-1" "hospital-1" row /\
    resp_status row = "ASSIGNED" /\
    links_of (db w') "case-1" "hospital-1" = [row].
Proof.
  apply (assignToHospital_pending_three_beds Sample.env_ok
           "case-1" "hospital-1" "admin-1" (Sample.world "PENDING" (Some 3%Z) [])
           (Sample.request "PENDING") (Sample.hospital (Some 3%Z)));
    try reflexivity; intros c; reflexivity.
Defined.

(** C2, the claim as stated, fails: a request can be PENDING while a
    response row already links it to the hospital (assign it, then set its
    status back to PENDING); the hospital has three beds, and the assignment
    is refused. *)
Lemma assignToHospital_pending_three_beds_refused :
  let w1 := (assignToHospital Sample.env_ok "case-1" "hospital-1" "admin-1"
               (Sample.world "PENDING" (Some 4%Z) [])).2 in
  let w2 := (updateStatus Sample.env_ok "case-1"
               {| usd_status := EmergencyStatus.PENDING; usd_notes := None |} w1).2 in
  er_status <$> requests (db w2) !! "case-1" = Some EmergencyStatus.PENDING /\
  org_availableBeds <$> organizations (db w2) !! "hospital-1" = Some (Some 3%Z) /\
  org_type <$> organizations (db w2) !! "hospital-1" = Some "HOSPITAL" /\
  assignToHospital
    {| prisma_fails := fun _ => false; notification_fails := fun _ => false;
       gateway_fails := fun _ => false; uuid := "resp-3"; now := 1700000000001 |}
    "case-1" "hospital-1" "admin-1" w2 =
    (Thrown (BadRequestException "This case has already been assigned to this hospital"),
     w2).
Proof. vm_compute. repeat split. Qed.

(** ** Assigning from the dashboard *)

Lemma includes_elem_of xs x : includes xs x = true <-> x ∈ xs.
Proof.
  unfold includes. rewrite existsb_exists. split.
  - intros (y & Hy & Heq). apply bool_decide_eq_true in Heq. subst.
    by apply list_elem_of_In.
  - intros Hx. exists x. split; [by apply list_elem_of_In|by apply bool_decide_eq_true].
Qed.

Section AssignCase.

Variable env : Env.
Variable dto : AssignCaseDto.

(** Both steps go through: the response row is appended and the request is
    ASSIGNED.  Nothing on the way looks at the rows already linking the
    case. *)
Lemma assignCase_assigns w r o :
  no_prisma_faults env ->
  find_response (uuid env) (responses (db w)) = None ->
  requests (db w) !! acd_caseId dto = Some r ->
  organizations (db w) !! acd_assignedToId dto = Some o ->
  assignable r o ->
  assignCase env dto w =
    (Returned (with_status EmergencyStatus.ASSIGNED r),
     {| db := set_requests
                (<[acd_caseId dto := with_status EmergencyStatus.ASSIGNED r]>
                   (requests (db w)))
                (set_responses (responses (db w) ++ [dashboard_response env dto]) (db w));
        outbox := outbox w |}).
Proof.
  intros Hp Hfresh Hr Ho [Hst Hty].
  apply includes_elem_of in Hst. apply includes_elem_of in Hty.
  unfold assignCase, try_catch, bind at 1.
  rewrite emergencyRequest_findUnique_ok, Hr by done. rewrite Hst. cbn [negb].
  unfold bind at 1. rewrite organization_findUnique_ok, Ho by done. rewrite Hty. cbn [negb].
  unfold bind at 1. fold (dashboard_response env dto).
  rewrite emergencyResponse_create_ok; simpl; [| done | done | by rewrite Hr | by rewrite Ho].
  unfold bind at 1. by rewrite (emergencyRequest_update_ok _ _ _ _ r).
Qed.

(** The store refuses the update of the request after the response row has
    been written: the call fails and the row stays. *)
Lemma assignCase_update_refused w r o :
  prisma_fails env EmergencyRequest_findUnique = false ->
  prisma_fails env Organization_findUnique = false ->
  prisma_fails env EmergencyResponse_create = false ->
  prisma_fails env EmergencyRequest_update = true ->
  find_response (uuid env) (responses (db w)) = None ->
  requests (db w) !! acd_caseId dto = Some r ->
  organizations (db w) !! acd_assignedToId dto = Some o ->
  assignable r o ->
  assignCase env dto w =
    (Thrown (PrismaClientError EmergencyRequest_update),
     {| db := set_responses (responses (db w) ++ [dashboard_response env dto]) (db w);
        outbox := outbox w |}).
Proof.
  intros Hf Hof Hc Hu Hfresh Hr Ho [Hst Hty].
  apply includes_elem_of in Hst. apply includes_elem_of in Hty.
  unfold assignCase, try_catch, bind at 1.
  rewrite emergencyRequest_findUnique_ok, Hr by done. rewrite Hst. cbn [negb].
  unfold bind at 1. rewrite organization_findUnique_ok, Ho by done. rewrite Hty. cbn [negb].
  unfold bind at 1. fold (dashboard_response env dto).
  rewrite emergencyResponse_create_ok; simpl; [| done | done | by rewrite Hr | by rewrite Ho].
  unfold bind at 1. unfold emergencyRequest_update. by rewrite prisma_refused.
Qed.

End AssignCase.

(** C4: the dashboard path does not do what the claim says.  When a response
    row already links the case to the organization, [assignCase] raises no
    validation error: it returns the request ASSIGNED and the table holds one
    more row linking the same pair.  (The hospital path refuses:
    [assignToHospital_tx_duplicate].) *)
Theorem assignCase_links_the_pair_again env dto w r o :
  no_prisma_faults env ->
  find_response (uuid env) (responses (db w)) = None ->
  requests (db w) !! acd_caseId dto = Some r ->
  organizations (db w) !! acd_assignedToId dto = Some o ->
  assignable r o ->
  links_of (db w) (acd_caseId dto) (acd_assignedToId dto) <> [] ->
  exists updated w',
    assignCase env dto w = (Returned updated, w') /\
    er_status updated = EmergencyStatus.ASSIGNED /\
    (2 <= length (links_of (db w') (acd_caseId dto) (acd_assignedToId dto)))%nat /\
    length (links_of (db w') (acd_caseId dto) (acd_assignedToId dto)) =
      S (length (links_of (db w) (acd_caseId dto) (acd_assignedToId dto))).
Proof.
  intros Hp Hfresh Hr Ho Hok Hl. eexists _, _.
  split; [by apply (assignCase_assigns env dto w r o)|]. split; [done|].
  unfold links_of in *. simpl. rewrite filter_app, length_app. simpl.
  rewrite filter_cons, decide_True by (by split). simpl.
  destruct (filter _ (responses (db w))); [done|]. simpl. lia.
Qed.

Lemma assignCase_links_the_pair_again_witness :
  exists updated w',
    assignCase Sample.env_ok
      {| acd_caseId := "case-1"; acd_assignedToId := "hospital-1" |}
      (Sample.world "ASSIGNED" (Some 2%Z) [Sample.response "ASSIGNED"]) =
      (Returned updated, w') /\
    er_status updated = EmergencyStatus.ASSIGNED /\
    (2 <= length (links_of (db w') "case-1" "hospital-1"))%nat /\
    length (links_of (db w') "case-1" "hospital-1") =
      S (length (links_of
                   (db (Sample.world "ASSIGNED" (Some 2%Z) [Sample.response "ASSIGNED"]))
                   "case-1" "hospital-1")).
Proof.
  apply (assignCase_links_the_pair_again Sample.env_ok
           {| acd_caseId := "case-1"; acd_assignedToId := "hospital-1" |}
           (Sample.world "ASSIGNED" (Some 2%Z) [Sample.response "ASSIGNED"])
           (Sample.request "ASSIGNED") (Sample.hospital (Some 2%Z)));
    [intros c; reflexivity | reflexivity | reflexivity | reflexivity
    | split; vm_compute; set_solver | vm_compute; discriminate].
Defined.

(** C5: [assignCase] is not wrapped in a transaction.  When the store
    refuses the update of the request, the call fails, yet the response row
    written just before is persisted and the request keeps its status. *)
Theorem assignCase_keeps_response_when_update_fails env dto w r o :
  prisma_fails env EmergencyRequest_findUnique = false ->
  prisma_fails env Organization_findUnique = false ->
  prisma_fails env EmergencyResponse_create = false ->
  prisma_fails env EmergencyRequest_update = true ->
  find_response (uuid env) (responses (db w)) = None ->
  requests (db w) !! acd_caseId dto = Some r ->
  organizations (db w) !! acd_assignedToId dto = Some o ->
  assignable r o ->
  exists e row w',
    assignCase env dto w = (Thrown e, w') /\
    responses (db w') = (responses (db w) ++ [row])%list /\
    links (acd_caseId dto) (acd_assignedToId dto) row /\
    requests (db w') !! acd_caseId dto = Some r /\
    db w' <> db w.
Proof.
  intros Hf Hof Hc Hu Hfresh Hr Ho Hok. eexists _, _, _.
  split; [by apply (assignCase_update_refused env dto w r o)|]. simpl.
  repeat split; try done.
  intros Heq. apply (f_equal responses) in Heq. simpl in Heq.
  apply (f_equal length) in Heq. rewrite length_app in Heq. simpl in Heq. lia.
Qed.

Lemma assignCase_keeps_response_when_update_fails_witness :
  exists e row w',
    assignCase Sample.env_request_update_refused
      {| acd_caseId := "case-1"; acd_assignedToId := "hospital-1" |}
      (Sample.world "PENDING" (Some 3%Z) []) = (Thrown e, w') /\
    responses (db w') = [row] /\
    links "case-1" "hospital-1" row /\
    requests (db w') !! "case-1" = Some (Sample.request "PENDING") /\
    db w' <> db (Sample.world "PENDING" (Some 3%Z) []).
Proof.
  apply (assignCase_keeps_response_when_update_fails Sample.env_request_update_refused
           {| acd_caseId := "case-1"; acd_assignedToId := "hospital-1" |}
           (Sample.world "PENDING" (Some 3%Z) [])
           (Sample.request "PENDING") (Sample.hospital (Some 3%Z)));
    [reflexivity | reflexivity | reflexivity | reflexivity | reflexivity
    | reflexivity | reflexivity | split; vm_compute; set_solver].
Defined.

(** ** Keeping a property of the store *)

Section Preservation.

Variable env : Env.
Variable I : Store -> Prop.

Lemma preserves_ret {A} (a : A) : preserves I (ret a).
Proof. by intros w Hw. Qed.

Lemma preserves_throw {A} e : preserves I (@throw A e).
Proof. by intros w Hw. Qed.

Lemma preserves_bind {A B} (m : Async A) (k : A -> Async B) :
  preserves I m -> (forall a, preserves I (k a)) -> preserves I (bind m k).
Proof.
  intros Hm Hk w Hw. unfold bind. specialize (Hm w Hw).
  destruct (m w) as [[a|e] w1]; simpl in *; [by apply Hk|done].
Qed.

Lemma preserves_try_catch {A} (m : Async A) handler :
  preserves I m -> (forall e, preserves I (handler e)) ->
  preserves I (try_catch m handler).
Proof.
  intros Hm Hh w Hw. unfold try_catch. specialize (Hm w Hw).
  destruct (m w) as [[a|e] w1]; simpl in *; [done|by apply Hh].
Qed.

Lemma preserves_transaction {A} (m : Async A) :
  preserves I m -> preserves I (transaction m).
Proof.
  intros Hm w Hw. unfold transaction. specialize (Hm w Hw).
  by destruct (m w) as [[a|e] w1].
Qed.

Lemma preserves_for_of {A} (xs : list A) body :
  (forall x, preserves I (body x)) -> preserves I (for_of xs body).
Proof.
  intros Hb. induction xs as [|x xs IH]; simpl.
  - apply preserves_ret.
  - apply preserves_bind; [apply Hb|by intros _].
Qed.

Lemma preserves_prisma {A} call (m : Async A) :
  preserves I m -> preserves I (prisma env call m).
Proof. intros Hm. unfold prisma. destruct (prisma_fails env call); [apply preserves_throw|done]. Qed.

Lemma preserves_get_db : preserves I get_db.
Proof. by intros w Hw. Qed.

Lemma preserves_put_db s : I s -> preserves I (put_db s).
Proof. by intros Hs w Hw. Qed.

Lemma preserves_emit e : preserves I (emit e).
Proof. by intros w Hw. Qed.

Lemma preserves_createNotification n : preserves I (createNotification env n).
Proof.
  unfold createNotification. destruct (notification_fails env n);
    [apply preserves_throw|apply preserves_emit].
Qed.

Lemma preserves_broadcast ev : preserves I (broadcast env ev).
Proof.
  unfold broadcast. destruct (gateway_fails env ev);
    [apply preserves_throw|apply preserves_emit].
Qed.

Lemma preserves_logger_warn message : preserves I (logger_warn message).
Proof. apply preserves_emit. Qed.

Lemma preserves_emergencyRequest_findUnique id :
  preserves I (emergencyRequest_findUnique env id).
Proof.
  apply preserves_prisma, preserves_bind; [apply preserves_get_db|intros; apply preserves_ret].
Qed.

Lemma preserves_organization_findUnique id :
  preserves I (organization_findUnique env id).
Proof.
  apply preserves_prisma, preserves_bind; [apply preserves_get_db|intros; apply preserves_ret].
Qed.

Lemma preserves_organization_findFirst_hospital id :
  preserves I (organization_findFirst_hospital env id).
Proof.
  apply preserves_prisma, preserves_bind; [apply preserves_get_db|intros; apply preserves_ret].
Qed.

Lemma preserves_emergencyResponse_findUnique id :
  preserves I (emergencyResponse_findUnique env id).
Proof.
  apply preserves_prisma, preserves_bind; [apply preserves_get_db|intros; apply preserves_ret].
Qed.

Lemma preserves_user_findMany where_ : preserves I (user_findMany env where_).
Proof.
  apply preserves_prisma, preserves_bind; [apply preserves_get_db|intros; apply preserves_ret].
Qed.

End Preservation.

(** ** The status invariant under the operations *)

Section StatusInvariant.

Variable env : Env.

Lemma status_invariant_insert s id r :
  status_invariant s ->
  er_status r ∈ EmergencyStatus.members ->
  status_invariant (set_requests (<[id := r]> (requests s)) s).
Proof.
  intros Hs Hr id' r'. simpl. rewrite lookup_insert.
  case_decide; [by intros [= <-]|apply Hs].
Qed.

(** An update that writes a member of the enumeration keeps the invariant. *)
Lemma status_invariant_update id data :
  (forall r, er_status (data r) ∈ EmergencyStatus.members) ->
  preserves status_invariant (emergencyRequest_update env id data).
Proof.
  intros Hd. apply preserves_prisma. intros w Hw. unfold bind, get_db.
  destruct (requests (db w) !! id) as [r|]; simpl; [|done].
  by apply status_invariant_insert.
Qed.

Lemma status_invariant_create data :
  er_status data ∈ EmergencyStatus.members ->
  preserves status_invariant (emergencyRequest_create env data).
Proof.
  intros Hd. apply preserves_prisma. intros w Hw. unfold bind, get_db.
  destruct (requests (db w) !! er_id data), (users (db w) !! er_patientId data);
    simpl; try done.
  by apply status_invariant_insert.
Qed.

Lemma status_invariant_organization_update id data :
  preserves status_invariant (organization_update env id data).
Proof.
  apply preserves_prisma. intros w Hw. unfold bind, get_db.
  by destruct (organizations (db w) !! id).
Qed.

Lemma status_invariant_response_create data :
  preserves status_invariant (emergencyResponse_create env data).
Proof.
  apply preserves_prisma. intros w Hw. unfold bind, get_db.
  by destruct (find_response (resp_id data) (responses (db w))),
    (requests (db w) !! resp_emergencyRequestId data),
    (organizations (db w) !! resp_organizationId data).
Qed.

Lemma status_invariant_response_update id data :
  preserves status_invariant (emergencyResponse_update env id data).
Proof.
  apply preserves_prisma. intros w Hw. unfold bind, get_db.
  by destruct (find_response id (responses (db w))).
Qed.

Lemma member_PENDING : EmergencyStatus.PENDING ∈ EmergencyStatus.members.
Proof. vm_compute. set_solver. Qed.

Lemma member_ASSIGNED : EmergencyStatus.ASSIGNED ∈ EmergencyStatus.members.
Proof. vm_compute. set_solver. Qed.

Lemma member_IN_PROGRESS : EmergencyStatus.IN_PROGRESS ∈ EmergencyStatus.members.
Proof. vm_compute. set_solver. Qed.

Lemma member_CANCELLED : EmergencyStatus.CANCELLED ∈ EmergencyStatus.members.
Proof. vm_compute. set_solver. Qed.

(** One step of a proof that an operation keeps the status invariant. *)
Ltac keeps_status :=
  repeat first
    [ apply preserves_ret
    | apply preserves_throw
    | apply preserves_get_db
    | apply preserves_createNotification
    | apply preserves_broadcast
    | apply preserves_logger_warn
    | apply preserves_emergencyRequest_findUnique
    | apply preserves_organization_findUnique
    | apply preserves_organization_findFirst_hospital
    | apply preserves_emergencyResponse_findUnique
    | apply preserves_user_findMany
    | apply status_invariant_organization_update
    | apply status_invariant_response_create
    | apply status_invariant_response_update
    | apply status_invariant_update; intros ?; simpl
    | apply status_invariant_create; simpl
    | apply member_PENDING
    | apply member_ASSIGNED
    | apply member_IN_PROGRESS
    | apply member_CANCELLED
    | apply preserves_transaction
    | apply preserves_for_of; intros ?
    | apply preserves_try_catch; [|intros ?]
    | apply preserves_bind; [|intros ?]
    | match goal with
      | |- preserves _ (match ?x with _ => _ end) => destruct x eqn:?
      end ].

Lemma createEmergencyRequest_keeps_status createSosDto userId :
  preserves status_invariant (createEmergencyRequest env createSosDto userId).
Proof. unfold createEmergencyRequest. keeps_status. Qed.

Lemma assignToHospital_keeps_status emergencyId hospitalId userId :
  preserves status_invariant (assignToHospital env emergencyId hospitalId userId).
Proof.
  unfold assignToHospital, assignToHospital_tx. keeps_status.
  match goal with
  | H : negb _ && negb _ = false |- _ =>
      apply andb_false_iff in H; destruct H as [H|H];
      apply negb_false_iff, bool_decide_eq_true in H; rewrite H
  end; [apply member_PENDING|apply member_ASSIGNED].
Qed.

Lemma updateStatus_keeps_status id updateStatusDto :
  usd_status updateStatusDto ∈ EmergencyStatus.members ->
  preserves status_invariant (updateStatus env id updateStatusDto).
Proof. intros Hm. unfold updateStatus, updateStatus_tx. keeps_status. done. Qed.

Lemma assignCase_keeps_status dto :
  preserves status_invariant (assignCase env dto).
Proof. unfold assignCase. keeps_status. Qed.

Lemma cancelCase_keeps_status dto :
  preserves status_invariant (cancelCase env dto).
Proof. unfold cancelCase. keeps_status. Qed.

Lemma acceptEmergency_keeps_status hospitalId acceptEmergencyDto :
  preserves status_invariant (acceptEmergency env hospitalId acceptEmergencyDto).
Proof. unfold acceptEmergency, findOne. keeps_status. Qed.

Lemma updateEmergencyResponseStatus_keeps_status responseId :
  preserves status_invariant (updateEmergencyResponseStatus env responseId).
Proof. unfold updateEmergencyResponseStatus. keeps_status. Qed.

(** The manual update mirrors the response status into the request: the
    invariant survives for the three response statuses that are also request
    statuses. *)
Lemma updateEmergencyResponseStatusManual_keeps_status responseId status :
  status <> "ACCEPTED" ->
  preserves status_invariant
    (updateEmergencyResponseStatusManual env responseId status).
Proof.
  intros Hs. unfold updateEmergencyResponseStatusManual. keeps_status.
  match goal with
  | H : negb (includes validStatuses status) = false |- _ =>
      apply negb_false_iff, includes_elem_of in H; revert H
  end.
  unfold validStatuses. rewrite !elem_of_cons, elem_of_nil.
  intros [->|[->|[->|[->|[]]]]]; [done| | |].
  - apply member_IN_PROGRESS.
  - unfold EmergencyStatus.members. rewrite !elem_of_cons. auto.
  - apply member_CANCELLED.
Qed.


End StatusInvariant.

Lemma ACCEPTED_not_a_member : "ACCEPTED" ∉ EmergencyStatus.members.
Proof.
  unfold EmergencyStatus.members. rewrite !elem_of_cons, elem_of_nil.
  intros [H|[H|[H|[H|[H|[]]]]]]; discriminate H.
Qed.

(** C1: the manual update of a response status breaks the invariant.  The
    store holds one request, ASSIGNED, and one response; setting the response
    to ACCEPTED, a status the operation accepts, is mirrored into the
    request, whose status is then ACCEPTED, outside the enumeration.  (Every
    other operation keeps the invariant: the [_keeps_status] lemmas.) *)
Theorem manual_update_mirrors_ACCEPTED_into_request :
  let w := Sample.world "ASSIGNED" (Some 2%Z) [Sample.response "ASSIGNED"] in
  status_invariant (db w) /\
  exists updated w',
    updateEmergencyResponseStatusManual Sample.env_ok "resp-1" "ACCEPTED" w =
      (Returned updated, w') /\
    resp_status updated = "ACCEPTED" /\
    er_status <$> requests (db w') !! "case-1" = Some "ACCEPTED" /\
    ~ status_invariant (db w').
Proof.
  split.
  - intros id r. simpl. rewrite lookup_singleton_Some. intros [_ <-].
    apply member_ASSIGNED.
  - eexists _, _. split; [vm_compute; reflexivity|]. split; [reflexivity|].
    split; [vm_compute; reflexivity|].
    intros Hinv. apply ACCEPTED_not_a_member.
    apply (Hinv "case-1" (with_status "ACCEPTED" (Sample.request "ASSIGNED"))).
    vm_compute. reflexivity.
Qed.

(** ** Creating a request and reading it back *)

Lemma get_set_field_eq key v fields :
  get_field key (set_field key v fields) = Some v.
Proof.
  induction fields as [|[k w] rest IH]; simpl.
  - by rewrite bool_decide_eq_true_2.
  - case_bool_decide as Hk; simpl.
    + by rewrite bool_decide_eq_true_2.
    + by rewrite bool_decide_eq_false_2.
Qed.

Lemma get_set_field_ne key key' v fields :
  key <> key' ->
  get_field key (set_field key' v fields) = get_field key fields.
Proof.
  intros Hne. induction fields as [|[k w] rest IH]; simpl.
  - by rewrite bool_decide_eq_false_2.
  - case_bool_decide as Hk; simpl.
    + subst k. by rewrite !bool_decide_eq_false_2.
    + by rewrite IH.
Qed.

(** Whatever the client put under [severity], the stored object carries the
    severity computed from the grade. *)
Lemma medicalInfo_of_severity dto :
  property (medicalInfo_of dto) "severity" =
    Some (JNumber (severity_of_grade (dto_grade dto))).
Proof.
  unfold medicalInfo_of, property.
  rewrite get_set_field_ne by done. apply get_set_field_eq.
Qed.

Lemma medicalInfo_of_grade dto :
  property (medicalInfo_of dto) "grade" = Some (JString (dto_grade dto)).
Proof.
  unfold medicalInfo_of, property.
  rewrite !get_set_field_ne by done. apply get_set_field_eq.
Qed.

Lemma severity_of_grade_cases grade :
  (grade = "CRITICAL" -> severity_of_grade grade = 5%Q) /\
  (grade = "URGENT" -> severity_of_grade grade = 3%Q) /\
  (grade <> "CRITICAL" -> grade <> "URGENT" -> severity_of_grade grade = 1%Q) /\
  (grade <> "CRITICAL" -> (1 <= severity_of_grade grade <= 4)%Q).
Proof.
  unfold severity_of_grade. repeat split.
  - by intros ->.
  - by intros ->.
  - intros H1 H2. by rewrite !bool_decide_eq_false_2.
  - rewrite bool_decide_eq_false_2 by done. by case_bool_decide.
  - rewrite bool_decide_eq_false_2 by done. by case_bool_decide.
Qed.

Section Create.

Variable env : Env.
Variable createSosDto : CreateEmergencyRequestDto.
Variable userId : string.

Lemma createEmergencyRequest_returns w :
  no_prisma_faults env ->
  notifications_delivered env ->
  gateway_up env ->
  requests (db w) !! uuid env = None ->
  is_Some (users (db w) !! patientId_of createSosDto userId) ->
  exists out,
    createEmergencyRequest env createSosDto userId w =
      (Returned (created_request env createSosDto userId),
       {| db := set_requests
                  (<[uuid env := created_request env createSosDto userId]>
                     (requests (db w))) (db w);
          outbox := out |}).
Proof.
  intros Hp Hn Hg Hfresh [patient Hpatient].
  unfold createEmergencyRequest, bind at 1.
  fold (created_request env createSosDto userId).
  unfold emergencyRequest_create. rewrite prisma_ok by done.
  unfold bind at 1, get_db. simpl. rewrite Hfresh, Hpatient.
  unfold bind at 1, put_db, ret. unfold bind at 1.
  rewrite user_findMany_ok by done. unfold bind at 1.
  match goal with
  | |- context [for_of ?xs (fun u => createNotification env (@?mk u)) ?w0] =>
      destruct (for_of_createNotification_ok env xs mk w0 Hn) as [out Hloop]
  end.
  rewrite Hloop. unfold bind, broadcast, emit, ret. rewrite Hg. simpl.
  by eexists.
Qed.

End Create.

(** C9, as amended.  A created request, read back by its patient, carries
    the severity computed from the grade, whatever severity the client sent:
    5 for CRITICAL, 3 for URGENT, 1 for any other grade; so the severity lies
    in 1-4 for every grade but CRITICAL. *)
Theorem created_request_reads_back_severity env createSosDto userId w :
  no_prisma_faults env ->
  notifications_delivered env ->
  gateway_up env ->
  requests (db w) !! uuid env = None ->
  is_Some (users (db w) !! patientId_of createSosDto userId) ->
  exists created w' view severity,
    createEmergencyRequest env createSosDto userId w = (Returned created, w') /\
    getEmergencyRequestById env (er_id created) (patientId_of createSosDto userId) w' =
      (Returned view, w') /\
    property (view_medicalInfo view) "grade" = Some (JString (dto_grade createSosDto)) /\
    property (view_medicalInfo view) "severity" = Some (JNumber severity) /\
    (dto_grade createSosDto = "CRITICAL" -> severity = 5%Q) /\
    (dto_grade createSosDto = "URGENT" -> severity = 3%Q) /\
    (dto_grade createSosDto <> "CRITICAL" -> dto_grade createSosDto <> "URGENT" ->
     severity = 1%Q) /\
    (dto_grade createSosDto <> "CRITICAL" -> (1 <= severity <= 4)%Q).
Proof.
  intros Hp Hn Hg Hfresh Hpatient.
  destruct (createEmergencyRequest_returns env createSosDto userId w) as [out Hcreate];
    try done.
  eexists _, _, _, (severity_of_grade (dto_grade createSosDto)).
  split; [exact Hcreate|]. split.
  { unfold getEmergencyRequestById, bind at 1.
    rewrite emergencyRequest_findUnique_ok by done. simpl.
    rewrite lookup_insert_eq. unfold bind, get_db. simpl.
    rewrite bool_decide_eq_true_2 by done. reflexivity. }
  simpl. split; [apply medicalInfo_of_grade|].
  split; [apply medicalInfo_of_severity|]. apply severity_of_grade_cases.
Qed.

Lemma created_request_reads_back_severity_witness :
  exists created w' view severity,
    createEmergencyRequest Sample.env_new_case (Sample.sos "URGENT") "patient-1"
      (Sample.world "PENDING" (Some 3%Z) []) = (Returned created, w') /\
    getEmergencyRequestById Sample.env_new_case (er_id created) "patient-1" w' =
      (Returned view, w') /\
    property (view_medicalInfo view) "grade" = Some (JString "URGENT") /\
    property (view_medicalInfo view) "severity" = Some (JNumber severity) /\
    ("URGENT" = "CRITICAL" -> severity = 5%Q) /\
    ("URGENT" = "URGENT" -> severity = 3%Q) /\
    ("URGENT" <> "CRITICAL" -> "URGENT" <> "URGENT" -> severity = 1%Q) /\
    ("URGENT" <> "CRITICAL" -> (1 <= severity <= 4)%Q).
Proof.
  apply (created_request_reads_back_severity Sample.env_new_case
           (Sample.sos "URGENT") "patient-1" (Sample.world "PENDING" (Some 3%Z) []));
    [intros c; reflexivity | intros n; reflexivity | intros ev; reflexivity
    | reflexivity | vm_compute; eauto].
Defined.

(** C9, the claim as stated, fails on its last part: a request created with
    grade CRITICAL reads back with severity 5, which is not in 1-4. *)
Lemma critical_request_reads_back_severity_5 :
  exists created w' view,
    createEmergencyRequest Sample.env_new_case (Sample.sos "CRITICAL") "patient-1"
      (Sample.world "PENDING" (Some 3%Z) []) = (Returned created, w') /\
    getEmergencyRequestById Sample.env_new_case (er_id created) "patient-1" w' =
      (Returned view, w') /\
    property (view_medicalInfo view) "severity" = Some (JNumber 5) /\
    ~ (1 <= 5 <= 4)%Q.
Proof.
  eexists _, _, _. split; [vm_compute; reflexivity|].
  split; [vm_compute; reflexivity|]. split; [reflexivity|].
  intros [_ H]. vm_compute in H. by apply H.
Qed.

(** ** Dashboard statistics *)

Section Stats.

Variable env : Env.
Variable JSON_parse : string -> option Json.
Variable Number : Json -> JsNumber.




(** With the store answering, [getStats] returns, changes nothing, and its
    two computed statistics are the reductions over all requests and over
    the COMPLETED responses. *)
Lemma getStats_returns w :
  no_prisma_faults env ->
  exists stats,
    getStats env JSON_parse Number w = (Returned stats, w) /\
    criticalCases stats =
      criticalCases_of JSON_parse Number (map_to_list (requests (db w))).*2 /\
    averageResponseTime stats =
      averageResponseTime_of (List.filter is_completed (responses (db w))).
Proof.
  intros Hp. unfold getStats, try_catch, bind, emergencyRequest_count,
    organization_count, organization_findMany, emergencyResponse_findMany,
    emergencyRequest_findMany, prisma.
  rewrite !Hp. unfold bind, get_db, ret. eexists. split; [reflexivity|]. simpl.
  split; reflexivity.
Qed.





End Stats.

Lemma Qsum_cons x xs : Qsum (x :: xs) = (x + Qsum xs)%Q.
Proof. reflexivity. Qed.

Lemma response_time_step_milliseconds acc r :
  response_time_step acc r =
    match response_milliseconds r with
    | Some milliseconds =>
        (add_double (fst acc) (minutes_double milliseconds), (snd acc + 1)%Z)
    | None => acc
    end.
Proof.
  unfold response_time_step, response_milliseconds.
  by destruct (resp_dispatchTime r), (resp_completionTime r).
Qed.

(** The loop adds up, in double precision, the durations of the responses
    that have both time stamps, and counts them. *)
Lemma response_time_loop rs totalMinutes validCount :
  fold_left response_time_step rs (totalMinutes, validCount) =
    (fold_left add_double
       (List.map minutes_double (omap response_milliseconds rs)) totalMinutes,
     (validCount + Z.of_nat (length (omap response_milliseconds rs)))%Z).
Proof.
  revert totalMinutes validCount. induction rs as [|r rs IH]; intros t c.
  - simpl. f_equal. lia.
  - cbn [fold_left omap list_omap]. rewrite response_time_step_milliseconds.
    fold (omap response_milliseconds rs).
    destruct (response_milliseconds r) as [milliseconds|].
    + rewrite IH. cbn [fst snd List.map fold_left length]. f_equal. lia.
    + apply IH.
Qed.

Lemma averageResponseTime_of_double_mean rs :
  averageResponseTime_of rs = toFixed2 (double_mean (omap response_milliseconds rs)).
Proof.
  unfold averageResponseTime_of. f_equal.
  destruct rs as [|r rs]; [reflexivity|].
  change (0 <? Z.of_nat (length (r :: rs)))%Z with true. cbv iota.
  rewrite response_time_loop. unfold double_mean, double_sum.
  destruct (omap response_milliseconds (r :: rs)) as [|x xs]; [reflexivity|].
  replace (0 <? 0 + Z.of_nat (length (x :: xs)))%Z with true
    by (symmetry; apply Z.ltb_lt; simpl; lia).
  f_equal. rewrite Z.add_0_l. cbn [length Z.of_nat Z.to_pos].
  apply Pos.of_nat_succ.
Qed.



(** Below 10^21, [Number(x.toFixed(2))] is the double nearest to a whole
    number of hundredths that lies within half a hundredth of [x]. *)
Lemma toFixed2_two_decimals m :
  (Qabs m < 10 ^ 21)%Q ->
  exists n : Z,
    toFixed2 (Finite m) = round64 (inject_Z n / 100) /\
    (Qabs (inject_Z n / 100 - m) <= 1 # 200)%Q.
Proof.
  intros Hm. unfold toFixed2.
  destruct (Qle_bool (10 ^ 21) (Qabs m)) eqn:Hbig.
  { apply Qle_bool_iff in Hbig. lra. }
  pose proof (Qfloor_le (Qabs m * 100 + (1 # 2))) as Hlo.
  pose proof (Qlt_floor (Qabs m * 100 + (1 # 2))) as Hhi.
  rewrite inject_Z_plus in Hhi. change (inject_Z 1) with 1%Q in Hhi.
  destruct (Qle_bool 0 m) eqn:Hsign.
  - apply Qle_bool_iff in Hsign. exists (Qfloor (Qabs m * 100 + (1 # 2))).
    split; [reflexivity|]. pose proof (Qabs_pos m Hsign) as Ha.
    set (a := Qabs m) in *.
    set (n := inject_Z (Qfloor (a * 100 + (1 # 2)))) in *.
    apply Qabs_Qle_condition. unfold Qdiv. change (/ 100)%Q with (1 # 100)%Q.
    split; lra.
  - assert (m <= 0)%Q as Hneg.
    { apply Qnot_lt_le. intros Hpos. apply Qlt_le_weak, Qle_bool_iff in Hpos. congruence. }
    exists (- Qfloor (Qabs m * 100 + (1 # 2)))%Z. split.
    + f_equal. unfold Qdiv, Qmult, Qopp, inject_Z. simpl. f_equal. lia.
    + pose proof (Qabs_neg m Hneg) as Ha. rewrite inject_Z_opp.
      set (a := Qabs m) in *.
      set (n := inject_Z (Qfloor (a * 100 + (1 # 2)))) in *.
      apply Qabs_Qle_condition. unfold Qdiv. change (/ 100)%Q with (1 # 100)%Q.
      split; lra.
Qed.

(** C8, as amended.  The [averageResponseTime] statistic is computed from
    exactly the COMPLETED responses that have both time stamps; responses
    lacking one enter neither the sum nor the count.  It is 0 when there is
    no such response.  Otherwise it is their mean duration in minutes as
    double-precision arithmetic computes it (each duration divided by 60000,
    the minutes added up one by one, the total divided by their number,
    every step rounded to the nearest double), read back from its two-decimal
    print: the double nearest to a whole number of hundredths that lies
    within half a hundredth of that mean.  Over a response completed five
    minutes after dispatch and one never completed it is 5. *)
Theorem averageResponseTime_is_rounded_double_mean env JSON_parse Number w :
  no_prisma_faults env ->
  exists stats,
    getStats env JSON_parse Number w = (Returned stats, w) /\
    averageResponseTime stats =
      toFixed2 (double_mean (completed_milliseconds (responses (db w)))) /\
    (completed_milliseconds (responses (db w)) = [] ->
     averageResponseTime stats = Finite 0) /\
    (forall m,
       double_mean (completed_milliseconds (responses (db w))) = Finite m ->
       (Qabs m < 10 ^ 21)%Q ->
       exists n : Z,
         averageResponseTime stats = round64 (inject_Z n / 100) /\
         (Qabs (inject_Z n / 100 - m) <= 1 # 200)%Q) /\
    (forall r1 r2 t0 t1,
       responses (db w) = [r1; r2] ->
       resp_status r1 = "COMPLETED" ->
       resp_dispatchTime r1 = Some t0 ->
       resp_completionTime r1 = Some (t0 + 5 * 60 * 1000)%Z ->
       resp_status r2 = "COMPLETED" ->
       resp_dispatchTime r2 = Some t1 ->
       resp_completionTime r2 = None ->
       averageResponseTime stats = Finite 5).
Proof.
  intros Hp. destruct (getStats_returns env JSON_parse Number w Hp)
    as (stats & Hstats & _ & Haverage).
  exists stats. split; [exact Hstats|].
  assert (averageResponseTime stats =
            toFixed2 (double_mean (completed_milliseconds (responses (db w)))))
    as Hmean.
  { rewrite Haverage. apply averageResponseTime_of_double_mean. }
  split; [exact Hmean|]. split; [|split].
  - intros Hnone. rewrite Hmean, Hnone. reflexivity.
  - intros m Hm Hsmall. rewrite Hmean, Hm. by apply toFixed2_two_decimals.
  - intros r1 r2 t0 t1 Hrs Hs1 Hd1 Hc1 Hs2 Hd2 Hc2. rewrite Hmean, Hrs.
    unfold completed_milliseconds, is_completed. cbn [List.filter].
    rewrite Hs1, Hs2. simpl. unfold response_milliseconds.
    rewrite Hd1, Hc1, Hd2, Hc2.
    replace (t0 + 5 * 60 * 1000 - t0)%Z with 300000%Z by lia.
    vm_compute. reflexivity.
Qed.

Lemma averageResponseTime_is_rounded_double_mean_witness :
  exists stats,
    getStats Sample.env_ok (fun _ => None) (fun _ => NaN)
      (Sample.world "COMPLETED" (Some 3%Z)
         [timed_response "resp-1" "COMPLETED" (Some 1000%Z) (Some 301000%Z);
          timed_response "resp-2" "COMPLETED" (Some 2000%Z) None]) =
      (Returned stats,
       Sample.world "COMPLETED" (Some 3%Z)
         [timed_response "resp-1" "COMPLETED" (Some 1000%Z) (Some 301000%Z);
          timed_response "resp-2" "COMPLETED" (Some 2000%Z) None]) /\
    averageResponseTime stats = Finite 5.
Proof.
  destruct (averageResponseTime_is_rounded_double_mean Sample.env_ok
              (fun _ => None) (fun _ => NaN)
              (Sample.world "COMPLETED" (Some 3%Z)
                 [timed_response "resp-1" "COMPLETED" (Some 1000%Z) (Some 301000%Z);
                  timed_response "resp-2" "COMPLETED" (Some 2000%Z) None]))
    as (stats & Hstats & _ & _ & _ & Hfive); [intros c; reflexivity|].
  exists stats. split; [exact Hstats|].
  by apply (Hfive _ _ 1000%Z 2000%Z eq_refl).
Defined.

(** C8, the claim as stated, fails: for one response completed 100 seconds
    after dispatch the mean is 5/3 of a minute, and the statistic is the
    double 1.67. *)
Lemma averageResponseTime_is_not_the_mean :
  let w := Sample.world "COMPLETED" (Some 3%Z)
             [timed_response "resp-1" "COMPLETED" (Some 0%Z) (Some 100000%Z)] in
  exists stats q,
    getStats Sample.env_ok (fun _ => None) (fun _ => NaN) w = (Returned stats, w) /\
    (mean (completed_durations (responses (db w))) == 5 # 3)%Q /\
    averageResponseTime stats = Finite q /\
    Finite q = round64 (167 # 100) /\
    ~ (q == mean (completed_durations (responses (db w))))%Q.
Proof.
  eexists _, _. split; [vm_compute; reflexivity|].
  split; [reflexivity|]. split; [reflexivity|]. split; [vm_compute; reflexivity|].
  intros H. vm_compute in H. discriminate H.
Qed.

(** ** Which operations are atomic *)

Section Atomicity.

Variable env : Env.

(** [acceptEmergency] has the shape of [assignCase]: the response row is
    written first, and stays when the update of the request is refused. *)
Lemma acceptEmergency_update_refused hospitalId acceptEmergencyDto w r h :
  prisma_fails env Organization_findFirst = false ->
  prisma_fails env EmergencyRequest_findUnique = false ->
  prisma_fails env EmergencyResponse_create = false ->
  prisma_fails env EmergencyRequest_update = true ->
  find_response (uuid env) (responses (db w)) = None ->
  organizations (db w) !! hospitalId = Some h ->
  org_type h = "HOSPITAL" ->
  requests (db w) !! aed_emergencyId acceptEmergencyDto = Some r ->
  er_id r = aed_emergencyId acceptEmergencyDto ->
  er_status r = EmergencyStatus.PENDING ->
  exists row,
    acceptEmergency env hospitalId acceptEmergencyDto w =
      (Thrown (PrismaClientError EmergencyRequest_update),
       {| db := set_responses (responses (db w) ++ [row]) (db w);
          outbox := outbox w |}) /\
    links (aed_emergencyId acceptEmergencyDto) hospitalId row /\
    resp_status row = "ACCEPTED".
Proof.
  intros Hof Hf Hc Hu Hfresh Hh Hty Hr Hid Hst.
  unfold acceptEmergency, bind at 1, findOne, bind at 1,
    organization_findFirst_hospital.
  rewrite prisma_ok by done. unfold bind at 1, get_db, ret.
  rewrite Hh, bool_decide_eq_true_2 by done.
  unfold bind at 1. rewrite emergencyRequest_findUnique_ok, Hr by done.
  rewrite bool_decide_eq_true_2 by done. cbn [negb].
  unfold bind at 1.
  rewrite emergencyResponse_create_ok; simpl;
    [| done | done | by rewrite Hid, Hr | by rewrite Hh].
  unfold bind at 1, emergencyRequest_update. rewrite prisma_refused by done.
  eexists. split; [reflexivity|]. by rewrite Hid.
Qed.

(** A loop of notification writes never touches the rows. *)
Lemma for_of_createNotification_rows {A} (xs : list A) (mk : A -> NotificationInput) w :
  db (for_of xs (fun x => createNotification env (mk x)) w).2 = db w.
Proof.
  apply (preserves_for_of (fun s => s = db w)); [|done].
  intros x. apply preserves_createNotification.
Qed.


(** *** Inverting a run that returned *)

Lemma bind_returned {A B} (m : Async A) (k : A -> Async B) w b w' :
  bind m k w = (Returned b, w') ->
  exists a w1, m w = (Returned a, w1) /\ k a w1 = (Returned b, w').
Proof.
  unfold bind. destruct (m w) as [[a|e] w1]; [|done]. intros Hk. by exists a, w1.
Qed.

Lemma prisma_returned {A} call (m : Async A) w a w' :
  prisma env call m w = (Returned a, w') -> m w = (Returned a, w').
Proof. unfold prisma. by destruct (prisma_fails env call). Qed.

Lemma emergencyRequest_findUnique_returned id w found w' :
  emergencyRequest_findUnique env id w = (Returned found, w') ->
  found = requests (db w) !! id /\ w' = w.
Proof. intros H. apply prisma_returned in H. by injection H as <- <-. Qed.

Lemma organization_findUnique_returned id w found w' :
  organization_findUnique env id w = (Returned found, w') ->
  found = organizations (db w) !! id /\ w' = w.
Proof. intros H. apply prisma_returned in H. by injection H as <- <-. Qed.

Lemma user_findMany_returned where_ w found w' :
  user_findMany env where_ w = (Returned found, w') -> w' = w.
Proof. intros H. apply prisma_returned in H. by injection H as _ <-. Qed.

Lemma emergencyRequest_update_returned id data w a w' :
  emergencyRequest_update env id data w = (Returned a, w') ->
  exists r,
    requests (db w) !! id = Some r /\ a = data r /\
    w' = {| db := set_requests (<[id := data r]> (requests (db w))) (db w);
            outbox := outbox w |}.
Proof.
  intros H. apply prisma_returned in H. revert H. unfold bind, get_db.
  destruct (requests (db w) !! id) as [r|]; [|done].
  intros [= <- <-]. by exists r.
Qed.

Lemma organization_update_returned id data w a w' :
  organization_update env id data w = (Returned a, w') ->
  exists o,
    organizations (db w) !! id = Some o /\ a = data o /\
    w' = {| db := set_organizations (<[id := data o]> (organizations (db w))) (db w);
            outbox := outbox w |}.
Proof.
  intros H. apply prisma_returned in H. revert H. unfold bind, get_db.
  destruct (organizations (db w) !! id) as [o|]; [|done].
  intros [= <- <-]. by exists o.
Qed.

Lemma emergencyResponse_create_returned data w a w' :
  emergencyResponse_create env data w = (Returned a, w') ->
  w' = {| db := set_responses (responses (db w) ++ [data]) (db w);
          outbox := outbox w |}.
Proof.
  intros H. apply prisma_returned in H. revert H. unfold bind, get_db.
  destruct (find_response (resp_id data) (responses (db w))),
    (requests (db w) !! resp_emergencyRequestId data),
    (organizations (db w) !! resp_organizationId data); try done.
  by intros [= <- <-].
Qed.

Lemma createNotification_rows n w : db (createNotification env n w).2 = db w.
Proof. by apply (preserves_createNotification env (fun s => s = db w)). Qed.

Lemma broadcast_rows ev w : db (broadcast env ev w).2 = db w.
Proof. by apply (preserves_broadcast env (fun s => s = db w)). Qed.

(** When the transaction of [assignToHospital] returns, all three writes have
    been made. *)
Lemma assignToHospital_tx_returned emergencyId hospitalId userId w a w1 :
  assignToHospital_tx env emergencyId hospitalId userId w = (Returned a, w1) ->
  exists r h,
    requests (db w) !! emergencyId = Some r /\
    organizations (db w) !! hospitalId = Some h /\
    db w1 = assigned_store env emergencyId hospitalId userId r h (db w).
Proof.
  unfold assignToHospital_tx. intros H.
  apply bind_returned in H as (found & w0 & Hfind & H).
  apply emergencyRequest_findUnique_returned in Hfind as [-> ->].
  destruct (requests (db w) !! emergencyId) as [r|] eqn:Hr; [|done].
  apply bind_returned in H as (s & w0 & [= <- <-] & H).
  case_bool_decide; [done|].
  fold (normalized (er_status r)) in H.
  destruct (negb _ && negb _); [done|].
  apply bind_returned in H as ([] & w0 & Hnorm & H).
  assert (w0 = normalized_world emergencyId w r) as ->.
  { unfold normalized_world. revert Hnorm. case_bool_decide; simpl.
    - by intros [= <-].
    - intros Hnorm. apply bind_returned in Hnorm as (u & w2 & Hup & [= <-]).
      apply emergencyRequest_update_returned in Hup as (r' & Hr' & _ & ->).
      rewrite Hr in Hr'. by injection Hr' as <-. }
  destruct (normalized_world_rest emergencyId w r) as (Horgs & Hresps & Husers & Hout).
  apply bind_returned in H as (hospital_found & w0 & Hhosp & H).
  apply organization_findUnique_returned in Hhosp as [-> ->].
  rewrite Horgs in H.
  destruct (organizations (db w) !! hospitalId) as [h|] eqn:Hh; [|done].
  destruct (negb (bool_decide (org_type h = "HOSPITAL"))); [done|].
  destruct (no_available_beds h); [done|].
  apply bind_returned in H as (updated & w0 & Hup & H).
  apply emergencyRequest_update_returned in Hup as (r' & Hr' & -> & ->).
  rewrite (normalized_world_request emergencyId w r Hr) in Hr'. injection Hr' as <-.
  apply bind_returned in H as (row & w0 & Hcreate & H).
  apply emergencyResponse_create_returned in Hcreate as ->.
  apply bind_returned in H as (updatedHospital & w0 & Horg & H).
  apply organization_update_returned in Horg as (h' & Hh' & -> & ->).
  simpl in Hh'. rewrite Horgs, Hh in Hh'. injection Hh' as <-.
  apply bind_returned in H as (hospitalUsers & w0 & Husr & H).
  apply user_findMany_returned in Husr as ->.
  apply bind_returned in H as ([] & w2 & Hloop & H).
  apply bind_returned in H as ([] & w3 & Hnote & H).
  apply bind_returned in H as ([] & w4 & Hcast & [= <- <-]).
  exists r, h. split; [done|]. split; [done|].
  apply (f_equal (fun p => db p.2)) in Hcast, Hnote, Hloop. simpl in Hcast, Hnote, Hloop.
  rewrite broadcast_rows in Hcast. rewrite createNotification_rows in Hnote.
  rewrite for_of_createNotification_rows in Hloop.
  rewrite <- Hcast, <- Hnote, <- Hloop. simpl.
  unfold assigned_store, set_requests, set_organizations, set_responses,
    assigned_response; simpl.
  rewrite Horgs, Hresps, Husers. f_equal.
  unfold normalized_world. case_bool_decide; simpl; [done|].
  by rewrite insert_insert_eq.
Qed.

(** [assignToHospital] is all or nothing on the rows: whatever the store, the
    notification service and the gateway do, the call leaves the store as it
    was, or with the request assigned, the response row added and the bed
    taken. *)
Lemma assignToHospital_all_or_nothing emergencyId hospitalId userId w :
  let w' := (assignToHospital env emergencyId hospitalId userId w).2 in
  db w' = db w \/
  exists r h,
    requests (db w) !! emergencyId = Some r /\
    organizations (db w) !! hospitalId = Some h /\
    db w' = assigned_store env emergencyId hospitalId userId r h (db w).
Proof.
  cbv zeta. unfold assignToHospital, bind, transaction.
  destruct (assignToHospital_tx env emergencyId hospitalId userId w)
    as [[a|e] w1] eqn:Htx; [|by left].
  right. apply assignToHospital_tx_returned in Htx as (r & h & Hr & Hh & Hdb).
  exists r, h. split; [done|]. split; [done|]. rewrite <- Hdb.
  pose proof (broadcast_rows (StatusUpdate (er_id a) (er_status a)) w1) as Hcast.
  by destruct (broadcast env _ w1) as [[[]|e] w2].
Qed.

End Atomicity.

(** * Further properties *)

(** ** Frames: what a write leaves alone *)

Section Frames.

Variable env : Env.
Variable I : Store -> Prop.

Lemma frame_request_update id data :
  (forall s r, I s -> I (set_requests (<[id := r]> (requests s)) s)) ->
  preserves I (emergencyRequest_update env id data).
Proof.
  intros HI. apply preserves_prisma. intros w Hw. unfold bind, get_db.
  destruct (requests (db w) !! id) as [r|]; simpl; [by apply HI|done].
Qed.

Lemma frame_request_create data :
  (forall s r, I s -> I (set_requests (<[er_id data := r]> (requests s)) s)) ->
  preserves I (emergencyRequest_create env data).
Proof.
  intros HI. apply preserves_prisma. intros w Hw. unfold bind, get_db.
  destruct (requests (db w) !! er_id data), (users (db w) !! er_patientId data);
    simpl; try done.
  by apply HI.
Qed.

Lemma frame_response_create data :
  (forall s l, I s -> I (set_responses l s)) ->
  preserves I (emergencyResponse_create env data).
Proof.
  intros HI. apply preserves_prisma. intros w Hw. unfold bind, get_db.
  destruct (find_response (resp_id data) (responses (db w))),
    (requests (db w) !! resp_emergencyRequestId data),
    (organizations (db w) !! resp_organizationId data); simpl; try done.
  by apply HI.
Qed.

Lemma frame_response_update id data :
  (forall s l, I s -> I (set_responses l s)) ->
  preserves I (emergencyResponse_update env id data).
Proof.
  intros HI. apply preserves_prisma. intros w Hw. unfold bind, get_db.
  destruct (find_response id (responses (db w))); simpl; [by apply HI|done].
Qed.

End Frames.

(** One step of a proof that an operation keeps a property of the store
    which its writes to the request and response tables do not disturb. *)
Ltac frame_step :=
  first
    [ apply preserves_ret
    | apply preserves_throw
    | apply preserves_get_db
    | apply preserves_createNotification
    | apply preserves_broadcast
    | apply preserves_logger_warn
    | apply preserves_emergencyRequest_findUnique
    | apply preserves_organization_findUnique
    | apply preserves_organization_findFirst_hospital
    | apply preserves_emergencyResponse_findUnique
    | apply preserves_user_findMany
    | apply preserves_transaction
    | apply preserves_for_of; intros ?
    | apply preserves_try_catch; [|intros ?]
    | apply preserves_bind; [|intros ?]
    | match goal with
      | |- preserves _ (match ?x with _ => _ end) => destruct x eqn:?
      end ].

(** ** Cancelling leaves the responses and the beds alone *)

(** X1. [cancelCase] writes one thing, the status of the case: whatever happens,
    the response rows, the organizations (a bed taken by an assignment is not
    given back), the users and every other request are as before. *)
Theorem cancelCase_touches_only_the_case env dto w :
  let w' := (cancelCase env dto w).2 in
  responses (db w') = responses (db w) /\
  organizations (db w') = organizations (db w) /\
  users (db w') = users (db w) /\
  forall id, id <> ccd_caseId dto -> requests (db w') !! id = requests (db w) !! id.
Proof.
  cbv zeta.
  set (I := fun s : Store =>
    responses s = responses (db w) /\
    organizations s = organizations (db w) /\
    users s = users (db w) /\
    forall id, id <> ccd_caseId dto -> requests s !! id = requests (db w) !! id).
  assert (preserves I (cancelCase env dto)) as Hkeeps.
  { unfold cancelCase. repeat frame_step.
    apply frame_request_update. intros s r (Hr & Ho & Hu & Hreq).
    repeat split; try done. intros id Hid. simpl.
    rewrite lookup_insert_ne by done. by apply Hreq. }
  by apply Hkeeps.
Qed.

(** ** The reads of the lifecycle service *)

Lemma elem_of_rows {A} (m : gmap string A) (r : A) :
  r ∈ (map_to_list m).*2 <-> exists id, m !! id = Some r.
Proof.
  rewrite list_elem_of_fmap. split.
  - intros ([id x] & -> & Hin). exists id. by apply elem_of_map_to_list.
  - intros (id & Hid). exists (id, r). split; [done|]. by apply elem_of_map_to_list.
Qed.

Lemma elem_of_List_filter {A} (f : A -> bool) (l : list A) (x : A) :
  x ∈ List.filter f l <-> x ∈ l /\ f x = true.
Proof. rewrite !list_elem_of_In. apply filter_In. Qed.

Lemma truthy_medicalInfo_or_default medicalInfo :
  truthy (medicalInfo_or_default medicalInfo) = true.
Proof.
  unfold medicalInfo_or_default. by destruct (truthy medicalInfo) eqn:Ht.
Qed.

Section Reads.

Variable env : Env.

Lemma emergencyRequest_findMany_where_ok where_ w :
  prisma_fails env EmergencyRequest_findMany = false ->
  emergencyRequest_findMany_where env where_ w =
    (Returned (List.filter (where_ (db w)) (map_to_list (requests (db w))).*2), w).
Proof. intros H. unfold emergencyRequest_findMany_where. by rewrite prisma_ok. Qed.

Lemma lists_map_view_of s (rows : list EmergencyRequest) r :
  lists (List.map (view_of s) rows) r <-> r ∈ rows.
Proof.
  unfold lists. split.
  - intros (v & Hv & <-). apply list_elem_of_In, in_map_iff in Hv as (r' & <- & Hr').
    by apply list_elem_of_In.
  - intros Hr. exists (view_of s r). split; [|done].
    apply list_elem_of_In, in_map_iff. exists r. split; [done|by apply list_elem_of_In].
Qed.

Lemma some_response_actively_handles s hospitalId r :
  some_response s r (fun x =>
    bool_decide (resp_organizationId x = hospitalId)
    && includes ["ASSIGNED"; "IN_PROGRESS"] (resp_status x)) = true
  <-> actively_handles s hospitalId r.
Proof.
  unfold some_response, actively_handles, responses_of. rewrite existsb_exists. split.
  - intros (x & Hx & Htest). apply list_elem_of_In, list_elem_of_filter in Hx as [Hid Hx].
    apply andb_true_iff in Htest as [Horg Hst].
    apply bool_decide_eq_true in Horg. apply includes_elem_of in Hst.
    exists x. repeat split; try done.
    rewrite !elem_of_cons, elem_of_nil in Hst. tauto.
  - intros (x & Hx & Hid & Horg & Hst). exists x. split.
    + apply list_elem_of_In, list_elem_of_filter. by split.
    + apply andb_true_iff. split; [by apply bool_decide_eq_true|].
      apply includes_elem_of. rewrite !elem_of_cons. tauto.
Qed.

(** What [findActiveEmergenciesByHospital] returns: the requests to which
    the hospital has an ASSIGNED or IN_PROGRESS response. *)
Lemma findActiveEmergenciesByHospital_returns hospitalId w :
  prisma_fails env EmergencyRequest_findMany = false ->
  exists views,
    findActiveEmergenciesByHospital env hospitalId w = (Returned views, w) /\
    forall r, lists views r <->
              (exists id, requests (db w) !! id = Some r) /\
              actively_handles (db w) hospitalId r.
Proof.
  intros Hp. unfold findActiveEmergenciesByHospital, bind at 1.
  rewrite emergencyRequest_findMany_where_ok by done.
  eexists. split; [reflexivity|]. intros r.
  rewrite lists_map_view_of, elem_of_List_filter, elem_of_rows.
  by rewrite some_response_actively_handles.
Qed.

(** What [getEmergencyRequests] returns: the views of the rows of the
    patient. *)
Lemma getEmergencyRequests_run userId w :
  prisma_fails env EmergencyRequest_findMany = false ->
  getEmergencyRequests env userId w =
    (Returned (List.map (view_of (db w))
                 (List.filter (fun r => bool_decide (er_patientId r = userId))
                              (map_to_list (requests (db w))).*2)), w).
Proof.
  intros Hp. unfold getEmergencyRequests, bind at 1.
  rewrite emergencyRequest_findMany_where_ok by done. unfold bind, get_db.
  by destruct (List.filter _ _).
Qed.

End Reads.

(** X2. A patient's list holds that patient's requests, all of them and no one
    else's.  Each entry carries the [medicalInfo] of its row when that is
    truthy and the default object [{ grade: "NON_URGENT", severity: 1 }] when
    it is not (a row without medical information), so it is never falsy; its
    [emergencyType] is the type of the row.  The store is not touched. *)
Theorem getEmergencyRequests_lists_own_requests env userId w :
  prisma_fails env EmergencyRequest_findMany = false ->
  exists views,
    getEmergencyRequests env userId w = (Returned views, w) /\
    (forall r, lists views r <->
               (exists id, requests (db w) !! id = Some r) /\ er_patientId r = userId) /\
    (forall v, v ∈ views ->
               truthy (view_medicalInfo v) = true /\
               (truthy (er_medicalInfo (view_request v)) = true ->
                view_medicalInfo v = er_medicalInfo (view_request v)) /\
               (truthy (er_medicalInfo (view_request v)) = false ->
                view_medicalInfo v =
                  JObject [("grade", JString "NON_URGENT"); ("severity", JNumber 1)]) /\
               view_emergencyType v = er_type (view_request v)).
Proof.
  intros Hp. rewrite getEmergencyRequests_run by done.
  eexists. split; [reflexivity|]. split.
  - intros r. rewrite lists_map_view_of, elem_of_List_filter, elem_of_rows.
    by rewrite bool_decide_eq_true.
  - intros v Hv. apply list_elem_of_In, in_map_iff in Hv as (r & <- & _). simpl.
    split; [apply truthy_medicalInfo_or_default|].
    unfold medicalInfo_or_default.
    split; [by intros ->|]. split; [by intros ->|done].
Qed.

Lemma getEmergencyRequests_lists_own_requests_witness :
  exists views,
    getEmergencyRequests Sample.env_ok "patient-1"
      (Sample.world "PENDING" (Some 3%Z) []) =
      (Returned views, Sample.world "PENDING" (Some 3%Z) []) /\
    lists views (Sample.request "PENDING") /\
    forall v, v ∈ views -> truthy (view_medicalInfo v) = true.
Proof.
  destruct (getEmergencyRequests_lists_own_requests Sample.env_ok "patient-1"
              (Sample.world "PENDING" (Some 3%Z) []))
    as (views & Hrun & Hlists & Hviews); [reflexivity|].
  exists views. split; [exact Hrun|]. split.
  - apply Hlists. split; [|reflexivity]. exists "case-1". reflexivity.
  - intros v Hv. by destruct (Hviews v Hv).
Defined.

(** ** More on the hospital assignment *)

Section AssignToHospitalMore.

Variable env : Env.
Variables emergencyId hospitalId userId : string.

(** The assignment goes through for a PENDING or ASSIGNED request (after
    normalisation) not yet linked to the hospital, when the hospital has a
    bed. *)
Lemma assignToHospital_assigns w r h :
  no_prisma_faults env ->
  notifications_delivered env ->
  gateway_up env ->
  find_response (uuid env) (responses (db w)) = None ->
  requests (db w) !! emergencyId = Some r ->
  links_of (db w) emergencyId hospitalId = [] ->
  normalized (er_status r) = EmergencyStatus.PENDING \/
  normalized (er_status r) = EmergencyStatus.ASSIGNED ->
  organizations (db w) !! hospitalId = Some h ->
  org_type h = "HOSPITAL" ->
  no_available_beds h = false ->
  exists out,
    assignToHospital env emergencyId hospitalId userId w =
      (Returned (with_updatedBy userId (with_status EmergencyStatus.ASSIGNED r)),
       {| db := assigned_store env emergencyId hospitalId userId r h (db w);
          outbox := out |}).
Proof.
  intros Hp Hn Hg Hfresh Hr Hl Hst Hh Hty Hbeds.
  destruct (assignToHospital_tx_assigns env emergencyId hospitalId userId w r h)
    as [out Htx]; try done.
  unfold assignToHospital, bind, transaction. rewrite Htx.
  unfold broadcast, emit, ret. rewrite Hg. simpl. by eexists.
Qed.

End AssignToHospitalMore.

(** X3. A request whose status is the stray value "Active" or "ACTIVE" is treated
    as PENDING: the assignment goes through and leaves it ASSIGNED, with the
    response row added and the bed taken. *)
Theorem assignToHospital_accepts_Active
    env emergencyId hospitalId userId w r h b :
  no_prisma_faults env ->
  notifications_delivered env ->
  gateway_up env ->
  find_response (uuid env) (responses (db w)) = None ->
  requests (db w) !! emergencyId = Some r ->
  er_status r = "Active" \/ er_status r = "ACTIVE" ->
  links_of (db w) emergencyId hospitalId = [] ->
  organizations (db w) !! hospitalId = Some h ->
  org_type h = "HOSPITAL" ->
  org_availableBeds h = Some b ->
  (0 < b)%Z ->
  exists updated w',
    assignToHospital env emergencyId hospitalId userId w = (Returned updated, w') /\
    er_status updated = EmergencyStatus.ASSIGNED /\
    requests (db w') !! emergencyId = Some updated /\
    org_availableBeds <$> organizations (db w') !! hospitalId = Some (Some (b - 1)%Z) /\
    length (responses (db w')) = S (length (responses (db w))).
Proof.
  intros Hp Hn Hg Hfresh Hr Hst Hl Hh Hty Hbeds Hpos.
  destruct (assignToHospital_assigns env emergencyId hospitalId userId w r h)
    as [out Hrun]; try done.
  { left. unfold normalized. by destruct Hst as [-> | ->]. }
  { unfold no_available_beds. rewrite Hbeds. apply Z.leb_gt. lia. }
  eexists _, _. split; [exact Hrun|]. simpl. repeat split.
  - by rewrite lookup_insert_eq.
  - rewrite lookup_insert_eq. simpl. by rewrite Hbeds.
  - rewrite length_app. simpl. lia.
Qed.

Lemma assignToHospital_accepts_Active_witness :
  exists updated w',
    assignToHospital Sample.env_ok "case-1" "hospital-1" "admin-1"
      (Sample.world "Active" (Some 1%Z) []) = (Returned updated, w') /\
    er_status updated = EmergencyStatus.ASSIGNED /\
    requests (db w') !! "case-1" = Some updated /\
    org_availableBeds <$> organizations (db w') !! "hospital-1" = Some (Some 0%Z) /\
    length (responses (db w')) = 1%nat.
Proof.
  apply (assignToHospital_accepts_Active Sample.env_ok "case-1" "hospital-1" "admin-1"
           (Sample.world "Active" (Some 1%Z) []) (Sample.request "Active")
           (Sample.hospital (Some 1%Z)) 1%Z);
    try reflexivity; try (intros c; reflexivity). by left.
Defined.

(** X4. A case assigned to a hospital and then cancelled from the dashboard is
    CANCELLED, but the hospital does not get its bed back, and the case is
    still in the hospital's list of active emergencies: the list goes by the
    status of the response, which the cancellation leaves ASSIGNED. *)
Theorem cancelled_case_stays_with_the_hospital
    env env' emergencyId hospitalId userId w r h b :
  no_prisma_faults env ->
  notifications_delivered env ->
  gateway_up env ->
  no_prisma_faults env' ->
  find_response (uuid env) (responses (db w)) = None ->
  requests (db w) !! emergencyId = Some r ->
  er_id r = emergencyId ->
  er_status r = EmergencyStatus.PENDING ->
  links_of (db w) emergencyId hospitalId = [] ->
  organizations (db w) !! hospitalId = Some h ->
  org_type h = "HOSPITAL" ->
  org_availableBeds h = Some b ->
  (0 < b)%Z ->
  let w1 := (assignToHospital env emergencyId hospitalId userId w).2 in
  let w2 := (cancelCase env' {| ccd_caseId := emergencyId |} w1).2 in
  exists cancelled views,
    requests (db w2) !! emergencyId = Some cancelled /\
    er_status cancelled = EmergencyStatus.CANCELLED /\
    org_availableBeds <$> organizations (db w2) !! hospitalId = Some (Some (b - 1)%Z) /\
    findActiveEmergenciesByHospital env' hospitalId w2 = (Returned views, w2) /\
    lists views cancelled.
Proof.
  intros Hp Hn Hg Hp' Hfresh Hr Hid Hst Hl Hh Hty Hbeds Hpos.
  destruct (assignToHospital_assigns env emergencyId hospitalId userId w r h)
    as [out Hrun]; try done.
  { left. by rewrite Hst. }
  { unfold no_available_beds. rewrite Hbeds. apply Z.leb_gt. lia. }
  cbv zeta. rewrite Hrun. cbn [snd].
  set (assigned := with_updatedBy userId (with_status EmergencyStatus.ASSIGNED r)).
  rewrite (cancelCase_open env' {| ccd_caseId := emergencyId |} _ assigned);
    try done; [|simpl; by rewrite lookup_insert_eq]. cbn [snd].
  set (w2 := {| db := _; outbox := _ |}).
  destruct (findActiveEmergenciesByHospital_returns env' hospitalId w2)
    as (views & Hviews & Hlists); [done|].
  exists (with_status EmergencyStatus.CANCELLED assigned), views.
  split; [simpl; by rewrite lookup_insert_eq|]. split; [done|].
  split; [simpl; rewrite lookup_insert_eq; simpl; by rewrite Hbeds|].
  split; [exact Hviews|]. apply Hlists. split.
  - exists emergencyId. simpl. by rewrite lookup_insert_eq.
  - exists (assigned_response env emergencyId hospitalId). simpl.
    split; [apply elem_of_app; right; by apply list_elem_of_singleton|].
    repeat split; try done. by left.
Qed.

Lemma cancelled_case_stays_with_the_hospital_witness :
  let w1 := (assignToHospital Sample.env_ok "case-1" "hospital-1" "admin-1"
               (Sample.world "PENDING" (Some 3%Z) [])).2 in
  let w2 := (cancelCase Sample.env_ok {| ccd_caseId := "case-1" |} w1).2 in
  exists cancelled views,
    requests (db w2) !! "case-1" = Some cancelled /\
    er_status cancelled = EmergencyStatus.CANCELLED /\
    org_availableBeds <$> organizations (db w2) !! "hospital-1" = Some (Some 2%Z) /\
    findActiveEmergenciesByHospital Sample.env_ok "hospital-1" w2 = (Returned views, w2) /\
    lists views cancelled.
Proof.
  apply (cancelled_case_stays_with_the_hospital Sample.env_ok Sample.env_ok
           "case-1" "hospital-1" "admin-1" (Sample.world "PENDING" (Some 3%Z) [])
           (Sample.request "PENDING") (Sample.hospital (Some 3%Z)) 3%Z);
    try reflexivity; try (intros c; reflexivity).
Defined.

Section AssignToHospitalRefusals.

Variable env : Env.
Variables emergencyId hospitalId userId : string.

Lemma normalized_open status :
  status ∈ [EmergencyStatus.PENDING; EmergencyStatus.ASSIGNED; "Active"; "ACTIVE"] <->
  normalized status = EmergencyStatus.PENDING \/
  normalized status = EmergencyStatus.ASSIGNED.
Proof.
  rewrite !elem_of_cons, elem_of_nil. unfold normalized. split.
  - intros [->|[->|[->|[->|[]]]]]; auto.
  - destruct (bool_decide_reflect (status = "Active")) as [->|H1]; [tauto|].
    destruct (bool_decide_reflect (status = "ACTIVE")) as [->|H2]; [tauto|].
    simpl. tauto.
Qed.

Lemma assignToHospital_tx_request_missing w :
  prisma_fails env EmergencyRequest_findUnique = false ->
  requests (db w) !! emergencyId = None ->
  assignToHospital_tx env emergencyId hospitalId userId w =
    (Thrown (NotFoundException "Emergency request not found"), w).
Proof.
  intros Hf Hr. unfold assignToHospital_tx, bind at 1.
  by rewrite emergencyRequest_findUnique_ok, Hr.
Qed.

Lemma assignToHospital_tx_hospital_missing w r :
  prisma_fails env EmergencyRequest_findUnique = false ->
  prisma_fails env EmergencyRequest_update = false ->
  prisma_fails env Organization_findUnique = false ->
  requests (db w) !! emergencyId = Some r ->
  links_of (db w) emergencyId hospitalId = [] ->
  normalized (er_status r) = EmergencyStatus.PENDING \/
  normalized (er_status r) = EmergencyStatus.ASSIGNED ->
  (organizations (db w) !! hospitalId = None \/
   exists o, organizations (db w) !! hospitalId = Some o /\ org_type o <> "HOSPITAL") ->
  assignToHospital_tx env emergencyId hospitalId userId w =
    (Thrown (NotFoundException "Hospital not found"),
     normalized_world emergencyId w r).
Proof.
  intros Hf Hu Ho Hr Hl Hst Hh.
  unfold assignToHospital_tx, bind at 1.
  rewrite emergencyRequest_findUnique_ok, Hr by done.
  unfold bind at 1, get_db.
  rewrite bool_decide_eq_false_2
    by (rewrite existingResponse_links; by intros []).
  fold (normalized (er_status r)).
  replace (negb (bool_decide (normalized (er_status r) = EmergencyStatus.PENDING))
           && negb (bool_decide (normalized (er_status r) = EmergencyStatus.ASSIGNED)))
    with false by (destruct Hst as [-> | ->]; reflexivity).
  unfold bind at 1. rewrite normalise_step by done.
  unfold bind at 1. rewrite organization_findUnique_ok by done.
  rewrite (proj1 (normalized_world_rest _ _ _)).
  destruct Hh as [-> | (o & -> & Hty)]; [done|].
  by rewrite bool_decide_eq_false_2.
Qed.

End AssignToHospitalRefusals.

(** X5. What the hospital assignment refuses besides a hospital without beds: a
    request that does not exist (not found); a request that is neither
    PENDING nor ASSIGNED, IN_PROGRESS included (validation error quoting the
    current status); an organization that does not exist or is not a
    hospital (reported as not found).  In each case the store is left as it
    was, even when the status had been normalised from "Active" on the
    way. *)
Theorem assignToHospital_refusals env emergencyId hospitalId userId w :
  no_prisma_faults env ->
  (requests (db w) !! emergencyId = None ->
   exists w',
     assignToHospital env emergencyId hospitalId userId w =
       (Thrown (NotFoundException "Emergency request not found"), w') /\
     db w' = db w) /\
  (forall r,
     requests (db w) !! emergencyId = Some r ->
     links_of (db w) emergencyId hospitalId = [] ->
     er_status r ∉ [EmergencyStatus.PENDING; EmergencyStatus.ASSIGNED;
                    "Active"; "ACTIVE"] ->
     exists w',
       assignToHospital env emergencyId hospitalId userId w =
         (Thrown (BadRequestException
                    ("Only PENDING or ASSIGNED cases can be assigned. Current status: "
                     +:+ er_status r)), w') /\
       db w' = db w) /\
  (forall r,
     requests (db w) !! emergencyId = Some r ->
     links_of (db w) emergencyId hospitalId = [] ->
     er_status r ∈ [EmergencyStatus.PENDING; EmergencyStatus.ASSIGNED;
                    "Active"; "ACTIVE"] ->
     (organizations (db w) !! hospitalId = None \/
      exists o, organizations (db w) !! hospitalId = Some o /\
                org_type o <> "HOSPITAL") ->
     exists w',
       assignToHospital env emergencyId hospitalId userId w =
         (Thrown (NotFoundException "Hospital not found"), w') /\
       db w' = db w).
Proof.
  intros Hp. repeat split.
  - intros Hr. eexists. split.
    + eapply assignToHospital_thrown_in_tx.
      by apply assignToHospital_tx_request_missing.
    + reflexivity.
  - intros r Hr Hl Hst. rewrite normalized_open in Hst. eexists. split.
    + eapply assignToHospital_thrown_in_tx.
      apply assignToHospital_tx_wrong_status; try done; tauto.
    + reflexivity.
  - intros r Hr Hl Hst Hh. apply normalized_open in Hst. eexists. split.
    + eapply assignToHospital_thrown_in_tx.
      by apply assignToHospital_tx_hospital_missing.
    + reflexivity.
Qed.

Lemma assignToHospital_refusals_witness :
  (exists w',
     assignToHospital Sample.env_ok "case-9" "hospital-1" "admin-1"
       (Sample.world "PENDING" (Some 3%Z) []) =
       (Thrown (NotFoundException "Emergency request not found"), w') /\
     db w' = db (Sample.world "PENDING" (Some 3%Z) [])) /\
  (exists w',
     assignToHospital Sample.env_ok "case-1" "hospital-1" "admin-1"
       (Sample.world "IN_PROGRESS" (Some 3%Z) []) =
       (Thrown (BadRequestException
                  "Only PENDING or ASSIGNED cases can be assigned. Current status: IN_PROGRESS"),
        w') /\
     db w' = db (Sample.world "IN_PROGRESS" (Some 3%Z) [])) /\
  (exists w',
     assignToHospital Sample.env_ok "case-1" "rescue-1" "admin-1"
       (Sample2.world "Active" (Some 3%Z) []) =
       (Thrown (NotFoundException "Hospital not found"), w') /\
     db w' = db (Sample2.world "Active" (Some 3%Z) [])).
Proof.
  split; [|split].
  - destruct (assignToHospital_refusals Sample.env_ok "case-9" "hospital-1" "admin-1"
                (Sample.world "PENDING" (Some 3%Z) [])) as (H & _ & _);
      [intros c; reflexivity|].
    apply H. reflexivity.
  - destruct (assignToHospital_refusals Sample.env_ok "case-1" "hospital-1" "admin-1"
                (Sample.world "IN_PROGRESS" (Some 3%Z) [])) as (_ & H & _);
      [intros c; reflexivity|].
    apply (H (Sample.request "IN_PROGRESS")); [reflexivity | reflexivity |].
    simpl. rewrite !elem_of_cons, elem_of_nil.
    intros [H1|[H1|[H1|[H1|[]]]]]; discriminate H1.
  - destruct (assignToHospital_refusals Sample.env_ok "case-1" "rescue-1" "admin-1"
                (Sample2.world "Active" (Some 3%Z) [])) as (_ & _ & H);
      [intros c; reflexivity|].
    apply (H (Sample.request "Active")); [reflexivity | reflexivity | |].
    + simpl. rewrite !elem_of_cons. auto.
    + right. exists Sample2.rescue_team. split; [reflexivity|discriminate].
Defined.

(** ** Beds *)

Section Beds.

Variable env : Env.
Variables emergencyId hospitalId userId : string.

(** The transaction returns only past the bed check. *)
Lemma assignToHospital_tx_returned_bed w a w1 :
  assignToHospital_tx env emergencyId hospitalId userId w = (Returned a, w1) ->
  exists h,
    organizations (db w) !! hospitalId = Some h /\ no_available_beds h = false.
Proof.
  unfold assignToHospital_tx. intros H.
  apply bind_returned in H as (found & w0 & Hfind & H).
  apply emergencyRequest_findUnique_returned in Hfind as [-> ->].
  destruct (requests (db w) !! emergencyId) as [r|] eqn:Hr; [|done].
  apply bind_returned in H as (s & w0 & [= <- <-] & H).
  case_bool_decide; [done|].
  fold (normalized (er_status r)) in H.
  destruct (negb _ && negb _); [done|].
  apply bind_returned in H as ([] & w0 & Hnorm & H).
  assert (organizations (db w0) = organizations (db w)) as Horgs.
  { revert Hnorm. case_bool_decide; simpl.
    - by intros [= <-].
    - intros Hnorm. apply bind_returned in Hnorm as (u & w2 & Hup & [= <-]).
      by apply emergencyRequest_update_returned in Hup as (r' & Hr' & _ & ->). }
  apply bind_returned in H as (hospital_found & w3 & Hhosp & H).
  apply organization_findUnique_returned in Hhosp as [-> ->].
  rewrite Horgs in H.
  destruct (organizations (db w) !! hospitalId) as [h|] eqn:Hh; [|done].
  destruct (negb (bool_decide (org_type h = "HOSPITAL"))); [done|].
  destruct (no_available_beds h) eqn:Hbeds; [done|].
  by exists h.
Qed.

End Beds.

(** X6. A hospital assignment that runs on its own, no other call being
    interleaved with it, does not drive a bed count below zero, whatever the
    store, the notification service and the gateway do: the bed is taken only
    past the check that one is left.  Calls are not interleaved here, so this
    says nothing of two assignments racing for the last bed, which the check
    on a row read earlier and the relative decrement do not exclude. *)
Theorem assignToHospital_keeps_beds_nonnegative
    env emergencyId hospitalId userId w :
  beds_nonnegative (db w) ->
  beds_nonnegative (db (assignToHospital env emergencyId hospitalId userId w).2).
Proof.
  intros Hbeds.
  destruct (assignToHospital_all_or_nothing env emergencyId hospitalId userId w)
    as [-> | (r & h & Hr & Hh & Hdb)]; [done|].
  rewrite Hdb. intros id o b. simpl. rewrite lookup_insert. case_decide as Hid.
  - intros [= <-]. simpl.
    assert (exists h', organizations (db w) !! hospitalId = Some h' /\
                       no_available_beds h' = false) as (h' & Hh' & Hleft).
    { revert Hdb. unfold assignToHospital, bind, transaction.
      destruct (assignToHospital_tx env emergencyId hospitalId userId w)
        as [[a|e] w1] eqn:Htx.
      - intros _. by eapply assignToHospital_tx_returned_bed.
      - simpl. intros Hdb. apply (f_equal responses) in Hdb. simpl in Hdb.
        apply (f_equal length) in Hdb. rewrite length_app in Hdb. simpl in Hdb. lia. }
    rewrite Hh in Hh'. injection Hh' as <-.
    unfold no_available_beds in Hleft.
    destruct (org_availableBeds h) as [b0|]; [|done].
    intros [= <-]. apply Z.leb_gt in Hleft. lia.
  - apply Hbeds.
Qed.

Lemma assignToHospital_keeps_beds_nonnegative_witness :
  beds_nonnegative
    (db (assignToHospital Sample.env_ok "case-1" "hospital-1" "admin-1"
           (Sample.world "PENDING" (Some 1%Z) [])).2) /\
  org_availableBeds <$>
    organizations
      (db (assignToHospital Sample.env_ok "case-1" "hospital-1" "admin-1"
             (Sample.world "PENDING" (Some 1%Z) [])).2) !! "hospital-1" =
    Some (Some 0%Z).
Proof.
  split; [|vm_compute; reflexivity].
  apply (assignToHospital_keeps_beds_nonnegative Sample.env_ok
           "case-1" "hospital-1" "admin-1" (Sample.world "PENDING" (Some 1%Z) [])).
  intros id o b. simpl. rewrite lookup_singleton_Some. intros [_ <-] [= <-]. lia.
Defined.

(** X7. The hospital assignment is all or nothing on the rows.  Whatever the
    store, the notification service and the gateway do, and whether the call
    returns or throws, the store afterwards is the store of before, or the
    one in which the request is ASSIGNED, the response row is added and the
    bed is taken from a hospital that had one. *)
Theorem assignToHospital_commits_all_or_nothing
    env emergencyId hospitalId userId w :
  let w' := (assignToHospital env emergencyId hospitalId userId w).2 in
  db w' = db w \/
  exists r h b,
    requests (db w) !! emergencyId = Some r /\
    organizations (db w) !! hospitalId = Some h /\
    org_availableBeds h = Some b /\ (0 < b)%Z /\
    db w' = assigned_store env emergencyId hospitalId userId r h (db w).
Proof.
  cbv zeta. unfold assignToHospital, bind, transaction.
  destruct (assignToHospital_tx env emergencyId hospitalId userId w)
    as [[a|e] w1] eqn:Htx; [|by left].
  right.
  destruct (assignToHospital_tx_returned_bed _ _ _ _ _ _ _ Htx) as (h' & Hh' & Hleft).
  apply assignToHospital_tx_returned in Htx as (r & h & Hr & Hh & Hdb).
  rewrite Hh in Hh'. injection Hh' as <-.
  unfold no_available_beds in Hleft.
  destruct (org_availableBeds h) as [b|] eqn:Hb; [|done].
  apply Z.leb_gt in Hleft.
  exists r, h, b. repeat split; try done. rewrite <- Hdb.
  pose proof (broadcast_rows env (StatusUpdate (er_id a) (er_status a)) w1) as Hcast.
  by destruct (broadcast env _ w1) as [[[]|e] w2].
Qed.

(** ** More on the dashboard assignment *)

(** X8. [assignCase] takes no bed: whatever happens, the organizations and the
    users are as before, and so is every request other than the case. *)
Theorem assignCase_takes_no_bed env dto w :
  let w' := (assignCase env dto w).2 in
  organizations (db w') = organizations (db w) /\
  users (db w') = users (db w) /\
  forall id, id <> acd_caseId dto -> requests (db w') !! id = requests (db w) !! id.
Proof.
  cbv zeta.
  set (I := fun s : Store =>
    organizations s = organizations (db w) /\
    users s = users (db w) /\
    forall id, id <> acd_caseId dto -> requests s !! id = requests (db w) !! id).
  assert (preserves I (assignCase env dto)) as Hkeeps.
  { unfold assignCase. repeat frame_step.
    - by apply frame_response_create.
    - apply frame_request_update. intros s r (Ho & Hu & Hreq).
      repeat split; try done. intros id Hid. simpl.
      rewrite lookup_insert_ne by done. by apply Hreq. }
  by apply Hkeeps.
Qed.

(** X9. A case that is IN_PROGRESS can be assigned from the dashboard, and the
    assignment sets it back to ASSIGNED. *)
Theorem assignCase_sets_IN_PROGRESS_back_to_ASSIGNED env dto w r o :
  no_prisma_faults env ->
  find_response (uuid env) (responses (db w)) = None ->
  requests (db w) !! acd_caseId dto = Some r ->
  er_status r = EmergencyStatus.IN_PROGRESS ->
  organizations (db w) !! acd_assignedToId dto = Some o ->
  org_type o ∈ ["RESCUE_TEAM"; "HOSPITAL"] ->
  exists updated w',
    assignCase env dto w = (Returned updated, w') /\
    er_status updated = EmergencyStatus.ASSIGNED /\
    requests (db w') !! acd_caseId dto = Some updated /\
    responses (db w') = (responses (db w) ++ [dashboard_response env dto])%list.
Proof.
  intros Hp Hfresh Hr Hst Ho Hty. eexists _, _. split.
  - apply (assignCase_assigns env dto w r o); try done. split; [|done].
    rewrite Hst, !elem_of_cons. auto.
  - simpl. split; [done|]. split; [by rewrite lookup_insert_eq|done].
Qed.

Lemma assignCase_sets_IN_PROGRESS_back_to_ASSIGNED_witness :
  exists updated w',
    assignCase Sample.env_ok {| acd_caseId := "case-1"; acd_assignedToId := "rescue-1" |}
      (Sample2.world "IN_PROGRESS" (Some 2%Z) [Sample.response "IN_PROGRESS"]) =
      (Returned updated, w') /\
    er_status updated = EmergencyStatus.ASSIGNED /\
    requests (db w') !! "case-1" = Some updated /\
    responses (db w') =
      [Sample.response "IN_PROGRESS";
       dashboard_response Sample.env_ok
         {| acd_caseId := "case-1"; acd_assignedToId := "rescue-1" |}].
Proof.
  apply (assignCase_sets_IN_PROGRESS_back_to_ASSIGNED Sample.env_ok
           {| acd_caseId := "case-1"; acd_assignedToId := "rescue-1" |}
           (Sample2.world "IN_PROGRESS" (Some 2%Z) [Sample.response "IN_PROGRESS"])
           (Sample.request "IN_PROGRESS") Sample2.rescue_team);
    [intros c; reflexivity | reflexivity | reflexivity | reflexivity | reflexivity |].
  simpl. rewrite !elem_of_cons. auto.
Defined.

Section AssignCaseRefusals.

Variable env : Env.
Variable dto : AssignCaseDto.

Lemma assignCase_case_missing w :
  prisma_fails env EmergencyRequest_findUnique = false ->
  requests (db w) !! acd_caseId dto = None ->
  assignCase env dto w = (Thrown (NotFoundException "Emergency case not found"), w).
Proof.
  intros Hf Hr. unfold assignCase, try_catch, bind.
  by rewrite emergencyRequest_findUnique_ok, Hr.
Qed.

Lemma assignCase_case_closed w r :
  prisma_fails env EmergencyRequest_findUnique = false ->
  requests (db w) !! acd_caseId dto = Some r ->
  er_status r ∉ [EmergencyStatus.PENDING; EmergencyStatus.ASSIGNED;
                 EmergencyStatus.IN_PROGRESS] ->
  assignCase env dto w =
    (Thrown (BadRequestException
               ("Emergency case can only be assigned if it is in PENDING, ASSIGNED, or IN_PROGRESS status. Current status: "
                +:+ er_status r)), w).
Proof.
  intros Hf Hr Hst. unfold assignCase, try_catch, bind.
  rewrite emergencyRequest_findUnique_ok, Hr by done.
  replace (includes _ (er_status r)) with false; [done|].
  symmetry. apply not_true_is_false. by rewrite includes_elem_of.
Qed.

Lemma assignCase_organization_refused w r :
  prisma_fails env EmergencyRequest_findUnique = false ->
  prisma_fails env Organization_findUnique = false ->
  requests (db w) !! acd_caseId dto = Some r ->
  er_status r ∈ [EmergencyStatus.PENDING; EmergencyStatus.ASSIGNED;
                 EmergencyStatus.IN_PROGRESS] ->
  (organizations (db w) !! acd_assignedToId dto = None ->
   assignCase env dto w = (Thrown (NotFoundException "Organization not found"), w)) /\
  (forall o,
     organizations (db w) !! acd_assignedToId dto = Some o ->
     org_type o ∉ ["RESCUE_TEAM"; "HOSPITAL"] ->
     assignCase env dto w =
       (Thrown (BadRequestException
                  "Only RESCUE_TEAM or HOSPITAL can be assigned to a case"), w)).
Proof.
  intros Hf Hof Hr Hst. apply includes_elem_of in Hst. split.
  - intros Ho. unfold assignCase, try_catch, bind at 1.
    rewrite emergencyRequest_findUnique_ok, Hr by done. rewrite Hst. cbn [negb].
    unfold bind. by rewrite organization_findUnique_ok, Ho.
  - intros o Ho Hty. unfold assignCase, try_catch, bind at 1.
    rewrite emergencyRequest_findUnique_ok, Hr by done. rewrite Hst. cbn [negb].
    unfold bind. rewrite organization_findUnique_ok, Ho by done.
    replace (includes _ (org_type o)) with false; [done|].
    symmetry. apply not_true_is_false. by rewrite includes_elem_of.
Qed.

End AssignCaseRefusals.

(** X10. What the dashboard assignment refuses, each time leaving the world as it
    was: a case that does not exist (not found); a case that is COMPLETED,
    CANCELLED or in any other status than the three open ones (validation
    error quoting the status); an organization that does not exist (not
    found) or that is neither a rescue team nor a hospital (validation
    error). *)
Theorem assignCase_refusals env dto w :
  no_prisma_faults env ->
  (requests (db w) !! acd_caseId dto = None ->
   assignCase env dto w = (Thrown (NotFoundException "Emergency case not found"), w)) /\
  (forall r,
     requests (db w) !! acd_caseId dto = Some r ->
     er_status r ∉ [EmergencyStatus.PENDING; EmergencyStatus.ASSIGNED;
                    EmergencyStatus.IN_PROGRESS] ->
     exists message,
       assignCase env dto w = (Thrown (BadRequestException message), w) /\
       message =
         "Emergency case can only be assigned if it is in PENDING, ASSIGNED, or IN_PROGRESS status. Current status: "
         +:+ er_status r) /\
  (forall r,
     requests (db w) !! acd_caseId dto = Some r ->
     er_status r ∈ [EmergencyStatus.PENDING; EmergencyStatus.ASSIGNED;
                    EmergencyStatus.IN_PROGRESS] ->
     (organizations (db w) !! acd_assignedToId dto = None ->
      assignCase env dto w = (Thrown (NotFoundException "Organization not found"), w)) /\
     (forall o,
        organizations (db w) !! acd_assignedToId dto = Some o ->
        org_type o ∉ ["RESCUE_TEAM"; "HOSPITAL"] ->
        assignCase env dto w =
          (Thrown (BadRequestException
                     "Only RESCUE_TEAM or HOSPITAL can be assigned to a case"), w))).
Proof.
  intros Hp. split; [|split].
  - by apply assignCase_case_missing.
  - intros r Hr Hst. eexists. split; [by apply (assignCase_case_closed env dto w r)|done].
  - intros r Hr Hst. by apply (assignCase_organization_refused env dto w r).
Qed.

Lemma assignCase_refusals_witness :
  assignCase Sample.env_ok {| acd_caseId := "case-9"; acd_assignedToId := "hospital-1" |}
    (Sample.world "PENDING" (Some 3%Z) []) =
    (Thrown (NotFoundException "Emergency case not found"),
     Sample.world "PENDING" (Some 3%Z) []) /\
  assignCase Sample.env_ok {| acd_caseId := "case-1"; acd_assignedToId := "nobody" |}
    (Sample.world "PENDING" (Some 3%Z) []) =
    (Thrown (NotFoundException "Organization not found"),
     Sample.world "PENDING" (Some 3%Z) []).
Proof.
  split.
  - destruct (assignCase_refusals Sample.env_ok
                {| acd_caseId := "case-9"; acd_assignedToId := "hospital-1" |}
                (Sample.world "PENDING" (Some 3%Z) [])) as (H & _ & _);
      [intros c; reflexivity|].
    apply H. reflexivity.
  - destruct (assignCase_refusals Sample.env_ok
                {| acd_caseId := "case-1"; acd_assignedToId := "nobody" |}
                (Sample.world "PENDING" (Some 3%Z) [])) as (_ & _ & H);
      [intros c; reflexivity|].
    destruct (H (Sample.request "PENDING")) as [Hmissing _]; [reflexivity| |].
    + simpl. rewrite !elem_of_cons. auto.
    + apply Hmissing. reflexivity.
Defined.

(** ** Accepting an emergency and starting on it *)

Section Accept.

Variable env : Env.

Lemma acceptEmergency_accepts hospitalId acceptEmergencyDto w r h :
  no_prisma_faults env ->
  notifications_delivered env ->
  find_response (uuid env) (responses (db w)) = None ->
  organizations (db w) !! hospitalId = Some h ->
  org_type h = "HOSPITAL" ->
  requests (db w) !! aed_emergencyId acceptEmergencyDto = Some r ->
  er_id r = aed_emergencyId acceptEmergencyDto ->
  er_status r = EmergencyStatus.PENDING ->
  exists out,
    acceptEmergency env hospitalId acceptEmergencyDto w =
      (Returned (accepted_response env hospitalId acceptEmergencyDto r),
       {| db := set_requests
                  (<[er_id r := with_status EmergencyStatus.ASSIGNED r]> (requests (db w)))
                  (set_responses
                     (responses (db w)
                      ++ [accepted_response env hospitalId acceptEmergencyDto r]) (db w));
          outbox := out |}).
Proof.
  intros Hp Hn Hfresh Hh Hty Hr Hid Hst.
  unfold acceptEmergency, bind at 1, findOne, bind at 1,
    organization_findFirst_hospital.
  rewrite prisma_ok by done. unfold bind at 1, get_db, ret.
  rewrite Hh, bool_decide_eq_true_2 by done.
  unfold bind at 1. rewrite emergencyRequest_findUnique_ok, Hr by done.
  rewrite bool_decide_eq_true_2 by done. cbn [negb].
  unfold bind at 1. fold (accepted_response env hospitalId acceptEmergencyDto r).
  rewrite emergencyResponse_create_ok; simpl;
    [| done | done | by rewrite Hid, Hr | by rewrite Hh].
  unfold bind at 1.
  rewrite (emergencyRequest_update_ok _ _ _ _ r) by (done || (simpl; by rewrite Hid)).
  unfold bind, createNotification, emit. rewrite Hn. simpl. by eexists.
Qed.

Lemma find_response_app_fresh id l row :
  find_response id l = None -> resp_id row = id ->
  find_response id (l ++ [row]) = Some row.
Proof.
  intros Hl Hid. unfold find_response in *. induction l as [|x l IH]; simpl in *.
  - by rewrite bool_decide_eq_true_2.
  - destruct (bool_decide (resp_id x = id)); [done|by apply IH].
Qed.

Lemma find_response_with_status id st l r :
  find_response id l = Some r ->
  find_response id (responses_with_status id st l) = Some (with_response_status st r).
Proof.
  unfold find_response, responses_with_status. induction l as [|x l IH]; simpl; [done|].
  destruct (bool_decide_reflect (resp_id x = id)) as [Hx|Hx]; simpl.
  - intros [= <-]. by rewrite bool_decide_eq_true_2.
  - intros Hl. rewrite bool_decide_eq_false_2 by done. by apply IH.
Qed.

Lemma updateEmergencyResponseStatus_starts responseId w x r :
  no_prisma_faults env ->
  find_response responseId (responses (db w)) = Some x ->
  resp_status x = "ACCEPTED" ->
  requests (db w) !! resp_emergencyRequestId x = Some r ->
  updateEmergencyResponseStatus env responseId w =
    (Returned (with_response_status "IN_PROGRESS" x),
     {| db := set_requests
                (<[resp_emergencyRequestId x :=
                     with_status EmergencyStatus.IN_PROGRESS r]> (requests (db w)))
                (set_responses
                   (responses_with_status responseId "IN_PROGRESS" (responses (db w)))
                   (db w));
        outbox := outbox w |}).
Proof.
  intros Hp Hx Hst Hr. unfold updateEmergencyResponseStatus, bind at 1,
    emergencyResponse_findUnique.
  rewrite prisma_ok by done. unfold bind at 1, get_db, ret. rewrite Hx.
  rewrite bool_decide_eq_true_2 by done. cbn [negb].
  unfold try_catch, bind at 1, emergencyResponse_update.
  rewrite prisma_ok by done. unfold bind at 1, get_db. rewrite Hx.
  unfold bind at 1, put_db, ret. unfold bind.
  by rewrite (emergencyRequest_update_ok _ _ _ _ r).
Qed.

Lemma updateEmergencyResponseStatus_refuses responseId w x :
  prisma_fails env EmergencyResponse_findUnique = false ->
  find_response responseId (responses (db w)) = Some x ->
  resp_status x <> "ACCEPTED" ->
  updateEmergencyResponseStatus env responseId w =
    (Thrown (BadRequestException
               "Emergency response must be in ACCEPTED state to update to IN_PROGRESS"),
     w).
Proof.
  intros Hp Hx Hst. unfold updateEmergencyResponseStatus, bind at 1,
    emergencyResponse_findUnique.
  rewrite prisma_ok by done. unfold bind at 1, get_db, ret. rewrite Hx.
  by rewrite bool_decide_eq_false_2.
Qed.

End Accept.

(** X11. A hospital accepting a PENDING request gets an ACCEPTED response row and
    the request becomes ASSIGNED, but no bed is taken; and as long as the
    response is only ACCEPTED, the case is not in the hospital's list of
    active emergencies. *)
Theorem acceptEmergency_takes_no_bed_and_is_not_listed
    env env' hospitalId acceptEmergencyDto w r h :
  no_prisma_faults env ->
  notifications_delivered env ->
  no_prisma_faults env' ->
  find_response (uuid env) (responses (db w)) = None ->
  organizations (db w) !! hospitalId = Some h ->
  org_type h = "HOSPITAL" ->
  requests (db w) !! aed_emergencyId acceptEmergencyDto = Some r ->
  er_id r = aed_emergencyId acceptEmergencyDto ->
  er_status r = EmergencyStatus.PENDING ->
  links_of (db w) (aed_emergencyId acceptEmergencyDto) hospitalId = [] ->
  exists row w' views,
    acceptEmergency env hospitalId acceptEmergencyDto w = (Returned row, w') /\
    resp_status row = "ACCEPTED" /\
    links (aed_emergencyId acceptEmergencyDto) hospitalId row /\
    responses (db w') = (responses (db w) ++ [row])%list /\
    er_status <$> requests (db w') !! aed_emergencyId acceptEmergencyDto =
      Some EmergencyStatus.ASSIGNED /\
    organizations (db w') = organizations (db w) /\
    findActiveEmergenciesByHospital env' hospitalId w' = (Returned views, w') /\
    ~ lists views (with_status EmergencyStatus.ASSIGNED r).
Proof.
  intros Hp Hn Hp' Hfresh Hh Hty Hr Hid Hst Hl.
  destruct (acceptEmergency_accepts env hospitalId acceptEmergencyDto w r h)
    as [out Hrun]; try done.
  set (w' := {| db := _; outbox := out |}) in Hrun.
  destruct (findActiveEmergenciesByHospital_returns env' hospitalId w')
    as (views & Hviews & Hlists); [done|].
  exists (accepted_response env hospitalId acceptEmergencyDto r), w', views.
  split; [exact Hrun|]. split; [done|]. split; [by split|]. split; [done|].
  split; [simpl; by rewrite Hid, lookup_insert_eq|]. split; [done|].
  split; [exact Hviews|].
  rewrite Hlists. intros (_ & x & Hx & Hxid & Hxorg & Hxst). simpl in Hx, Hxid.
  apply elem_of_app in Hx as [Hx|Hx].
  - assert (x ∈ links_of (db w) (aed_emergencyId acceptEmergencyDto) hospitalId) as Hin.
    { unfold links_of. apply list_elem_of_filter. split; [|done]. split; [|done].
      by rewrite Hxid. }
    rewrite Hl in Hin. by apply elem_of_nil in Hin.
  - apply list_elem_of_singleton in Hx. subst x. simpl in Hxst.
    by destruct Hxst.
Qed.

Lemma acceptEmergency_takes_no_bed_and_is_not_listed_witness :
  exists row w' views,
    acceptEmergency Sample.env_ok "hospital-1"
      {| aed_emergencyId := "case-1"; aed_notes := Some "on our way" |}
      (Sample.world "PENDING" (Some 3%Z) []) = (Returned row, w') /\
    resp_status row = "ACCEPTED" /\
    links "case-1" "hospital-1" row /\
    responses (db w') = [row] /\
    er_status <$> requests (db w') !! "case-1" = Some EmergencyStatus.ASSIGNED /\
    organizations (db w') = organizations (db (Sample.world "PENDING" (Some 3%Z) [])) /\
    findActiveEmergenciesByHospital Sample.env_ok "hospital-1" w' = (Returned views, w') /\
    ~ lists views (with_status EmergencyStatus.ASSIGNED (Sample.request "PENDING")).
Proof.
  apply (acceptEmergency_takes_no_bed_and_is_not_listed Sample.env_ok Sample.env_ok
           "hospital-1" {| aed_emergencyId := "case-1"; aed_notes := Some "on our way" |}
           (Sample.world "PENDING" (Some 3%Z) []) (Sample.request "PENDING")
           (Sample.hospital (Some 3%Z)));
    try reflexivity; intros c; reflexivity.
Defined.

(** X12. Starting on an ACCEPTED response puts the response and its request
    IN_PROGRESS; the same call made again is refused with a validation error
    and changes nothing, the response being no longer ACCEPTED. *)
Theorem updateEmergencyResponseStatus_starts_once env responseId w x r :
  no_prisma_faults env ->
  find_response responseId (responses (db w)) = Some x ->
  resp_status x = "ACCEPTED" ->
  requests (db w) !! resp_emergencyRequestId x = Some r ->
  exists started w',
    updateEmergencyResponseStatus env responseId w = (Returned started, w') /\
    resp_status started = "IN_PROGRESS" /\
    find_response responseId (responses (db w')) = Some started /\
    er_status <$> requests (db w') !! resp_emergencyRequestId x =
      Some EmergencyStatus.IN_PROGRESS /\
    exists e,
      updateEmergencyResponseStatus env responseId w' = (Thrown e, w') /\
      is_validation e = true.
Proof.
  intros Hp Hx Hst Hr. eexists _, _.
  split; [by apply (updateEmergencyResponseStatus_starts env responseId w x r)|].
  split; [done|]. simpl.
  split; [by apply find_response_with_status|].
  split; [by rewrite lookup_insert_eq|].
  eexists. split.
  - eapply updateEmergencyResponseStatus_refuses; [done| |].
    + simpl. by apply find_response_with_status.
    + done.
  - reflexivity.
Qed.

Lemma updateEmergencyResponseStatus_starts_once_witness :
  exists started w',
    updateEmergencyResponseStatus Sample.env_ok "resp-1"
      (Sample.world "ASSIGNED" (Some 3%Z) [Sample.response "ACCEPTED"]) =
      (Returned started, w') /\
    resp_status started = "IN_PROGRESS" /\
    find_response "resp-1" (responses (db w')) = Some started /\
    er_status <$> requests (db w') !! "case-1" = Some EmergencyStatus.IN_PROGRESS /\
    exists e,
      updateEmergencyResponseStatus Sample.env_ok "resp-1" w' = (Thrown e, w') /\
      is_validation e = true.
Proof.
  apply (updateEmergencyResponseStatus_starts_once Sample.env_ok "resp-1"
           (Sample.world "ASSIGNED" (Some 3%Z) [Sample.response "ACCEPTED"])
           (Sample.response "ACCEPTED") (Sample.request "ASSIGNED"));
    try reflexivity; intros c; reflexivity.
Defined.

(** X13. A response created by the hospital assignment is ASSIGNED, not ACCEPTED:
    it cannot be started through [updateEmergencyResponseStatus], which
    refuses it with a validation error and changes nothing. *)
Theorem assigned_response_cannot_be_started
    env env' emergencyId hospitalId userId w r h b :
  no_prisma_faults env ->
  notifications_delivered env ->
  gateway_up env ->
  prisma_fails env' EmergencyResponse_findUnique = false ->
  find_response (uuid env) (responses (db w)) = None ->
  requests (db w) !! emergencyId = Some r ->
  er_status r = EmergencyStatus.PENDING ->
  links_of (db w) emergencyId hospitalId = [] ->
  organizations (db w) !! hospitalId = Some h ->
  org_type h = "HOSPITAL" ->
  org_availableBeds h = Some b ->
  (0 < b)%Z ->
  let w1 := (assignToHospital env emergencyId hospitalId userId w).2 in
  find_response (uuid env) (responses (db w1)) =
    Some (assigned_response env emergencyId hospitalId) /\
  exists e,
    updateEmergencyResponseStatus env' (uuid env) w1 = (Thrown e, w1) /\
    is_validation e = true.
Proof.
  intros Hp Hn Hg Hp' Hfresh Hr Hst Hl Hh Hty Hbeds Hpos.
  destruct (assignToHospital_assigns env emergencyId hospitalId userId w r h)
    as [out Hrun]; try done.
  { left. by rewrite Hst. }
  { unfold no_available_beds. rewrite Hbeds. apply Z.leb_gt. lia. }
  cbv zeta. rewrite Hrun. cbn [snd].
  assert (find_response (uuid env)
            (responses (assigned_store env emergencyId hospitalId userId r h (db w))) =
          Some (assigned_response env emergencyId hospitalId)) as Hfound
    by (simpl; by apply find_response_app_fresh).
  split; [exact Hfound|]. eexists. split.
  - by eapply updateEmergencyResponseStatus_refuses.
  - reflexivity.
Qed.

Lemma assigned_response_cannot_be_started_witness :
  let w1 := (assignToHospital Sample.env_ok "case-1" "hospital-1" "admin-1"
               (Sample.world "PENDING" (Some 3%Z) [])).2 in
  find_response "resp-2" (responses (db w1)) =
    Some (assigned_response Sample.env_ok "case-1" "hospital-1") /\
  exists e,
    updateEmergencyResponseStatus Sample.env_ok "resp-2" w1 = (Thrown e, w1) /\
    is_validation e = true.
Proof.
  apply (assigned_response_cannot_be_started Sample.env_ok Sample.env_ok
           "case-1" "hospital-1" "admin-1" (Sample.world "PENDING" (Some 3%Z) [])
           (Sample.request "PENDING") (Sample.hospital (Some 3%Z)) 3%Z);
    try reflexivity; intros c; reflexivity.
Defined.

(** ** The manual status update of a request *)

Section UpdateStatus.

Variable env : Env.

(** A loop whose body always returns and leaves the rows alone does so
    too. *)
Lemma for_of_returns {A} (xs : list A) (body : A -> Async unit) :
  (forall x w, exists out, body x w = (Returned tt, {| db := db w; outbox := out |})) ->
  forall w, exists out, for_of xs body w = (Returned tt, {| db := db w; outbox := out |}).
Proof.
  intros Hbody. induction xs as [|x xs IH]; intros w; simpl.
  - exists (outbox w). by destruct w.
  - unfold bind. destruct (Hbody x w) as [out1 ->].
    destruct (IH {| db := db w; outbox := out1 |}) as [out2 ->]. by exists out2.
Qed.

Lemma updateStatus_tx_updates id updateStatusDto w r :
  no_prisma_faults env ->
  notifications_delivered env ->
  requests (db w) !! id = Some r ->
  exists out,
    updateStatus_tx env id updateStatusDto w =
      (Returned (with_status (usd_status updateStatusDto) r),
       {| db := status_store id (usd_status updateStatusDto) r (db w);
          outbox := out |}).
Proof.
  intros Hp Hn Hr. unfold updateStatus_tx, bind at 1.
  rewrite emergencyRequest_findUnique_ok, Hr by done.
  unfold bind at 1, get_db. unfold bind at 1.
  rewrite (emergencyRequest_update_ok _ _ _ _ r) by done.
  unfold bind at 1, createNotification at 1. rewrite Hn. unfold emit.
  unfold bind at 1.
  match goal with
  | |- context [for_of ?xs ?body ?w0] =>
      destruct (for_of_returns xs body) with (w := w0) as [out Hloop]
  end.
  { intros response w0. apply for_of_createNotification_ok. exact Hn. }
  rewrite Hloop. by eexists.
Qed.

(** When the transaction of [updateStatus] returns, the one write has been
    made. *)
Lemma updateStatus_tx_returned id updateStatusDto w a w1 :
  updateStatus_tx env id updateStatusDto w = (Returned a, w1) ->
  exists r,
    requests (db w) !! id = Some r /\
    db w1 = status_store id (usd_status updateStatusDto) r (db w).
Proof.
  unfold updateStatus_tx. intros H.
  apply bind_returned in H as (found & w0 & Hfind & H).
  apply emergencyRequest_findUnique_returned in Hfind as [-> ->].
  destruct (requests (db w) !! id) as [r|] eqn:Hr; [|done].
  apply bind_returned in H as (s & w0 & [= <- <-] & H).
  apply bind_returned in H as (updated & w0 & Hup & H).
  apply emergencyRequest_update_returned in Hup as (r' & Hr' & -> & ->).
  rewrite Hr in Hr'. injection Hr' as <-.
  apply bind_returned in H as ([] & w2 & Hnote & H).
  apply bind_returned in H as ([] & w3 & Hloop & [= <- <-]).
  exists r. split; [done|].
  apply (f_equal (fun p => db p.2)) in Hnote, Hloop. simpl in Hnote, Hloop.
  rewrite createNotification_rows in Hnote.
  assert (db w3 = db w2) as ->.
  { rewrite <- Hloop.
    apply (preserves_for_of (fun s => s = db w2)); [|done].
    intros x. apply preserves_for_of. intros u. apply preserves_createNotification. }
  by rewrite <- Hnote.
Qed.

End UpdateStatus.

(** X14. [updateStatus] has no guard on the current status: for a request in any
    status, COMPLETED and CANCELLED included, it writes the status it is
    given and returns the request with it; responses and organizations are
    not touched. *)
Theorem updateStatus_overwrites_any_status env id updateStatusDto w r :
  no_prisma_faults env ->
  notifications_delivered env ->
  gateway_up env ->
  requests (db w) !! id = Some r ->
  exists updated w',
    updateStatus env id updateStatusDto w = (Returned updated, w') /\
    er_status updated = usd_status updateStatusDto /\
    requests (db w') !! id = Some updated /\
    responses (db w') = responses (db w) /\
    organizations (db w') = organizations (db w).
Proof.
  intros Hp Hn Hg Hr.
  destruct (updateStatus_tx_updates env id updateStatusDto w r) as [out Htx]; try done.
  eexists _, _. split.
  - unfold updateStatus, bind, transaction. rewrite Htx.
    unfold broadcast, emit, ret. rewrite Hg. reflexivity.
  - simpl. split; [done|]. split; [by rewrite lookup_insert_eq|done].
Qed.

Lemma updateStatus_overwrites_any_status_witness :
  exists updated w',
    updateStatus Sample.env_ok "case-1"
      {| usd_status := EmergencyStatus.PENDING; usd_notes := Some "reopened" |}
      (Sample.world "COMPLETED" (Some 3%Z) [Sample.response "COMPLETED"]) =
      (Returned updated, w') /\
    er_status updated = EmergencyStatus.PENDING /\
    requests (db w') !! "case-1" = Some updated /\
    responses (db w') = [Sample.response "COMPLETED"] /\
    organizations (db w') =
      organizations (db (Sample.world "COMPLETED" (Some 3%Z) [Sample.response "COMPLETED"])).
Proof.
  apply (updateStatus_overwrites_any_status Sample.env_ok "case-1"
           {| usd_status := EmergencyStatus.PENDING; usd_notes := Some "reopened" |}
           (Sample.world "COMPLETED" (Some 3%Z) [Sample.response "COMPLETED"])
           (Sample.request "COMPLETED"));
    try reflexivity; intros c; reflexivity.
Defined.

(** X15. [updateStatus] is all or nothing on the rows, whatever the store, the
    notification service and the gateway do: a notification that cannot be
    written takes the status change back.  Afterwards the store is the one of
    before, or the one in which the request carries the new status. *)
Theorem updateStatus_commits_all_or_nothing env id updateStatusDto w :
  let w' := (updateStatus env id updateStatusDto w).2 in
  db w' = db w \/
  exists r,
    requests (db w) !! id = Some r /\
    db w' = status_store id (usd_status updateStatusDto) r (db w).
Proof.
  cbv zeta. unfold updateStatus, bind, transaction.
  destruct (updateStatus_tx env id updateStatusDto w) as [[a|e] w1] eqn:Htx;
    [|by left].
  right. apply updateStatus_tx_returned in Htx as (r & Hr & Hdb).
  exists r. split; [done|]. rewrite <- Hdb.
  pose proof (broadcast_rows env (StatusUpdate (er_id a) (er_status a)) w1) as Hcast.
  by destruct (broadcast env _ w1) as [[[]|e] w2].
Qed.

(** ** More on creating a request *)

(** X16. [createEmergencyRequest] is not atomic: the row is written first, outside
    any transaction.  When the gateway then throws on the broadcast, the
    caller gets the error, yet the request is in the store, PENDING, and the
    responders have been notified. *)
Theorem createEmergencyRequest_fails_after_the_write env createSosDto userId w :
  no_prisma_faults env ->
  notifications_delivered env ->
  (forall ev, gateway_fails env ev = true) ->
  requests (db w) !! uuid env = None ->
  is_Some (users (db w) !! patientId_of createSosDto userId) ->
  exists ev w',
    createEmergencyRequest env createSosDto userId w = (Thrown (GatewayError ev), w') /\
    requests (db w') !! uuid env = Some (created_request env createSosDto userId) /\
    er_status (created_request env createSosDto userId) = EmergencyStatus.PENDING /\
    db w' <> db w.
Proof.
  intros Hp Hn Hg Hfresh [patient Hpatient].
  unfold createEmergencyRequest, bind at 1.
  fold (created_request env createSosDto userId).
  unfold emergencyRequest_create. rewrite prisma_ok by done.
  unfold bind at 1, get_db. simpl. rewrite Hfresh, Hpatient.
  unfold bind at 1, put_db, ret. unfold bind at 1.
  rewrite user_findMany_ok by done. unfold bind at 1.
  match goal with
  | |- context [for_of ?xs (fun u => createNotification env (@?mk u)) ?w0] =>
      destruct (for_of_createNotification_ok env xs mk w0 Hn) as [out Hloop]
  end.
  rewrite Hloop. unfold bind, broadcast, throw. rewrite Hg.
  eexists _, _. split; [reflexivity|]. simpl.
  split; [by rewrite lookup_insert_eq|]. split; [done|].
  intros Heq. apply (f_equal (fun s => requests s !! uuid env)) in Heq.
  simpl in Heq. by rewrite lookup_insert_eq, Hfresh in Heq.
Qed.

Lemma createEmergencyRequest_fails_after_the_write_witness :
  exists ev w',
    createEmergencyRequest
      {| prisma_fails := fun _ => false; notification_fails := fun _ => false;
         gateway_fails := fun _ => true; uuid := "case-2"; now := 1700000000000 |}
      (Sample.sos "URGENT") "patient-1" (Sample.world "PENDING" (Some 3%Z) []) =
      (Thrown (GatewayError ev), w') /\
    er_status <$> requests (db w') !! "case-2" = Some EmergencyStatus.PENDING.
Proof.
  destruct (createEmergencyRequest_fails_after_the_write
              {| prisma_fails := fun _ => false; notification_fails := fun _ => false;
                 gateway_fails := fun _ => true; uuid := "case-2";
                 now := 1700000000000 |}
              (Sample.sos "URGENT") "patient-1" (Sample.world "PENDING" (Some 3%Z) []))
    as (ev & w' & Hrun & Hrow & _);
    [intros c; reflexivity | intros n; reflexivity | intros ev; reflexivity
    | reflexivity | vm_compute; eauto |].
  exists ev, w'. split; [exact Hrun|]. simpl in Hrow. by rewrite Hrow.
Defined.

(** X17. A request filed on behalf of another patient belongs to that patient:
    it shows in the patient's list, PENDING, and the patient can read it by
    id, while the user who filed it gets "not found". *)
Theorem request_filed_for_another_patient env env' createSosDto userId patientId w :
  no_prisma_faults env ->
  notifications_delivered env ->
  gateway_up env ->
  no_prisma_faults env' ->
  requests (db w) !! uuid env = None ->
  dto_patientId createSosDto = Some patientId ->
  patientId <> "" ->
  patientId <> userId ->
  is_Some (users (db w) !! patientId) ->
  exists created w' views view,
    createEmergencyRequest env createSosDto userId w = (Returned created, w') /\
    er_status created = EmergencyStatus.PENDING /\
    er_patientId created = patientId /\
    getEmergencyRequests env' patientId w' = (Returned views, w') /\
    lists views created /\
    getEmergencyRequestById env' (er_id created) patientId w' = (Returned view, w') /\
    view_request view = created /\
    getEmergencyRequestById env' (er_id created) userId w' =
      (Thrown (NotFoundException "Emergency request not found"), w').
Proof.
  intros Hp Hn Hg Hp' Hfresh Hdto Hne Hother Hpatient.
  assert (patientId_of createSosDto userId = patientId) as Hpid.
  { unfold patientId_of. rewrite Hdto. by rewrite bool_decide_eq_false_2. }
  destruct (createEmergencyRequest_returns env createSosDto userId w) as [out Hrun];
    try done; [by rewrite Hpid|].
  set (w' := {| db := _; outbox := out |}) in Hrun.
  pose proof (getEmergencyRequests_run env' patientId w' (Hp' _)) as Hviews.
  set (views := List.map _ _) in Hviews.
  assert (lists views (created_request env createSosDto userId)) as Hlisted.
  { apply lists_map_view_of, elem_of_List_filter.
    split; [apply elem_of_rows; exists (uuid env); simpl; by rewrite lookup_insert_eq|].
    by apply bool_decide_eq_true. }
  assert (requests (db w') !! uuid env = Some (created_request env createSosDto userId))
    as Hrow by (simpl; by rewrite lookup_insert_eq).
  eexists _, w', views, _. split; [exact Hrun|].
  split; [done|]. split; [exact Hpid|]. split; [exact Hviews|].
  split; [exact Hlisted|].
  split; [|split].
  - unfold getEmergencyRequestById, bind at 1.
    rewrite emergencyRequest_findUnique_ok by done. cbn [er_id created_request].
    rewrite Hrow. unfold bind, get_db.
    rewrite bool_decide_eq_true_2 by exact Hpid. reflexivity.
  - done.
  - unfold getEmergencyRequestById, bind at 1.
    rewrite emergencyRequest_findUnique_ok by done. cbn [er_id created_request].
    rewrite Hrow. unfold bind, get_db.
    rewrite bool_decide_eq_false_2; [done|]. simpl. rewrite Hpid. done.
Qed.

Lemma request_filed_for_another_patient_witness :
  exists created w' views view,
    createEmergencyRequest Sample.env_new_case
      {| dto_patientId := Some "patient-1"; dto_type := "FIRE";
         dto_description := "smoke"; dto_location := "Phuket";
         dto_latitude := 7.88; dto_longitude := 98.39;
         dto_medicalInfo := None; dto_grade := "NON_URGENT" |}
      "nurse-1" (Sample.world "PENDING" (Some 3%Z) []) = (Returned created, w') /\
    er_status created = EmergencyStatus.PENDING /\
    er_patientId created = "patient-1" /\
    getEmergencyRequests Sample.env_ok "patient-1" w' = (Returned views, w') /\
    lists views created /\
    getEmergencyRequestById Sample.env_ok (er_id created) "patient-1" w' =
      (Returned view, w') /\
    view_request view = created /\
    getEmergencyRequestById Sample.env_ok (er_id created) "nurse-1" w' =
      (Thrown (NotFoundException "Emergency request not found"), w').
Proof.
  apply (request_filed_for_another_patient Sample.env_new_case Sample.env_ok
           {| dto_patientId := Some "patient-1"; dto_type := "FIRE";
              dto_description := "smoke"; dto_location := "Phuket";
              dto_latitude := 7.88; dto_longitude := 98.39;
              dto_medicalInfo := None; dto_grade := "NON_URGENT" |}
           "nurse-1" "patient-1" (Sample.world "PENDING" (Some 3%Z) []));
    try reflexivity; try (intros c; reflexivity); try discriminate.
  vm_compute. eauto.
Defined.

(** ** More on the dashboard statistics *)

Section StatsMore.

Variable env : Env.
Variable JSON_parse : string -> option Json.
Variable Number : Json -> JsNumber.

(** No hospital adds to the sum of beds: each is read without its
    [medicalInfo]. *)
Lemma no_beds_counted (hospitals : list Organization) total :
  fold_left (fun total (hospital : Organization) =>
               add_beds total (getAvailableBeds JSON_parse Number None))
            hospitals total = total.
Proof. revert total. induction hospitals as [|h hs IH]; intros total; simpl; [done|apply IH]. Qed.

Lemma getStats_counts w :
  no_prisma_faults env ->
  exists stats,
    getStats env JSON_parse Number w = (Returned stats, w) /\
    totalEmergencies stats = length (map_to_list (requests (db w))).*2 /\
    activeEmergencies stats =
      length (List.filter is_active_status (map_to_list (requests (db w))).*2) /\
    completedEmergencies stats =
      length (List.filter
                (fun e => bool_decide (er_status e = EmergencyStatus.COMPLETED))
                (map_to_list (requests (db w))).*2) /\
    cancelledEmergencies stats =
      length (List.filter
                (fun e => bool_decide (er_status e = EmergencyStatus.CANCELLED))
                (map_to_list (requests (db w))).*2) /\
    availableHospitalBeds stats = Finite 0.
Proof.
  intros Hp. unfold getStats, try_catch, bind, emergencyRequest_count,
    organization_count, organization_findMany, emergencyResponse_findMany,
    emergencyRequest_findMany, prisma.
  rewrite !Hp. unfold bind, get_db, ret. eexists. split; [reflexivity|]. simpl.
  rewrite no_beds_counted. repeat split.
  f_equal. induction (map_to_list (requests (db w))).*2 as [|e l IH]; simpl; [done|].
  by rewrite IH.
Qed.

Lemma status_partition (l : list EmergencyRequest) :
  (forall e, e ∈ l -> er_status e ∈ EmergencyStatus.members) ->
  length l =
    (length (List.filter is_active_status l)
     + length (List.filter
                 (fun e => bool_decide (er_status e = EmergencyStatus.COMPLETED)) l)
     + length (List.filter
                 (fun e => bool_decide (er_status e = EmergencyStatus.CANCELLED)) l))%nat.
Proof.
  induction l as [|e l IH]; intros Hl; simpl; [done|].
  rewrite IH by (intros e' He'; apply Hl; by right).
  assert (er_status e ∈ EmergencyStatus.members) as He by (apply Hl; by left).
  unfold EmergencyStatus.members in He. rewrite !elem_of_cons, elem_of_nil in He.
  unfold is_active_status at 2.
  destruct He as [->|[->|[->|[->|[->|[]]]]]]; simpl; lia.
Qed.

End StatsMore.

(** X18. Over a store in which every request carries one of the five statuses,
    the counts of the dashboard add up: the total is the active plus the
    completed plus the cancelled requests. *)
Theorem getStats_counts_add_up env JSON_parse Number w :
  no_prisma_faults env ->
  status_invariant (db w) ->
  exists stats,
    getStats env JSON_parse Number w = (Returned stats, w) /\
    totalEmergencies stats =
      (activeEmergencies stats + completedEmergencies stats
       + cancelledEmergencies stats)%nat.
Proof.
  intros Hp Hinv.
  destruct (getStats_counts env JSON_parse Number w Hp)
    as (stats & Hrun & Htotal & Hactive & Hcompleted & Hcancelled & _).
  exists stats. split; [exact Hrun|].
  rewrite Htotal, Hactive, Hcompleted, Hcancelled. apply status_partition.
  intros e He. apply elem_of_rows in He as [id Hid]. by apply (Hinv id).
Qed.

Lemma getStats_counts_add_up_witness :
  exists stats,
    getStats Sample.env_ok (fun _ => None) (fun _ => NaN)
      (Sample.world "IN_PROGRESS" (Some 3%Z) []) =
      (Returned stats, Sample.world "IN_PROGRESS" (Some 3%Z) []) /\
    totalEmergencies stats =
      (activeEmergencies stats + completedEmergencies stats
       + cancelledEmergencies stats)%nat.
Proof.
  apply (getStats_counts_add_up Sample.env_ok (fun _ => None) (fun _ => NaN)
           (Sample.world "IN_PROGRESS" (Some 3%Z) [])); [intros c; reflexivity|].
  intros id r. simpl. rewrite lookup_singleton_Some. intros [_ <-].
  apply member_IN_PROGRESS.
Defined.

(** X19. The dashboard reports no available hospital beds at all: whatever the
    hospitals and their bed counts, [availableHospitalBeds] is 0, because the
    hospitals are read without the column the beds are looked for in. *)
Theorem getStats_reports_no_available_beds env JSON_parse Number w :
  no_prisma_faults env ->
  exists stats,
    getStats env JSON_parse Number w = (Returned stats, w) /\
    availableHospitalBeds stats = Finite 0.
Proof.
  intros Hp.
  destruct (getStats_counts env JSON_parse Number w Hp)
    as (stats & Hrun & _ & _ & _ & _ & Hbeds).
  by exists stats.
Qed.

Lemma getStats_reports_no_available_beds_witness :
  exists stats,
    getStats Sample.env_ok (fun _ => None) (fun _ => NaN)
      (Sample.world "PENDING" (Some 25%Z) []) =
      (Returned stats, Sample.world "PENDING" (Some 25%Z) []) /\
    availableHospitalBeds stats = Finite 0.
Proof.
  apply (getStats_reports_no_available_beds Sample.env_ok (fun _ => None) (fun _ => NaN)
           (Sample.world "PENDING" (Some 25%Z) [])).
  intros c; reflexivity.
Defined.

(** X20. [getStats] only reads: the world after the call is the world before it,
    and when the store refuses any of its queries the caller gets an
    internal-server error, never the raw store error. *)
Theorem getStats_reads_only_and_wraps_failures env JSON_parse Number w :
  (getStats env JSON_parse Number w).2 = w /\
  ((exists stats, (getStats env JSON_parse Number w).1 = Returned stats) \/
   (exists call,
      (getStats env JSON_parse Number w).1 =
        Thrown (InternalServerErrorException
                  ("Cannot fetch dashboard stats: "
                   +:+ message_of (PrismaClientError call))))).
Proof.
  unfold getStats, try_catch, bind, emergencyRequest_count,
    organization_count, organization_findMany, emergencyResponse_findMany,
    emergencyRequest_findMany, prisma, throw.
  repeat match goal with
         | |- context [prisma_fails env ?c] =>
             destruct (prisma_fails env c); simpl; [split; [done|right; by exists c]|]
         end.
  unfold bind, get_db, ret. simpl. split; [done|left; by eexists].
Qed.

(** ** Rounding to the nearest double *)

Lemma round_half_even_close x :
  (- (1 # 2) <= inject_Z (round_half_even x) - x <= 1 # 2)%Q.
Proof.
  unfold round_half_even.
  pose proof (Qfloor_le x) as Hlo. pose proof (Qlt_floor x) as Hhi.
  rewrite inject_Z_plus in Hhi. change (inject_Z 1) with 1%Q in Hhi.
  destruct (x - inject_Z (Qfloor x) ?= 1 # 2)%Q eqn:Hcmp.
  - apply Qeq_alt in Hcmp. destruct (Z.even (Qfloor x)).
    + lra.
    + rewrite inject_Z_plus. change (inject_Z 1) with 1%Q. lra.
  - apply Qlt_alt in Hcmp. lra.
  - apply Qgt_alt in Hcmp. rewrite inject_Z_plus. change (inject_Z 1) with 1%Q. lra.
Qed.

Lemma ilog2_le x : (0 < x)%Q -> (2 ^ ilog2 x <= x)%Q.
Proof.
  intros Hx. unfold ilog2.
  set (e := (Z.log2 (Qnum x) - Z.log2 (Z.pos (Qden x)))%Z).
  destruct (Qle_bool (2 ^ e) x) eqn:Htest; [by apply Qle_bool_iff|].
  destruct x as [p q]. unfold e. simpl Qnum in *. simpl Qden in *.
  assert (0 < p)%Z as Hp.
  { unfold Qlt in Hx. simpl in Hx. lia. }
  pose proof (Z.log2_spec p Hp) as [Hp1 _].
  pose proof (Z.log2_spec (Z.pos q) (Pos2Z.is_pos q)) as [_ Hq2].
  pose proof (Z.log2_nonneg p) as Hlp. pose proof (Z.log2_nonneg (Z.pos q)) as Hlq.
  set (lp := Z.log2 p) in *. set (lq := Z.log2 (Z.pos q)) in *.
  assert ((2 : Q) ^ (lp - lq - 1) == 2 ^ lp * / 2 ^ (lq + 1))%Q as ->.
  { replace (lp - lq - 1)%Z with (lp + - (lq + 1))%Z by lia.
    rewrite Qpower_plus by discriminate. by rewrite Qpower_opp. }
  rewrite <- !(Zpower_Qpower 2) by lia.
  change (inject_Z 2) with 2%Q.
  apply Qle_shift_div_r.
  - change 0%Q with (inject_Z 0). rewrite <- Zlt_Qlt. lia.
  - rewrite (Qmake_Qdiv p q).
    unfold Qdiv. rewrite <- Qmult_assoc, (Qmult_comm (/ _)), Qmult_assoc.
    apply Qle_shift_div_l; [change 0%Q with (inject_Z 0); rewrite <- Zlt_Qlt; lia|].
    rewrite <- !inject_Z_mult, <- Zle_Qle. nia.
Qed.

Lemma Z_le_of_Q_half (n N : Z) : (inject_Z n <= inject_Z N + (1 # 2))%Q -> (n <= N)%Z.
Proof.
  intros H. apply Z.lt_succ_r. unfold Z.succ. rewrite Zlt_Qlt.
  rewrite inject_Z_plus. change (inject_Z 1) with 1%Q. lra.
Qed.

Lemma Z_ge_of_Q_half (n N : Z) : (inject_Z N - (1 # 2) <= inject_Z n)%Q -> (N <= n)%Z.
Proof.
  intros H. apply Z.lt_pred_le. unfold Z.pred. rewrite Zlt_Qlt.
  rewrite inject_Z_plus. change (inject_Z (-1)) with (-1)%Q. lra.
Qed.

(** A real number of magnitude at most [2 ^ E] is rounded to a finite
    double of magnitude at most [2 ^ E], of the same sign, and no further
    away than half a unit in the last place of that binade. *)
Lemma round64_bound (E : Z) x :
  (-1022 <= E <= 1023)%Z ->
  (- 2 ^ E <= x <= 2 ^ E)%Q ->
  exists y,
    round64 x = Finite y /\
    (- 2 ^ (E - 53) <= y - x <= 2 ^ (E - 53))%Q /\
    (- 2 ^ E <= y <= 2 ^ E)%Q /\
    ((0 <= x)%Q -> (0 <= y)%Q).
Proof.
  intros HE Hx. unfold round64.
  pose proof (Qpower_0_lt 2 (E - 53) ltac:(reflexivity)) as Hpos53.
  pose proof (Qpower_0_lt 2 E ltac:(reflexivity)) as HposE.
  destruct (Qeq_bool x 0) eqn:Hzero.
  { apply Qeq_bool_iff in Hzero. exists 0%Q. split; [reflexivity|].
    split; [lra|]. split; [lra|]. intros _. lra. }
  assert (~ x == 0)%Q as Hnz.
  { intros H. apply Qeq_bool_iff in H. congruence. }
  assert (0 < Qabs x)%Q as Habs.
  { destruct (Qlt_le_dec 0 x) as [Hp | Hn].
    - rewrite Qabs_pos by lra. lra.
    - rewrite Qabs_neg by lra. lra. }
  assert (Qabs x <= 2 ^ E)%Q as HabsE by (apply Qabs_Qle_condition; lra).
  set (e := Z.max (ilog2 (Qabs x)) (-1022)).
  assert (e <= E)%Z as He.
  { apply Z.max_lub; [|lia].
    apply (Qpower_le_compat_l_inv 2); [|reflexivity].
    apply (Qle_trans _ (Qabs x)); [by apply ilog2_le|done]. }
  set (u := (2 ^ (e - 52))%Q).
  assert (0 < u)%Q as Hu by (apply Qpower_0_lt; reflexivity).
  set (t := (x / u)%Q).
  assert (x == t * u)%Q as Hxt.
  { unfold t. field. lra. }
  pose proof (round_half_even_close t) as Hn.
  set (n := round_half_even t) in *.
  (* the bound [2 ^ E] is a whole number of units *)
  set (N := (2 ^ (E - e + 52))%Z).
  assert (inject_Z N * u == 2 ^ E)%Q as HN.
  { unfold N, u. rewrite Zpower_Qpower by lia. change (inject_Z 2) with 2%Q.
    rewrite <- Qpower_plus by discriminate. by replace (E - e + 52 + (e - 52))%Z with E by lia. }
  assert (- inject_Z N <= t <= inject_Z N)%Q as Ht.
  { split.
    - apply (Qmult_le_r _ _ u Hu). rewrite <- Hxt.
      assert (- inject_Z N * u == - (inject_Z N * u))%Q as -> by ring. rewrite HN. lra.
    - apply (Qmult_le_r _ _ u Hu). rewrite <- Hxt, HN. lra. }
  assert (- N <= n <= N)%Z as HnN.
  { split.
    - apply Z_ge_of_Q_half. rewrite inject_Z_opp. lra.
    - apply Z_le_of_Q_half. lra. }
  assert (- 2 ^ E <= inject_Z n * u <= 2 ^ E)%Q as Hy.
  { rewrite <- HN. split.
    - assert (- (inject_Z N * u) == inject_Z (- N) * u)%Q as -> by (rewrite inject_Z_opp; ring).
      apply Qmult_le_compat_r; [|lra]. rewrite <- Zle_Qle. lia.
    - apply Qmult_le_compat_r; [|lra]. rewrite <- Zle_Qle. lia. }
  assert (u * (1 # 2) == 2 ^ (e - 53))%Q as Hhalf.
  { unfold u. replace (e - 53)%Z with (e - 52 + -1)%Z by lia.
    rewrite Qpower_plus by discriminate. reflexivity. }
  assert (2 ^ (e - 53) <= 2 ^ (E - 53))%Q as Hmono.
  { apply Qpower_le_compat_l; [lia|]. discriminate. }
  assert (- 2 ^ (E - 53) <= inject_Z n * u - x <= 2 ^ (E - 53))%Q as Herr.
  { assert (inject_Z n * u - x == (inject_Z n - t) * u)%Q as -> by (rewrite Hxt; ring).
    split.
    - apply (Qle_trans _ (- (1 # 2) * u)).
      + assert (- (1 # 2) * u == - (u * (1 # 2)))%Q as -> by ring. rewrite Hhalf. lra.
      + apply Qmult_le_compat_r; lra.
    - apply (Qle_trans _ ((1 # 2) * u)).
      + apply Qmult_le_compat_r; lra.
      + rewrite (Qmult_comm (1 # 2)), Hhalf. lra. }
  assert (Qle_bool (2 ^ 1024) (Qabs (inject_Z n * u)) = false) as ->.
  { apply not_true_is_false. intros H. apply Qle_bool_iff in H.
    assert (Qabs (inject_Z n * u) <= 2 ^ E)%Q as Hle by (apply Qabs_Qle_condition; lra).
    assert (2 ^ E < 2 ^ 1024)%Q as Hlt by (apply Qpower_lt_compat_l; [lia|reflexivity]).
    lra. }
  exists (Qred (inject_Z n * u)). split; [reflexivity|].
  rewrite !Qred_correct. split; [exact Herr|]. split; [exact Hy|].
  intros Hx0. apply Qmult_le_0_compat; [|lra].
  change 0%Q with (inject_Z 0). rewrite <- Zle_Qle.
  apply Z_ge_of_Q_half. change (inject_Z 0) with 0%Q.
  assert (0 <= t)%Q as Ht0.
  { unfold t. apply Qle_shift_div_l; [done|]. lra. }
  lra.
Qed.

(** The same for a number that is not negative, with the powers of two
    spelled out. *)
Lemma round64_within (E : Z) (bound err : Q) x :
  (-1022 <= E <= 1023)%Z ->
  (2 ^ E == bound)%Q ->
  (2 ^ (E - 53) == err)%Q ->
  (0 <= x <= bound)%Q ->
  exists y,
    round64 x = Finite y /\
    (0 <= y <= bound)%Q /\
    (- err <= y - x <= err)%Q.
Proof.
  intros HE Hbound Herr Hx.
  destruct (round64_bound E x HE) as (y & Hy & Hclose & Hsize & Hsign).
  { rewrite Hbound. lra. }
  exists y. split; [exact Hy|]. rewrite Hbound in Hsize. rewrite Herr in Hclose.
  split; [|exact Hclose]. split; [apply Hsign|]; lra.
Qed.

(** The exact minutes of a duration in milliseconds. *)
Lemma minutes_double_close d :
  (0 <= d <= 2592000000)%Z ->
  exists f,
    minutes_double d = Finite f /\
    (0 <= f <= 43201)%Q /\
    (- (1 # 10000000000) <= f - inject_Z d / (1000 * 60) <= 1 # 10000000000)%Q.
Proof.
  intros [Hd0 Hd]. unfold minutes_double.
  assert (0 <= inject_Z d <= 2592000000)%Q as HdQ.
  { split.
    - change 0%Q with (inject_Z 0). by rewrite <- Zle_Qle.
    - change 2592000000%Q with (inject_Z 2592000000). by rewrite <- Zle_Qle. }
  destruct (round64_within 32 4294967296 (1 # 2097152) (inject_Z d))
    as (y & -> & Hy & Hyd); [lia | reflexivity | reflexivity | lra |].
  unfold div_double. change (inject_Z (Z.pos 60000)) with 60000%Q.
  assert (y / 60000 == y * (1 # 60000))%Q as Hdiv by (unfold Qdiv; reflexivity).
  destruct (round64_within 16 65536 (1 # 137438953472) (y / 60000))
    as (f & -> & Hf & Hfy); [lia | reflexivity | reflexivity | rewrite Hdiv; lra |].
  exists f. split; [reflexivity|].
  assert (inject_Z d / (1000 * 60) == inject_Z d * (1 # 60000))%Q as ->
    by (unfold Qdiv; reflexivity).
  rewrite Hdiv in Hfy. split; [split|split]; lra.
Qed.

Lemma length_cons_Q {A} (a : A) (l : list A) :
  (inject_Z (Z.of_nat (length (a :: l))) == 1 + inject_Z (Z.of_nat (length l)))%Q.
Proof.
  cbn [length]. rewrite Nat2Z.inj_succ. unfold Z.succ. rewrite inject_Z_plus.
  change (inject_Z 1) with 1%Q. ring.
Qed.

Lemma length_nonneg_Q {A} (l : list A) : (0 <= inject_Z (Z.of_nat (length l)))%Q.
Proof. change 0%Q with (inject_Z 0). rewrite <- Zle_Qle. lia. Qed.

(** The running total of the loop stays close to the exact sum: each
    addition moves it by at most 2^-17, each duration by at most 10^-10. *)
Lemma double_sum_close ds :
  Forall (fun d => (0 <= d <= 2592000000)%Z) ds ->
  forall q0 S c,
    (0 <= c)%Q ->
    (c + inject_Z (Z.of_nat (length ds)) <= 1000000)%Q ->
    (0 <= q0)%Q ->
    (- (c * (1 # 131000)) <= q0 - S <= c * (1 # 131000))%Q ->
    (0 <= S <= c * 43200)%Q ->
    exists q,
      fold_left add_double (List.map minutes_double ds) (Finite q0) = Finite q /\
      (0 <= q)%Q /\
      (- ((c + inject_Z (Z.of_nat (length ds))) * (1 # 131000))
       <= q - (S + Qsum (List.map (fun d => inject_Z d / (1000 * 60)) ds))
       <= (c + inject_Z (Z.of_nat (length ds))) * (1 # 131000))%Q /\
      (0 <= S + Qsum (List.map (fun d => inject_Z d / (1000 * 60)) ds)
       <= (c + inject_Z (Z.of_nat (length ds))) * 43200)%Q.
Proof.
  induction 1 as [|d ds Hd _ IH]; intros q0 S c Hc Hcount Hq0 Hclose HS.
  - exists q0. split; [reflexivity|]. split; [exact Hq0|].
    change (inject_Z (Z.of_nat (length (@nil Z)))) with 0%Q.
    change (Qsum (List.map (fun d => inject_Z d / (1000 * 60)) []))%Q with 0%Q.
    split; split; lra.
  - pose proof (length_cons_Q d ds) as Hlen. pose proof (length_nonneg_Q ds) as Hlen0.
    rewrite Hlen in Hcount.
    destruct (minutes_double_close d Hd) as (f & Hf & Hf0 & Hfd).
    cbn [List.map fold_left]. rewrite Hf. cbn [add_double].
    assert (0 <= inject_Z d / (1000 * 60) <= 43200)%Q as Hexact.
    { assert (inject_Z d / (1000 * 60) == inject_Z d * (1 # 60000))%Q as ->
        by (unfold Qdiv; reflexivity).
      destruct Hd as [Hd0 Hd1].
      assert (0 <= inject_Z d <= 2592000000)%Q as HdQ.
      { split.
        - change 0%Q with (inject_Z 0). by rewrite <- Zle_Qle.
        - change 2592000000%Q with (inject_Z 2592000000). by rewrite <- Zle_Qle. }
      split; lra. }
    destruct (round64_within 36 68719476736 (1 # 131072) (q0 + f))
      as (q1 & -> & Hq1 & Hq1f); [lia | reflexivity | reflexivity | split; lra |].
    destruct (IH q1 (S + inject_Z d / (1000 * 60))%Q (c + 1)%Q)
      as (q & Hq & Hq0' & Hqclose & Hsum); try lra.
    exists q. split; [exact Hq|]. split; [exact Hq0'|].
    rewrite Hlen. cbn [List.map]. rewrite Qsum_cons.
    set (rest := Qsum (List.map (fun d => (inject_Z d / (1000 * 60))%Q) ds)) in *.
    set (m := (inject_Z d / (1000 * 60))%Q) in *.
    set (l := inject_Z (Z.of_nat (length ds))) in *.
    split; split; lra.
Qed.

(** The mean computed in double precision is close to the exact mean. *)
Lemma double_mean_close ds :
  Forall (fun d => (0 <= d <= 2592000000)%Z) ds ->
  (Z.of_nat (length ds) <= 1000000)%Z ->
  exists a,
    double_mean ds = Finite a /\
    (0 <= a <= 65536)%Q /\
    (- (1 # 130000)
     <= a - mean (List.map (fun d => inject_Z d / (1000 * 60)) ds)
     <= 1 # 130000)%Q.
Proof.
  intros Hds Hcount. destruct ds as [|d ds].
  { exists 0%Q. split; [reflexivity|]. split; [lra|]. cbn. lra. }
  set (l := d :: ds) in *.
  assert (inject_Z (Z.of_nat (length l)) <= 1000000)%Q as HcountQ.
  { change 1000000%Q with (inject_Z 1000000). by rewrite <- Zle_Qle. }
  assert (1 <= inject_Z (Z.of_nat (length l)))%Q as Hone.
  { unfold l. rewrite length_cons_Q. pose proof (length_nonneg_Q ds). lra. }
  destruct (double_sum_close l Hds 0 0 0) as (q & Hq & Hq0 & Hclose & Hsum); try lra.
  assert (double_mean l =
          round64 (q / inject_Z (Z.of_nat (length l)))) as ->.
  { unfold double_mean, double_sum, l. fold l. rewrite Hq. unfold div_double.
    do 2 f_equal. unfold l. cbn [length].
    rewrite <- Pos.of_nat_succ. by rewrite Zpos_P_of_succ_nat, <- Nat2Z.inj_succ. }
  assert (mean (List.map (fun d => inject_Z d / (1000 * 60)) l)
          == Qsum (List.map (fun d => inject_Z d / (1000 * 60)) l)
             / inject_Z (Z.of_nat (length l)))%Q as Hmean.
  { unfold mean, l. cbn [List.map]. by rewrite !length_cons, length_map. }
  set (k := inject_Z (Z.of_nat (length l))) in *.
  set (total := Qsum (List.map (fun d => (inject_Z d / (1000 * 60))%Q) l)) in *.
  assert (q / k * k == q)%Q as Hqk by (field; lra).
  assert (total / k * k == total)%Q as Htk by (field; lra).
  set (x := (q / k)%Q) in *. set (m := (total / k)%Q) in *.
  assert (0 < k)%Q as Hk by lra.
  assert (0 <= x)%Q as Hx0.
  { apply (Qmult_le_r _ _ k Hk). rewrite Hqk. lra. }
  assert (0 <= m <= 43200)%Q as Hm.
  { split; apply (Qmult_le_r _ _ k Hk); rewrite Htk; lra. }
  assert (- (1 # 131000) <= x - m <= 1 # 131000)%Q as Hxm.
  { split; apply (Qmult_le_r _ _ k Hk).
    - assert ((x - m) * k == q - total)%Q as -> by (rewrite <- Hqk, <- Htk; ring). lra.
    - assert ((x - m) * k == q - total)%Q as -> by (rewrite <- Hqk, <- Htk; ring). lra. }
  destruct (round64_within 16 65536 (1 # 137438953472) x)
    as (a & -> & Ha & Hax); [lia | reflexivity | reflexivity | split; lra |].
  exists a. split; [reflexivity|]. split; [exact Ha|]. rewrite Hmean. split; lra.
Qed.

Lemma completed_durations_milliseconds rs :
  completed_durations rs =
    List.map (fun d => (inject_Z d / (1000 * 60))%Q) (completed_milliseconds rs).
Proof.
  unfold completed_durations, completed_milliseconds.
  induction (List.filter is_completed rs) as [|r l IH]; [done|].
  cbn [omap list_omap]. fold (omap response_minutes l). fold (omap response_milliseconds l).
  unfold response_minutes at 1, response_milliseconds at 1.
  destruct (resp_dispatchTime r), (resp_completionTime r); cbn [List.map]; by rewrite ?IH.
Qed.

(** X21. Over at most a million COMPLETED responses with both time stamps, none
    completed before it was dispatched nor more than thirty days after, the
    average response time of the dashboard is a number that is not negative
    and lies within 0.00501 of a minute of their exact mean: half a
    hundredth from the print with two decimals, the rest from the rounding
    of the double-precision operations. *)
Theorem averageResponseTime_within_rounding env JSON_parse Number w :
  no_prisma_faults env ->
  (Z.of_nat (length (completed_milliseconds (responses (db w)))) <= 1000000)%Z ->
  (forall x dispatchTime completionTime,
     x ∈ responses (db w) ->
     resp_status x = "COMPLETED" ->
     resp_dispatchTime x = Some dispatchTime ->
     resp_completionTime x = Some completionTime ->
     (0 <= completionTime - dispatchTime <= 30 * 24 * 60 * 60 * 1000)%Z) ->
  exists stats q,
    getStats env JSON_parse Number w = (Returned stats, w) /\
    averageResponseTime stats = Finite q /\
    (0 <= q)%Q /\
    (Qabs (q - mean (completed_durations (responses (db w))))
     <= (1 # 200) + (1 # 100000))%Q.
Proof.
  intros Hp Hcount Hrange. destruct (getStats_returns env JSON_parse Number w Hp)
    as (stats & Hstats & _ & Haverage).
  rewrite averageResponseTime_of_double_mean in Haverage.
  fold (completed_milliseconds (responses (db w))) in Haverage.
  assert (Forall (fun d => (0 <= d <= 2592000000)%Z)
                 (completed_milliseconds (responses (db w)))) as Hds.
  { apply Forall_forall. intros d Hd. unfold completed_milliseconds in Hd.
    apply list_elem_of_omap in Hd as (x & Hx & Hms).
    apply list_elem_of_In, filter_In in Hx as [Hx Hdone].
    apply bool_decide_eq_true in Hdone. apply list_elem_of_In in Hx.
    unfold response_milliseconds in Hms.
    destruct (resp_dispatchTime x) as [t0|] eqn:Ht0; [|done].
    destruct (resp_completionTime x) as [t1|] eqn:Ht1; [|done].
    injection Hms as <-. apply (Hrange x t0 t1 Hx Hdone Ht0 Ht1). }
  destruct (double_mean_close _ Hds Hcount) as (a & Ha & Harange & Haclose).
  rewrite Ha in Haverage.
  destruct (toFixed2_two_decimals a) as (n & Hn & Hna).
  { apply (Qle_lt_trans _ 65536); [|reflexivity]. apply Qabs_Qle_condition. lra. }
  rewrite Hn in Haverage. apply Qabs_Qle_condition in Hna.
  assert (0 <= n)%Z as Hn0.
  { apply Z_ge_of_Q_half. change (inject_Z 0) with 0%Q.
    assert (inject_Z n / 100 == inject_Z n * (1 # 100))%Q as Hdiv
      by (unfold Qdiv; reflexivity).
    rewrite Hdiv in Hna. lra. }
  assert (0 <= inject_Z n / 100)%Q as Hn100.
  { apply Qle_shift_div_l; [reflexivity|]. rewrite Qmult_0_l.
    change 0%Q with (inject_Z 0). by rewrite <- Zle_Qle. }
  destruct (round64_within 17 131072 (1 # 68719476736) (inject_Z n / 100))
    as (q & Hq & Hq0 & Hqn); [lia | reflexivity | reflexivity | split; lra |].
  rewrite Hq in Haverage.
  exists stats, q. split; [exact Hstats|]. split; [exact Haverage|].
  split; [lra|]. rewrite completed_durations_milliseconds.
  apply Qabs_Qle_condition. split; lra.
Qed.

Lemma averageResponseTime_within_rounding_witness :
  exists stats q,
    getStats Sample.env_ok (fun _ => None) (fun _ => NaN)
      (Sample.world "COMPLETED" (Some 3%Z)
         [timed_response "resp-1" "COMPLETED" (Some 0%Z) (Some 100000%Z)]) =
      (Returned stats,
       Sample.world "COMPLETED" (Some 3%Z)
         [timed_response "resp-1" "COMPLETED" (Some 0%Z) (Some 100000%Z)]) /\
    averageResponseTime stats = Finite q /\
    (Qabs (q - mean (completed_durations
                       [timed_response "resp-1" "COMPLETED" (Some 0%Z) (Some 100000%Z)]))
     <= (1 # 200) + (1 # 100000))%Q.
Proof.
  destruct (averageResponseTime_within_rounding Sample.env_ok
              (fun _ => None) (fun _ => NaN)
              (Sample.world "COMPLETED" (Some 3%Z)
                 [timed_response "resp-1" "COMPLETED" (Some 0%Z) (Some 100000%Z)]))
    as (stats & q & Hstats & Hq & _ & Hclose).
  - intros c; reflexivity.
  - vm_compute. discriminate.
  - intros x t0 t1 Hx _ Ht0 Ht1. apply list_elem_of_singleton in Hx as ->.
    injection Ht0 as <-. injection Ht1 as <-. lia.
  - exists stats, q. split; [exact Hstats|]. split; [exact Hq|]. exact Hclose.
Defined.

(** ** Removing a hospital *)

Section Remove.

Variable env : Env.

Lemma remove_deactivates id w h :
  no_prisma_faults env ->
  organizations (db w) !! id = Some h ->
  org_type h = "HOSPITAL" ->
  remove env id w =
    (Returned (with_org_status "INACTIVE" h),
     {| db := set_organizations
                (<[id := with_org_status "INACTIVE" h]> (organizations (db w))) (db w);
        outbox := outbox w |}).
Proof.
  intros Hp Hh Hty. unfold remove, bind at 1, findOne, bind at 1,
    organization_findFirst_hospital.
  rewrite prisma_ok by done. unfold bind at 1, get_db, ret.
  rewrite Hh, bool_decide_eq_true_2 by done.
  by rewrite (organization_update_ok _ _ _ _ h).
Qed.

Lemma remove_refuses id w :
  prisma_fails env Organization_findFirst = false ->
  (organizations (db w) !! id = None \/
   exists o, organizations (db w) !! id = Some o /\ org_type o <> "HOSPITAL") ->
  remove env id w = (Thrown (NotFoundException "Hospital not found"), w).
Proof.
  intros Hp Ho. unfold remove, bind at 1, findOne, bind at 1,
    organization_findFirst_hospital.
  rewrite prisma_ok by done. unfold bind at 1, get_db, ret.
  destruct Ho as [-> | (o & -> & Hty)]; [done|].
  by rewrite bool_decide_eq_false_2.
Qed.

End Remove.

(** X22. Removing a hospital is a soft delete: the row stays, INACTIVE, with its
    name, type and beds, and no request or response is touched; an id that is
    not a hospital's (a rescue team's, or nobody's) is reported as not found
    and nothing changes. *)
Theorem remove_is_a_soft_delete env id w :
  no_prisma_faults env ->
  (forall h,
     organizations (db w) !! id = Some h ->
     org_type h = "HOSPITAL" ->
     exists removed w',
       remove env id w = (Returned removed, w') /\
       organizations (db w') !! id = Some removed /\
       org_status removed = "INACTIVE" /\
       org_type removed = "HOSPITAL" /\
       org_name removed = org_name h /\
       org_availableBeds removed = org_availableBeds h /\
       requests (db w') = requests (db w) /\
       responses (db w') = responses (db w)) /\
  ((organizations (db w) !! id = None \/
    exists o, organizations (db w) !! id = Some o /\ org_type o <> "HOSPITAL") ->
   remove env id w = (Thrown (NotFoundException "Hospital not found"), w)).
Proof.
  intros Hp. split.
  - intros h Hh Hty. eexists _, _. split; [by apply remove_deactivates|].
    simpl. split; [by rewrite lookup_insert_eq|done].
  - by apply remove_refuses.
Qed.

Lemma remove_is_a_soft_delete_witness :
  (exists removed w',
     remove Sample.env_ok "hospital-1" (Sample2.world "PENDING" (Some 3%Z) []) =
       (Returned removed, w') /\
     organizations (db w') !! "hospital-1" = Some removed /\
     org_status removed = "INACTIVE" /\
     org_availableBeds removed = Some 3%Z) /\
  remove Sample.env_ok "rescue-1" (Sample2.world "PENDING" (Some 3%Z) []) =
    (Thrown (NotFoundException "Hospital not found"),
     Sample2.world "PENDING" (Some 3%Z) []).
Proof.
  destruct (remove_is_a_soft_delete Sample.env_ok "hospital-1"
              (Sample2.world "PENDING" (Some 3%Z) [])) as [Hremove _];
    [intros c; reflexivity|].
  destruct (remove_is_a_soft_delete Sample.env_ok "rescue-1"
              (Sample2.world "PENDING" (Some 3%Z) [])) as [_ Hrefuse];
    [intros c; reflexivity|].
  split.
  - destruct (Hremove (Sample.hospital (Some 3%Z)))
      as (removed & w' & Hrun & Hrow & Hst & _ & _ & Hbeds & _);
      [reflexivity | reflexivity |].
    exists removed, w'. by rewrite Hbeds.
  - apply Hrefuse. right. exists Sample2.rescue_team. split; [reflexivity|discriminate].
Defined.

(** X23. A removed hospital still takes assignments: [assignToHospital] looks at
    the type and the beds of the hospital, not at its status.  After the
    removal a PENDING request is assigned to it, and a bed of the inactive
    hospital is taken. *)
Theorem removed_hospital_is_still_assigned
    env env' emergencyId hospitalId userId w r h b :
  no_prisma_faults env ->
  no_prisma_faults env' ->
  notifications_delivered env' ->
  gateway_up env' ->
  find_response (uuid env') (responses (db w)) = None ->
  requests (db w) !! emergencyId = Some r ->
  er_status r = EmergencyStatus.PENDING ->
  links_of (db w) emergencyId hospitalId = [] ->
  organizations (db w) !! hospitalId = Some h ->
  org_type h = "HOSPITAL" ->
  org_availableBeds h = Some b ->
  (0 < b)%Z ->
  let w1 := (remove env hospitalId w).2 in
  exists updated w2 hospital,
    assignToHospital env' emergencyId hospitalId userId w1 = (Returned updated, w2) /\
    er_status updated = EmergencyStatus.ASSIGNED /\
    organizations (db w2) !! hospitalId = Some hospital /\
    org_status hospital = "INACTIVE" /\
    org_availableBeds hospital = Some (b - 1)%Z.
Proof.
  intros Hp Hp' Hn Hg Hfresh Hr Hst Hl Hh Hty Hbeds Hpos.
  cbv zeta. rewrite (remove_deactivates env hospitalId w h) by done. cbn [snd].
  set (w1 := {| db := _; outbox := _ |}).
  destruct (assignToHospital_assigns env' emergencyId hospitalId userId w1 r
              (with_org_status "INACTIVE" h)) as [out Hrun]; try done.
  { left. by rewrite Hst. }
  { simpl. by rewrite lookup_insert_eq. }
  { unfold no_available_beds. simpl. rewrite Hbeds. apply Z.leb_gt. lia. }
  eexists _, _, _. split; [exact Hrun|]. simpl. split; [done|].
  split; [by rewrite lookup_insert_eq|]. simpl. by rewrite Hbeds.
Qed.

Lemma removed_hospital_is_still_assigned_witness :
  let w1 := (remove Sample.env_ok "hospital-1" (Sample.world "PENDING" (Some 3%Z) [])).2 in
  exists updated w2 hospital,
    assignToHospital Sample.env_ok "case-1" "hospital-1" "admin-1" w1 =
      (Returned updated, w2) /\
    er_status updated = EmergencyStatus.ASSIGNED /\
    organizations (db w2) !! "hospital-1" = Some hospital /\
    org_status hospital = "INACTIVE" /\
    org_availableBeds hospital = Some 2%Z.
Proof.
  apply (removed_hospital_is_still_assigned Sample.env_ok Sample.env_ok
           "case-1" "hospital-1" "admin-1" (Sample.world "PENDING" (Some 3%Z) [])
           (Sample.request "PENDING") (Sample.hospital (Some 3%Z)) 3%Z);
    try reflexivity; intros c; reflexivity.
Defined.

(** ** Calling the rescue teams *)

Section Notify.

Variable env : Env.

Lemma for_of_createNotification_sends {A} (xs : list A) (mk : A -> NotificationInput) w :
  notifications_delivered env ->
  for_of xs (fun x => createNotification env (mk x)) w =
    (Returned tt,
     {| db := db w; outbox := (outbox w ++ List.map (fun x => Notified (mk x)) xs)%list |}).
Proof.
  intros Hn. revert w. induction xs as [|x xs IH]; intros w.
  - simpl. rewrite app_nil_r. by destruct w.
  - simpl. unfold bind at 1. unfold createNotification at 1. rewrite Hn.
    unfold emit. rewrite IH. simpl. by rewrite <- app_assoc.
Qed.

Lemma for_of_teams_sends {A B} (teams : list A) (members : A -> list B)
    (mk : B -> NotificationInput) w :
  notifications_delivered env ->
  for_of teams (fun t => for_of (members t) (fun u => createNotification env (mk u))) w =
    (Returned tt,
     {| db := db w;
        outbox := (outbox w ++
                   List.map (fun u => Notified (mk u)) (concat (List.map members teams)))%list |}).
Proof.
  intros Hn. revert w. induction teams as [|t teams IH]; intros w.
  - simpl. rewrite app_nil_r. by destruct w.
  - simpl. unfold bind at 1. rewrite for_of_createNotification_sends by done.
    rewrite IH. simpl. by rewrite List.map_app, app_assoc.
Qed.

Lemma for_of_createNotification_throws {A} (xs : list A) (mk : A -> NotificationInput) w :
  (exists x, x ∈ xs /\ notification_fails env (mk x) = true) ->
  exists n out,
    for_of xs (fun x => createNotification env (mk x)) w =
      (Thrown (NotificationError n), {| db := db w; outbox := out |}).
Proof.
  revert w. induction xs as [|x xs IH]; intros w (y & Hy & Hfails).
  - by apply elem_of_nil in Hy.
  - simpl. unfold bind at 1. unfold createNotification at 1.
    destruct (notification_fails env (mk x)) eqn:Hx.
    + exists (mk x), (outbox w). by destruct w.
    + unfold emit. apply elem_of_cons in Hy as [-> | Hy]; [congruence|].
      destruct (IH {| db := db w; outbox := outbox w ++ [Notified (mk x)] |})
        as (n & out & Hrun); [by exists y|].
      exists n, out. by rewrite Hrun.
Qed.

Lemma for_of_createNotification_outcome {A} (xs : list A) (mk : A -> NotificationInput) w :
  exists out,
    for_of xs (fun x => createNotification env (mk x)) w =
      (Returned tt, {| db := db w; outbox := out |}) \/
    exists n,
      for_of xs (fun x => createNotification env (mk x)) w =
        (Thrown (NotificationError n), {| db := db w; outbox := out |}).
Proof.
  revert w. induction xs as [|x xs IH]; intros w.
  - exists (outbox w). left. by destruct w.
  - simpl. unfold bind.
    destruct (notification_fails env (mk x)) eqn:Hx.
    + assert (createNotification env (mk x) w = (Thrown (NotificationError (mk x)), w))
        as -> by (unfold createNotification; by rewrite Hx).
      exists (outbox w). right. exists (mk x). by destruct w.
    + assert (createNotification env (mk x) w =
                (Returned tt, {| db := db w; outbox := outbox w ++ [Notified (mk x)] |}))
        as -> by (unfold createNotification; by rewrite Hx).
      apply (IH {| db := db w; outbox := outbox w ++ [Notified (mk x)] |}).
Qed.

Lemma for_of_teams_throws {A B} (teams : list A) (members : A -> list B)
    (mk : B -> NotificationInput) w :
  (exists u, u ∈ concat (List.map members teams) /\ notification_fails env (mk u) = true) ->
  exists n out,
    for_of teams (fun t => for_of (members t) (fun u => createNotification env (mk u))) w =
      (Thrown (NotificationError n), {| db := db w; outbox := out |}).
Proof.
  revert w. induction teams as [|t teams IH]; intros w (u & Hu & Hfails).
  - by apply elem_of_nil in Hu.
  - simpl in Hu. apply elem_of_app in Hu. simpl. unfold bind at 1.
    destruct (for_of_createNotification_outcome (members t) mk w)
      as (out1 & [Hteam | (n & Hteam)]); rewrite Hteam.
    + destruct Hu as [Hu | Hu].
      * destruct (for_of_createNotification_throws (members t) mk w) as (n & out & Hrun);
          [by exists u|]. congruence.
      * destruct (IH {| db := db w; outbox := out1 |}) as (n & out & Hrun); [by exists u|].
        by exists n, out.
    + by exists n, out1.
Qed.

Ltac fold_rescue_request t teams w x r h :=
  match goal with
  | |- context [for_of (t :: teams) ?body w] =>
      change (for_of (t :: teams) body w)
        with (for_of (t :: teams)
                (fun t => for_of (users_of_organization (db w) (org_id t))
                   (fun u => createNotification env
                      (rescue_request {| rel_response := x; rel_emergencyRequest := r;
                                         rel_organization := h |} u))) w)
  end.

Lemma emergencyResponse_findUnique_for_notify_ok responseId w x r h p :
  prisma_fails env EmergencyResponse_findUnique = false ->
  find_response responseId (responses (db w)) = Some x ->
  requests (db w) !! resp_emergencyRequestId x = Some r ->
  organizations (db w) !! resp_organizationId x = Some h ->
  users (db w) !! er_patientId r = Some p ->
  emergencyResponse_findUnique_for_notify env responseId w =
    (Returned (Some {| rel_response := x; rel_emergencyRequest := r;
                       rel_organization := h |}), w).
Proof.
  intros Hp Hx Hr Hh Hpatient. unfold emergencyResponse_findUnique_for_notify.
  rewrite prisma_ok by done. unfold bind at 1, get_db. rewrite Hx.
  unfold bind at 1, with_relations. rewrite Hr, Hh. unfold ret. simpl.
  by rewrite Hpatient.
Qed.

Lemma notifyRescueTeam_sends responseId w x r h p :
  no_prisma_faults env ->
  notifications_delivered env ->
  find_response responseId (responses (db w)) = Some x ->
  requests (db w) !! resp_emergencyRequestId x = Some r ->
  organizations (db w) !! resp_organizationId x = Some h ->
  users (db w) !! er_patientId r = Some p ->
  List.filter is_active_rescue_team (map_to_list (organizations (db w))).*2 <> [] ->
  notifyRescueTeam env responseId w =
    (Returned "Rescue teams notified successfully",
     {| db := db w;
        outbox := (outbox w ++
                   List.map (fun u => Notified
                               (rescue_request {| rel_response := x;
                                                  rel_emergencyRequest := r;
                                                  rel_organization := h |} u))
                            (active_rescue_team_members (db w)))%list |}).
Proof.
  intros Hp Hn Hx Hr Hh Hpatient Hteams. unfold notifyRescueTeam, bind at 1.
  rewrite (emergencyResponse_findUnique_for_notify_ok responseId w x r h p) by done.
  unfold bind at 1, organization_findMany. rewrite prisma_ok by done.
  unfold bind at 1, get_db, ret. unfold bind at 1.
  destruct (List.filter is_active_rescue_team (map_to_list (organizations (db w))).*2)
    as [|t teams] eqn:Hfilter; [done|].
  cbn [length Nat.eqb]. unfold try_catch, bind at 1.
  fold_rescue_request t teams w x r h.
  rewrite (for_of_teams_sends (t :: teams)
             (fun t => users_of_organization (db w) (org_id t))
             (rescue_request {| rel_response := x; rel_emergencyRequest := r;
                                rel_organization := h |}) w Hn).
  unfold active_rescue_team_members. by rewrite Hfilter.
Qed.

Lemma notifyRescueTeam_response_missing responseId w :
  prisma_fails env EmergencyResponse_findUnique = false ->
  find_response responseId (responses (db w)) = None ->
  notifyRescueTeam env responseId w =
    (Thrown (NotFoundException "Emergency response not found"), w).
Proof.
  intros Hp Hx. unfold notifyRescueTeam, bind at 1,
    emergencyResponse_findUnique_for_notify.
  rewrite prisma_ok by done. unfold bind at 1, get_db. by rewrite Hx.
Qed.

Lemma notifyRescueTeam_no_team responseId w x r h p :
  no_prisma_faults env ->
  find_response responseId (responses (db w)) = Some x ->
  requests (db w) !! resp_emergencyRequestId x = Some r ->
  organizations (db w) !! resp_organizationId x = Some h ->
  users (db w) !! er_patientId r = Some p ->
  List.filter is_active_rescue_team (map_to_list (organizations (db w))).*2 = [] ->
  notifyRescueTeam env responseId w =
    (Thrown (NotFoundException "No active rescue teams found"), w).
Proof.
  intros Hp Hx Hr Hh Hpatient Hteams. unfold notifyRescueTeam, bind at 1.
  rewrite (emergencyResponse_findUnique_for_notify_ok responseId w x r h p) by done.
  unfold bind at 1, organization_findMany. rewrite prisma_ok by done.
  unfold bind at 1, get_db, ret. unfold bind at 1. by rewrite Hteams.
Qed.

Lemma notifyRescueTeam_undelivered responseId w x r h p u :
  no_prisma_faults env ->
  find_response responseId (responses (db w)) = Some x ->
  requests (db w) !! resp_emergencyRequestId x = Some r ->
  organizations (db w) !! resp_organizationId x = Some h ->
  users (db w) !! er_patientId r = Some p ->
  u ∈ active_rescue_team_members (db w) ->
  notification_fails env
    (rescue_request {| rel_response := x; rel_emergencyRequest := r;
                       rel_organization := h |} u) = true ->
  exists out,
    notifyRescueTeam env responseId w =
      (Thrown (BadRequestException "Failed to notify rescue teams: notification error"),
       {| db := db w; outbox := out |}).
Proof.
  intros Hp Hx Hr Hh Hpatient Hu Hfails. unfold notifyRescueTeam, bind at 1.
  rewrite (emergencyResponse_findUnique_for_notify_ok responseId w x r h p) by done.
  unfold bind at 1, organization_findMany. rewrite prisma_ok by done.
  unfold bind at 1, get_db, ret. unfold bind at 1.
  unfold active_rescue_team_members in Hu.
  destruct (List.filter is_active_rescue_team (map_to_list (organizations (db w))).*2)
    as [|t teams] eqn:Hfilter; [by apply elem_of_nil in Hu|].
  cbn [length Nat.eqb]. unfold try_catch, bind at 1.
  fold_rescue_request t teams w x r h.
  destruct (for_of_teams_throws (t :: teams)
              (fun t => users_of_organization (db w) (org_id t))
              (rescue_request {| rel_response := x; rel_emergencyRequest := r;
                                 rel_organization := h |}) w) as (n & out & Hrun);
    [by exists u|].
  exists out. by rewrite Hrun.
Qed.

Lemma elem_of_active_rescue_team_members s u :
  u ∈ active_rescue_team_members s <->
  exists teamKey team userKey,
    organizations s !! teamKey = Some team /\
    org_type team = "RESCUE_TEAM" /\
    org_status team = "ACTIVE" /\
    users s !! userKey = Some u /\
    user_organizationId u = Some (org_id team).
Proof.
  unfold active_rescue_team_members. rewrite list_elem_of_In, in_concat. split.
  - intros (l & Hl & Hu). apply in_map_iff in Hl as (t & <- & Ht).
    apply list_elem_of_In, elem_of_List_filter in Ht as [Ht Hactive].
    apply elem_of_rows in Ht as [teamKey Ht].
    unfold users_of_organization in Hu.
    apply list_elem_of_In, elem_of_List_filter in Hu as [Hu Horg].
    apply elem_of_rows in Hu as [userKey Hu].
    unfold is_active_rescue_team in Hactive. apply andb_true_iff in Hactive as [Hty Hst].
    apply bool_decide_eq_true in Hty, Hst, Horg. by exists teamKey, t, userKey.
  - intros (teamKey & t & userKey & Ht & Hty & Hst & Hu & Horg).
    exists (users_of_organization s (org_id t)). split.
    + apply in_map_iff. exists t. split; [done|].
      apply list_elem_of_In, elem_of_List_filter. split; [apply elem_of_rows; by exists teamKey|].
      unfold is_active_rescue_team. by rewrite !bool_decide_eq_true_2.
    + apply list_elem_of_In, elem_of_List_filter. split; [apply elem_of_rows; by exists userKey|].
      by apply bool_decide_eq_true.
Qed.

End Notify.

(** Rows stored under their ids have pairwise different ids. *)
Lemma keyed_rows_NoDup {A} (f : A -> string) (m : gmap string A) :
  map_Forall (fun id a => f a = id) m -> NoDup (List.map f (map_to_list m).*2).
Proof.
  intros Hkeyed.
  assert (List.map f (map_to_list m).*2 = (map_to_list m).*1) as ->.
  { pose proof (fun kv => proj1 (elem_of_map_to_list' m kv)) as Hin.
    induction (map_to_list m) as [|[k a] l IH]; [done|]. simpl. f_equal.
    - apply (Hkeyed k a), (Hin (k, a)), elem_of_cons. by left.
    - apply IH. intros kv Hkv. apply Hin, elem_of_cons. by right. }
  apply NoDup_fst_map_to_list.
Qed.

Lemma NoDup_map_filter {A B} (f : A -> B) (P : A -> bool) (l : list A) :
  NoDup (List.map f l) -> NoDup (List.map f (List.filter P l)).
Proof.
  induction l as [|a l IH]; [done|]. simpl. intros Hnd.
  apply NoDup_cons in Hnd as [Ha Hnd]. destruct (P a); [|by apply IH]. simpl.
  apply NoDup_cons. split; [|by apply IH].
  intros Hin. apply Ha. apply list_elem_of_In, in_map_iff in Hin as (a' & Heq & Ha').
  apply filter_In in Ha' as [Ha' _].
  apply list_elem_of_In, in_map_iff. by exists a'.
Qed.

Lemma NoDup_map_inj {A B} (f : A -> B) (l : list A) x y :
  NoDup (List.map f l) -> x ∈ l -> y ∈ l -> f x = f y -> x = y.
Proof.
  induction l as [|a l IH]; intros Hnd Hx Hy Heq; [by apply elem_of_nil in Hx|].
  simpl in Hnd. apply NoDup_cons in Hnd as [Ha Hnd].
  apply elem_of_cons in Hx as [-> | Hx]; apply elem_of_cons in Hy as [-> | Hy].
  - done.
  - exfalso. apply Ha. rewrite Heq. apply list_elem_of_In, in_map_iff.
    exists y. split; [done|by apply list_elem_of_In].
  - exfalso. apply Ha. rewrite <- Heq. apply list_elem_of_In, in_map_iff.
    exists x. split; [done|by apply list_elem_of_In].
  - by apply IH.
Qed.

(** No user is called twice: a user belongs to one organization, and no
    organization is read twice. *)
Lemma active_rescue_team_members_NoDup s :
  organizations_keyed s -> users_keyed s ->
  NoDup (List.map user_id (active_rescue_team_members s)).
Proof.
  intros Horgs Husers. unfold active_rescue_team_members.
  pose proof (keyed_rows_NoDup user_id (users s) Husers) as Hu.
  pose proof (NoDup_map_filter org_id is_active_rescue_team _
                (keyed_rows_NoDup org_id (organizations s) Horgs)) as Ht.
  induction (List.filter is_active_rescue_team (map_to_list (organizations s)).*2)
    as [|t teams IH]; [apply NoDup_nil_2|].
  simpl in Ht. apply NoDup_cons in Ht as [Hfresh Ht]. simpl.
  rewrite List.map_app. apply NoDup_app. split; [|split; [|by apply IH]].
  - unfold users_of_organization. by apply NoDup_map_filter.
  - intros id Hid Hid'.
    apply list_elem_of_In, in_map_iff in Hid as (u & <- & Hu1).
    apply list_elem_of_In, in_map_iff in Hid' as (u' & Heq & Hu2).
    apply filter_In in Hu1 as [Hu1 Horg]. apply bool_decide_eq_true in Horg.
    apply in_concat in Hu2 as (l & Hl & Hu2).
    apply in_map_iff in Hl as (t' & <- & Ht').
    apply filter_In in Hu2 as [Hu2 Horg']. apply bool_decide_eq_true in Horg'.
    assert (u' = u) as ->.
    { apply (NoDup_map_inj user_id (map_to_list (users s)).*2); try done;
        by apply list_elem_of_In. }
    apply Hfresh. apply list_elem_of_In, in_map_iff. exists t'.
    split; [congruence|done].
Qed.

(** X24. [notifyRescueTeam] calls every member of every ACTIVE rescue team of the
    whole system, whatever the hospital and the case of the response.  With
    organizations and users stored under their ids, the users called are
    pairwise different, each of them gets exactly one RESCUE_REQUEST
    notification naming the hospital and the location, nobody else gets
    one, nothing is broadcast and no row changes. *)
Theorem notifyRescueTeam_calls_every_active_team
    env responseId w x r h p teamKey team :
  no_prisma_faults env ->
  notifications_delivered env ->
  organizations_keyed (db w) ->
  users_keyed (db w) ->
  find_response responseId (responses (db w)) = Some x ->
  requests (db w) !! resp_emergencyRequestId x = Some r ->
  organizations (db w) !! resp_organizationId x = Some h ->
  users (db w) !! er_patientId r = Some p ->
  organizations (db w) !! teamKey = Some team ->
  org_type team = "RESCUE_TEAM" ->
  org_status team = "ACTIVE" ->
  exists w' called,
    notifyRescueTeam env responseId w =
      (Returned "Rescue teams notified successfully", w') /\
    db w' = db w /\
    outbox w' =
      (outbox w ++
       List.map (fun u => Notified
                   (rescue_request {| rel_response := x; rel_emergencyRequest := r;
                                      rel_organization := h |} u)) called)%list /\
    NoDup (List.map user_id called) /\
    forall u,
      u ∈ called <->
      exists teamKey team userKey,
        organizations (db w) !! teamKey = Some team /\
        org_type team = "RESCUE_TEAM" /\
        org_status team = "ACTIVE" /\
        users (db w) !! userKey = Some u /\
        user_organizationId u = Some (org_id team).
Proof.
  intros Hp Hn Horgs Husers Hx Hr Hh Hpatient Hteam Hty Hst.
  eexists _, (active_rescue_team_members (db w)). split.
  - apply (notifyRescueTeam_sends env responseId w x r h p); try done.
    intros Hnone.
    assert (team ∈ List.filter is_active_rescue_team
                     (map_to_list (organizations (db w))).*2) as Hin.
    { apply elem_of_List_filter. split; [apply elem_of_rows; by exists teamKey|].
      unfold is_active_rescue_team. by rewrite !bool_decide_eq_true_2. }
    rewrite Hnone in Hin. by apply elem_of_nil in Hin.
  - simpl. split; [done|]. split; [done|].
    split; [by apply active_rescue_team_members_NoDup|].
    intros u. apply elem_of_active_rescue_team_members.
Qed.

Lemma notifyRescueTeam_calls_every_active_team_witness :
  exists w' called,
    notifyRescueTeam Sample.env_ok "resp-1"
      (Sample2.world "ASSIGNED" (Some 2%Z) [Sample.response "ASSIGNED"]) =
      (Returned "Rescue teams notified successfully", w') /\
    db w' = Sample2.store "ASSIGNED" (Some 2%Z) [Sample.response "ASSIGNED"] /\
    outbox w' =
      List.map (fun u => Notified
                  (rescue_request {| rel_response := Sample.response "ASSIGNED";
                                     rel_emergencyRequest := Sample.request "ASSIGNED";
                                     rel_organization := Sample.hospital (Some 2%Z) |} u))
               called /\
    Sample2.medic ∈ called.
Proof.
  destruct (notifyRescueTeam_calls_every_active_team Sample.env_ok "resp-1"
              (Sample2.world "ASSIGNED" (Some 2%Z) [Sample.response "ASSIGNED"])
              (Sample.response "ASSIGNED") (Sample.request "ASSIGNED")
              (Sample.hospital (Some 2%Z)) Sample.patient "rescue-1" Sample2.rescue_team)
    as (w' & called & Hrun & Hdb & Hout & _ & Hcalled);
    try reflexivity; try (intros c; reflexivity);
    try (apply (bool_decide_unpack _); vm_compute; exact I).
  exists w', called. split; [exact Hrun|]. split; [exact Hdb|]. split; [exact Hout|].
  apply Hcalled. exists "rescue-1", Sample2.rescue_team, "medic-1".
  repeat split; reflexivity.
Defined.

(** X25. What [notifyRescueTeam] refuses: an unknown response and a system without
    an active rescue team are reported as not found and leave the world as
    it was; a notification that cannot be written to one of the members is
    reported as a bad request, and no row has changed. *)
Theorem notifyRescueTeam_refusals env responseId w :
  no_prisma_faults env ->
  (find_response responseId (responses (db w)) = None ->
   notifyRescueTeam env responseId w =
     (Thrown (NotFoundException "Emergency response not found"), w)) /\
  (forall x r h p,
     find_response responseId (responses (db w)) = Some x ->
     requests (db w) !! resp_emergencyRequestId x = Some r ->
     organizations (db w) !! resp_organizationId x = Some h ->
     users (db w) !! er_patientId r = Some p ->
     ((forall teamKey team,
         organizations (db w) !! teamKey = Some team ->
         org_type team = "RESCUE_TEAM" -> org_status team <> "ACTIVE") ->
      notifyRescueTeam env responseId w =
        (Thrown (NotFoundException "No active rescue teams found"), w)) /\
     (forall teamKey team userKey u,
        organizations (db w) !! teamKey = Some team ->
        org_type team = "RESCUE_TEAM" ->
        org_status team = "ACTIVE" ->
        users (db w) !! userKey = Some u ->
        user_organizationId u = Some (org_id team) ->
        notification_fails env
          (rescue_request {| rel_response := x; rel_emergencyRequest := r;
                             rel_organization := h |} u) = true ->
        exists e w',
          notifyRescueTeam env responseId w = (Thrown e, w') /\
          is_validation e = true /\
          db w' = db w)).
Proof.
  intros Hp. split; [by apply notifyRescueTeam_response_missing|].
  intros x r h p Hx Hr Hh Hpatient. split.
  - intros Hnone. apply (notifyRescueTeam_no_team env responseId w x r h p); try done.
    destruct (List.filter is_active_rescue_team (map_to_list (organizations (db w))).*2)
      as [|t teams] eqn:Hfilter; [done|]. exfalso.
    assert (t ∈ List.filter is_active_rescue_team
                  (map_to_list (organizations (db w))).*2) as Hin
      by (rewrite Hfilter; apply elem_of_cons; by left).
    apply elem_of_List_filter in Hin as [Hin Hactive].
    apply elem_of_rows in Hin as [teamKey Hin].
    unfold is_active_rescue_team in Hactive. apply andb_true_iff in Hactive as [Hty Hst].
    apply bool_decide_eq_true in Hty, Hst. by apply (Hnone teamKey t).
  - intros teamKey team userKey u Hteam Hty Hst Hu Horg Hfails.
    destruct (notifyRescueTeam_undelivered env responseId w x r h p u) as [out Hrun];
      try done.
    { apply elem_of_active_rescue_team_members. by exists teamKey, team, userKey. }
    by eexists _, _.
Qed.

Lemma notifyRescueTeam_refusals_witness :
  notifyRescueTeam Sample.env_ok "resp-9"
    (Sample2.world "ASSIGNED" (Some 2%Z) [Sample.response "ASSIGNED"]) =
    (Thrown (NotFoundException "Emergency response not found"),
     Sample2.world "ASSIGNED" (Some 2%Z) [Sample.response "ASSIGNED"]) /\
  notifyRescueTeam Sample.env_ok "resp-1"
    (Sample.world "ASSIGNED" (Some 2%Z) [Sample.response "ASSIGNED"]) =
    (Thrown (NotFoundException "No active rescue teams found"),
     Sample.world "ASSIGNED" (Some 2%Z) [Sample.response "ASSIGNED"]) /\
  exists e w',
    notifyRescueTeam (env_user_unreachable "medic-1") "resp-1"
      (Sample2.world "ASSIGNED" (Some 2%Z) [Sample.response "ASSIGNED"]) =
      (Thrown e, w') /\
    is_validation e = true /\
    db w' = Sample2.store "ASSIGNED" (Some 2%Z) [Sample.response "ASSIGNED"].
Proof.
  split; [|split].
  - destruct (notifyRescueTeam_refusals Sample.env_ok "resp-9"
                (Sample2.world "ASSIGNED" (Some 2%Z) [Sample.response "ASSIGNED"]))
      as [Hmissing _]; [intros c; reflexivity|].
    apply Hmissing. reflexivity.
  - destruct (notifyRescueTeam_refusals Sample.env_ok "resp-1"
                (Sample.world "ASSIGNED" (Some 2%Z) [Sample.response "ASSIGNED"]))
      as [_ Hfound]; [intros c; reflexivity|].
    destruct (Hfound (Sample.response "ASSIGNED") (Sample.request "ASSIGNED")
                (Sample.hospital (Some 2%Z)) Sample.patient) as [Hnone _];
      [reflexivity | reflexivity | reflexivity | reflexivity |].
    apply Hnone. intros teamKey team Hteam Hty.
    change (({[ "hospital-1" := Sample.hospital (Some 2%Z) ]} : gmap string Organization)
              !! teamKey = Some team) in Hteam.
    apply lookup_singleton_Some in Hteam as [_ <-]. discriminate Hty.
  - destruct (notifyRescueTeam_refusals (env_user_unreachable "medic-1") "resp-1"
                (Sample2.world "ASSIGNED" (Some 2%Z) [Sample.response "ASSIGNED"]))
      as [_ Hfound]; [intros c; reflexivity|].
    destruct (Hfound (Sample.response "ASSIGNED") (Sample.request "ASSIGNED")
                (Sample.hospital (Some 2%Z)) Sample.patient) as [_ Hfails];
      [reflexivity | reflexivity | reflexivity | reflexivity |].
    apply (Hfails "rescue-1" Sample2.rescue_team "medic-1" Sample2.medic); reflexivity.
Defined.

(** ** The rescue teams working with a hospital *)

Lemma push_case_keys teamId case m : (push_case teamId case m).*1 = m.*1.
Proof.
  induction m as [|[k t] m IH]; [done|]. cbn [push_case].
  case_bool_decide; rewrite !fmap_cons; [done|]. by rewrite IH.
Qed.

Lemma push_case_elem teamId case m k' t' :
  NoDup m.*1 ->
  (k', t') ∈ push_case teamId case m ->
  exists t, (k', t) ∈ m /\ te_id t' = te_id t /\
            te_linkedCases t' =
              if bool_decide (k' = teamId) then (te_linkedCases t ++ [case])%list
              else te_linkedCases t.
Proof.
  induction m as [|[k t] m IH]; intros Hnd Hin; [by apply elem_of_nil in Hin|].
  simpl in Hnd. apply NoDup_cons in Hnd as [Hk Hnd]. simpl in Hin.
  case_bool_decide as Hkey.
  - apply elem_of_cons in Hin as [Heq | Hin].
    + injection Heq as -> ->. exists t. split; [apply elem_of_cons; by left|].
      simpl. by rewrite bool_decide_eq_true_2.
    + exists t'. split; [apply elem_of_cons; by right|]. split; [done|].
      rewrite bool_decide_eq_false_2; [done|]. intros ->. apply Hk.
      apply list_elem_of_fmap. by exists (teamId, t').
  - apply elem_of_cons in Hin as [Heq | Hin].
    + injection Heq as -> ->. exists t. split; [apply elem_of_cons; by left|].
      by rewrite bool_decide_eq_false_2.
    + destruct (IH Hnd Hin) as (t0 & Ht0 & Hrest).
      exists t0. split; [apply elem_of_cons; by right|done].
Qed.

Lemma push_case_keeps teamId case m k t :
  (k, t) ∈ m ->
  exists t', (k, t') ∈ push_case teamId case m /\ te_id t' = te_id t /\
             forall c, c ∈ te_linkedCases t -> c ∈ te_linkedCases t'.
Proof.
  induction m as [|[k0 t0] m IH]; intros Hin; [by apply elem_of_nil in Hin|].
  simpl. apply elem_of_cons in Hin as [Heq | Hin].
  - injection Heq as -> ->. case_bool_decide.
    + eexists. split; [apply elem_of_cons; by left|]. simpl. split; [done|].
      intros c Hc. apply elem_of_app. by left.
    + exists t0. split; [apply elem_of_cons; by left|done].
  - case_bool_decide.
    + exists t. split; [apply elem_of_cons; by right|done].
    + destruct (IH Hin) as (t' & Ht' & Hrest).
      exists t'. split; [apply elem_of_cons; by right|done].
Qed.

Lemma push_case_adds teamId case m t :
  (teamId, t) ∈ m ->
  exists t0 t', (teamId, t0) ∈ m /\ (teamId, t') ∈ push_case teamId case m /\
                te_id t' = te_id t0 /\ case ∈ te_linkedCases t'.
Proof.
  induction m as [|[k0 t0] m IH]; intros Hin; [by apply elem_of_nil in Hin|].
  simpl. case_bool_decide as Hkey.
  - subst k0. eexists t0, _. split; [apply elem_of_cons; by left|].
    split; [apply elem_of_cons; by left|]. simpl. split; [done|].
    apply elem_of_app. right. apply elem_of_cons. by left.
  - apply elem_of_cons in Hin as [Heq | Hin]; [by injection Heq as -> ->|].
    destruct (IH Hin) as (t1 & t' & Ht1 & Ht' & Hrest).
    exists t1, t'. split; [apply elem_of_cons; by right|].
    split; [apply elem_of_cons; by right|done].
Qed.

Lemma map_has_keys teamId m : map_has teamId m = true <-> teamId ∈ m.*1.
Proof.
  unfold map_has. rewrite existsb_exists, list_elem_of_fmap. split.
  - intros (kv & Hin & Hk). apply bool_decide_eq_true in Hk.
    exists kv. split; [done|]. by apply list_elem_of_In.
  - intros (kv & -> & Hin). exists kv. split; [by apply list_elem_of_In|].
    by apply bool_decide_eq_true.
Qed.

Lemma elem_of_rescue_responses s request y o :
  (y, o) ∈ rescue_responses s request <->
  y ∈ responses s /\
  resp_emergencyRequestId y = er_id request /\
  organizations s !! resp_organizationId y = Some o /\
  org_type o = "RESCUE_TEAM".
Proof.
  unfold rescue_responses, responses_of. rewrite list_elem_of_omap. split.
  - intros (x & Hx & Hsome). apply list_elem_of_filter in Hx as [Hreq Hx].
    destruct (organizations s !! resp_organizationId x) as [o'|] eqn:Ho; [|done].
    case_bool_decide; [|done]. by injection Hsome as -> ->.
  - intros (Hy & Hreq & Ho & Hty). exists y. split; [by apply list_elem_of_filter|].
    by rewrite Ho, bool_decide_eq_true_2.
Qed.

Lemma fold_left_invariant {A B} (f : A -> B -> A) (P : A -> Prop) (Q : B -> Prop) l a :
  (forall a b, Q b -> P a -> P (f a b)) ->
  (forall b, b ∈ l -> Q b) ->
  P a -> P (fold_left f l a).
Proof.
  intros Hstep. revert a. induction l as [|b l IH]; intros a Hl Ha; [done|].
  simpl. apply IH.
  - intros b' Hb'. apply Hl, elem_of_cons. by right.
  - apply Hstep; [|done]. apply Hl, elem_of_cons. by left.
Qed.

Lemma link_rescue_response_ok ok request m y o :
  ok (org_id o) (linked_case request y) ->
  team_map_ok ok m ->
  team_map_ok ok (link_rescue_response request m (y, o)).
Proof.
  intros Hnew [Hnd Hm]. unfold link_rescue_response.
  set (entry := {| te_id := org_id o; te_name := org_name o;
                   te_status := resp_status y; te_linkedCases := [] |}).
  set (m1 := if negb (map_has (org_id o) m) then (m ++ [(org_id o, entry)])%list else m).
  assert (NoDup m1.*1 /\
          forall k t, (k, t) ∈ m1 ->
            te_id t = k /\ (k <> org_id o -> te_linkedCases t <> []) /\
            forall c, c ∈ te_linkedCases t -> ok k c) as [Hnd1 Hm1].
  { subst m1. destruct (map_has (org_id o) m) eqn:Hhas; simpl.
    - split; [done|]. intros k t Hin. destruct (Hm k t Hin) as (? & ? & ?). done.
    - split.
      + rewrite fmap_app. apply NoDup_app. split; [done|]. split.
        * intros k Hk Hk'. simpl in Hk'. apply list_elem_of_singleton in Hk' as ->.
          apply map_has_keys in Hk. congruence.
        * simpl. apply NoDup_singleton.
      + intros k t Hin. apply elem_of_app in Hin as [Hin | Hin].
        * destruct (Hm k t Hin) as (? & ? & ?). done.
        * apply list_elem_of_singleton in Hin. injection Hin as -> ->.
          split; [done|]. split; [done|]. intros c Hc. by apply elem_of_nil in Hc. }
  split; [by rewrite push_case_keys|].
  intros k t' Hin. destruct (push_case_elem _ _ _ _ _ Hnd1 Hin) as (t & Ht & Hid & Hcases).
  destruct (Hm1 k t Ht) as (Hk & Hne & Hok). split; [congruence|].
  rewrite Hcases. case_bool_decide as Hkey.
  - split; [by destruct (te_linkedCases t)|].
    intros c Hc. apply elem_of_app in Hc as [Hc | Hc]; [by apply Hok|].
    apply list_elem_of_singleton in Hc as ->. rewrite Hkey. exact Hnew.
  - split; [by apply Hne|done].
Qed.

Lemma link_rescue_response_keeps request m y o k c :
  covers m k c -> covers (link_rescue_response request m (y, o)) k c.
Proof.
  intros (t & Ht & Hid & Hc). unfold link_rescue_response.
  set (m1 := if negb (map_has (org_id o) m) then _ else m).
  assert ((k, t) ∈ m1) as Ht1.
  { subst m1. destruct (negb (map_has (org_id o) m)); [|done].
    apply elem_of_app. by left. }
  destruct (push_case_keeps (org_id o) (linked_case request y) m1 k t Ht1)
    as (t' & Ht' & Hid' & Hcases).
  exists t'. split; [exact Ht'|]. split; [congruence|]. by apply Hcases.
Qed.

Lemma link_rescue_response_adds ok request m y o :
  team_map_ok ok m ->
  covers (link_rescue_response request m (y, o)) (org_id o) (linked_case request y).
Proof.
  intros [Hnd Hm]. unfold link_rescue_response.
  set (entry := {| te_id := org_id o; te_name := org_name o;
                   te_status := resp_status y; te_linkedCases := [] |}).
  set (m1 := if negb (map_has (org_id o) m) then (m ++ [(org_id o, entry)])%list else m).
  assert (exists t, (org_id o, t) ∈ m1) as [t Ht].
  { subst m1. destruct (map_has (org_id o) m) eqn:Hhas; simpl.
    - apply map_has_keys, list_elem_of_fmap in Hhas as ([k t] & Hk & Hin).
      simpl in Hk. subst k. by exists t.
    - exists entry. apply elem_of_app. right. by apply list_elem_of_singleton. }
  assert (forall t, (org_id o, t) ∈ m1 -> te_id t = org_id o) as Hids.
  { subst m1. intros t0 Ht0. destruct (negb (map_has (org_id o) m)).
    - apply elem_of_app in Ht0 as [Ht0 | Ht0]; [by destruct (Hm _ _ Ht0)|].
      apply list_elem_of_singleton in Ht0. by injection Ht0 as ->.
    - by destruct (Hm _ _ Ht0). }
  destruct (push_case_adds (org_id o) (linked_case request y) m1 t Ht)
    as (t0 & t' & Ht0 & Ht' & Hid & Hc).
  exists t'. split; [exact Ht'|]. split; [|exact Hc]. rewrite Hid. by apply Hids.
Qed.

Lemma fold_link_rescue_response ok request pairs :
  forall m,
    (forall y o, (y, o) ∈ pairs -> ok (org_id o) (linked_case request y)) ->
    team_map_ok ok m ->
    team_map_ok ok (fold_left (link_rescue_response request) pairs m) /\
    (forall k c, covers m k c ->
                 covers (fold_left (link_rescue_response request) pairs m) k c) /\
    (forall y o, (y, o) ∈ pairs ->
                 covers (fold_left (link_rescue_response request) pairs m)
                        (org_id o) (linked_case request y)).
Proof.
  induction pairs as [|[y o] pairs IH]; intros m Hpairs Hm; simpl.
  - split; [done|]. split; [done|]. intros y o Hin. by apply elem_of_nil in Hin.
  - destruct (IH (link_rescue_response request m (y, o))) as (Hok & Hkeep & Hadd).
    { intros y' o' Hin. apply Hpairs, elem_of_cons. by right. }
    { apply link_rescue_response_ok; [|done]. apply Hpairs, elem_of_cons. by left. }
    split; [done|]. split.
    + intros k c Hc. by apply Hkeep, link_rescue_response_keeps.
    + intros y' o' Hin. apply elem_of_cons in Hin as [Heq | Hin]; [|by apply Hadd].
      injection Heq as -> ->. apply Hkeep. by apply (link_rescue_response_adds ok).
Qed.

Lemma fold_rescue_responses ok s found :
  forall m,
    (forall f y o, f ∈ found -> (y, o) ∈ rescue_responses s (rel_emergencyRequest f) ->
                   ok (org_id o) (linked_case (rel_emergencyRequest f) y)) ->
    team_map_ok ok m ->
    let m' :=
      fold_left
        (fun m response =>
           fold_left (link_rescue_response (rel_emergencyRequest response))
                     (rescue_responses s (rel_emergencyRequest response)) m)
        found m in
    team_map_ok ok m' /\
    (forall k c, covers m k c -> covers m' k c) /\
    (forall f y o, f ∈ found -> (y, o) ∈ rescue_responses s (rel_emergencyRequest f) ->
                   covers m' (org_id o) (linked_case (rel_emergencyRequest f) y)).
Proof.
  induction found as [|f found IH]; intros m Hfound Hm; simpl.
  - split; [done|]. split; [done|]. intros f y o Hin. by apply elem_of_nil in Hin.
  - destruct (fold_link_rescue_response ok (rel_emergencyRequest f)
                (rescue_responses s (rel_emergencyRequest f)) m) as (Hok1 & Hkeep1 & Hadd1);
      [|done|].
    { intros y o Hin. apply (Hfound f); [apply elem_of_cons; by left|done]. }
    destruct (IH (fold_left (link_rescue_response (rel_emergencyRequest f))
                            (rescue_responses s (rel_emergencyRequest f)) m))
      as (Hok & Hkeep & Hadd); [|done|].
    { intros f' y o Hin. apply Hfound, elem_of_cons. by right. }
    split; [done|]. split.
    + intros k c Hc. by apply Hkeep, Hkeep1.
    + intros f' y o Hin Hpair. apply elem_of_cons in Hin as [-> | Hin].
      * by apply Hkeep, Hadd1.
      * by apply Hadd.
Qed.

Lemma team_map_ok_nil ok : team_map_ok ok [].
Proof.
  split; [apply NoDup_nil_2|]. intros k t Hin. by apply elem_of_nil in Hin.
Qed.

Lemma all_with_relations_ok call s rs w :
  (forall x, x ∈ rs ->
     is_Some (requests s !! resp_emergencyRequestId x) /\
     is_Some (organizations s !! resp_organizationId x)) ->
  exists found,
    all_with_relations call s rs w = (Returned found, w) /\
    Forall2 (fun x f => rel_response f = x /\
                        requests s !! resp_emergencyRequestId x =
                          Some (rel_emergencyRequest f)) rs found.
Proof.
  induction rs as [|x rs IH]; intros Hrs; simpl.
  - by exists [].
  - destruct (Hrs x) as [[r Hr] [o Ho]]; [apply elem_of_cons; by left|].
    destruct IH as (found & Hrun & Hall).
    { intros x' Hx'. apply Hrs, elem_of_cons. by right. }
    eexists (_ :: found). unfold bind at 1, with_relations. rewrite Hr, Ho.
    unfold ret at 1. unfold bind at 1. rewrite Hrun. split; [done|].
    by apply Forall2_cons.
Qed.

Section RescueTeams.

Variable env : Env.

Lemma getActiveRescueTeamsForHospital_returns hospitalId w :
  prisma_fails env EmergencyResponse_findMany = false ->
  referential (db w) ->
  exists found,
    getActiveRescueTeamsForHospital env hospitalId w =
      (Returned (List.map (fun kv => team_of_entry kv.2) (rescueTeamMap_of (db w) found)),
       w) /\
    Forall2 (fun x f => rel_response f = x /\
                        requests (db w) !! resp_emergencyRequestId x =
                          Some (rel_emergencyRequest f))
            (List.filter
               (fun x => bool_decide (resp_organizationId x = hospitalId)
                         && includes ["ASSIGNED"; "IN_PROGRESS"] (resp_status x))
               (responses (db w)))
            found.
Proof.
  intros Hp Href.
  destruct (all_with_relations_ok EmergencyResponse_findMany (db w)
              (List.filter
                 (fun x => bool_decide (resp_organizationId x = hospitalId)
                           && includes ["ASSIGNED"; "IN_PROGRESS"] (resp_status x))
                 (responses (db w))) w) as (found & Hrun & Hall).
  { intros x Hx. apply elem_of_List_filter in Hx as [Hx _]. by apply Href. }
  exists found. split; [|done].
  unfold getActiveRescueTeamsForHospital, try_catch, bind at 1.
  rewrite prisma_ok by done. unfold bind at 1, get_db. by rewrite Hrun.
Qed.

Lemma found_is_handled hospitalId s found f :
  Forall2 (fun x f => rel_response f = x /\
                      requests s !! resp_emergencyRequestId x =
                        Some (rel_emergencyRequest f))
          (List.filter
             (fun x => bool_decide (resp_organizationId x = hospitalId)
                       && includes ["ASSIGNED"; "IN_PROGRESS"] (resp_status x))
             (responses s))
          found ->
  f ∈ found ->
  exists x, x ∈ responses s /\
            resp_organizationId x = hospitalId /\
            (resp_status x = "ASSIGNED" \/ resp_status x = "IN_PROGRESS") /\
            requests s !! resp_emergencyRequestId x = Some (rel_emergencyRequest f).
Proof.
  intros Hall Hf. apply list_elem_of_lookup in Hf as [i Hi].
  destruct (Forall2_lookup_r _ _ _ _ _ Hall Hi) as (x & Hx & _ & Hreq).
  apply list_elem_of_lookup_2, elem_of_List_filter in Hx as [Hx Hwhere].
  apply andb_true_iff in Hwhere as [Horg Hst]. apply bool_decide_eq_true in Horg.
  exists x. split; [done|]. split; [done|]. split; [|done].
  apply includes_elem_of in Hst. rewrite !elem_of_cons in Hst.
  destruct Hst as [-> | [-> | Hst]]; [by left | by right | by apply elem_of_nil in Hst].
Qed.

Lemma rescueTeamMap_of_ok hospitalId s found :
  Forall2 (fun x f => rel_response f = x /\
                      requests s !! resp_emergencyRequestId x =
                        Some (rel_emergencyRequest f))
          (List.filter
             (fun x => bool_decide (resp_organizationId x = hospitalId)
                       && includes ["ASSIGNED"; "IN_PROGRESS"] (resp_status x))
             (responses s))
          found ->
  team_map_ok (linked_from s hospitalId) (rescueTeamMap_of s found) /\
  (forall f y o, f ∈ found -> (y, o) ∈ rescue_responses s (rel_emergencyRequest f) ->
                 covers (rescueTeamMap_of s found) (org_id o)
                        (linked_case (rel_emergencyRequest f) y)).
Proof.
  intros Hall.
  destruct (fold_rescue_responses (linked_from s hospitalId) s found [])
    as (Hok & _ & Hadd); [|apply team_map_ok_nil|done].
  intros f y o Hf Hpair. exists (rel_emergencyRequest f), y, o.
  split; [|done]. split; [by apply (found_is_handled hospitalId s found)|].
  by apply elem_of_rescue_responses.
Qed.

End RescueTeams.

(** X26. [getActiveRescueTeamsForHospital] groups by team: no team is listed
    twice, none is listed without a linked case, the count of a team is the
    number of its linked cases, and every linked case is a response of that
    rescue team to a request the hospital has an ASSIGNED or IN_PROGRESS
    response to.  The store is only read. *)
Theorem getActiveRescueTeamsForHospital_groups_by_team env hospitalId w :
  prisma_fails env EmergencyResponse_findMany = false ->
  referential (db w) ->
  exists teams,
    getActiveRescueTeamsForHospital env hospitalId w = (Returned teams, w) /\
    NoDup (List.map art_id teams) /\
    forall team, team ∈ teams ->
      art_linkedCases team <> [] /\
      art_linkedCasesCount team = length (art_linkedCases team) /\
      forall c, c ∈ art_linkedCases team ->
                linked_from (db w) hospitalId (art_id team) c.
Proof.
  intros Hp Href.
  destruct (getActiveRescueTeamsForHospital_returns env hospitalId w Hp Href)
    as (found & Hrun & Hall).
  destruct (rescueTeamMap_of_ok hospitalId (db w) found Hall) as [[Hnd Hm] _].
  eexists. split; [exact Hrun|]. split.
  - assert (List.map art_id
              (List.map (fun kv => team_of_entry kv.2) (rescueTeamMap_of (db w) found)) =
            (rescueTeamMap_of (db w) found).*1) as ->; [|done].
    rewrite List.map_map. apply map_ext_in. intros [k t] Hin. simpl.
    apply list_elem_of_In in Hin. by destruct (Hm k t Hin).
  - intros team Hteam. apply list_elem_of_In, in_map_iff in Hteam as ([k t] & <- & Hin).
    apply list_elem_of_In in Hin. destruct (Hm k t Hin) as (Hid & Hne & Hok).
    simpl. split; [done|]. split; [done|]. by rewrite Hid.
Qed.

Lemma getActiveRescueTeamsForHospital_groups_by_team_witness :
  exists teams,
    getActiveRescueTeamsForHospital Sample.env_ok "hospital-1"
      (Sample2.world "ASSIGNED" (Some 2%Z)
         [Sample.response "ASSIGNED"; Sample2.rescue_response "resp-3" "IN_PROGRESS";
          Sample2.rescue_response "resp-4" "COMPLETED"]) =
      (Returned teams,
       Sample2.world "ASSIGNED" (Some 2%Z)
         [Sample.response "ASSIGNED"; Sample2.rescue_response "resp-3" "IN_PROGRESS";
          Sample2.rescue_response "resp-4" "COMPLETED"]) /\
    NoDup (List.map art_id teams).
Proof.
  destruct (getActiveRescueTeamsForHospital_groups_by_team Sample.env_ok "hospital-1"
              (Sample2.world "ASSIGNED" (Some 2%Z)
                 [Sample.response "ASSIGNED"; Sample2.rescue_response "resp-3" "IN_PROGRESS";
                  Sample2.rescue_response "resp-4" "COMPLETED"]))
    as (teams & Hrun & Hnd & _).
  - reflexivity.
  - intros x Hx. simpl in Hx. rewrite !elem_of_cons in Hx.
    destruct Hx as [-> | [-> | [-> | Hx]]]; [| | |by apply elem_of_nil in Hx];
      split; by eexists.
  - by exists teams.
Defined.

(** X27. Every rescue team with a response to a case the hospital is handling is
    listed with that response among its linked cases, whatever the status of
    the team and of its response: a team whose response is COMPLETED or
    CANCELLED, or which is itself INACTIVE, is still reported among the
    active rescue teams of the hospital. *)
Theorem getActiveRescueTeamsForHospital_lists_every_linked_team
    env hospitalId w r y o :
  prisma_fails env EmergencyResponse_findMany = false ->
  referential (db w) ->
  rescue_link (db w) hospitalId r y o ->
  exists teams team,
    getActiveRescueTeamsForHospital env hospitalId w = (Returned teams, w) /\
    team ∈ teams /\
    art_id team = org_id o /\
    linked_case r y ∈ art_linkedCases team.
Proof.
  intros Hp Href ((x & Hx & Horg & Hst & Hr) & Hy & Hreq & Ho & Hty).
  destruct (getActiveRescueTeamsForHospital_returns env hospitalId w Hp Href)
    as (found & Hrun & Hall).
  destruct (rescueTeamMap_of_ok hospitalId (db w) found Hall) as [_ Hcovers].
  assert (x ∈ List.filter
                (fun x => bool_decide (resp_organizationId x = hospitalId)
                          && includes ["ASSIGNED"; "IN_PROGRESS"] (resp_status x))
                (responses (db w))) as Hin.
  { apply elem_of_List_filter. split; [done|].
    rewrite bool_decide_eq_true_2 by done. by destruct Hst as [-> | ->]. }
  apply list_elem_of_lookup in Hin as [i Hi].
  destruct (Forall2_lookup_l _ _ _ _ _ Hall Hi) as (f & Hf & _ & Hfr).
  assert (rel_emergencyRequest f = r) as Hrel by congruence.
  destruct (Hcovers f y o) as (t & Ht & Hid & Hc).
  { by apply list_elem_of_lookup_2 in Hf. }
  { apply elem_of_rescue_responses. by rewrite Hrel. }
  eexists _, (team_of_entry t). split; [exact Hrun|]. split.
  - apply list_elem_of_In, in_map_iff. exists (org_id o, t).
    split; [done|]. by apply list_elem_of_In.
  - simpl. split; [done|]. by rewrite <- Hrel.
Qed.

Lemma getActiveRescueTeamsForHospital_lists_every_linked_team_witness :
  exists teams team,
    getActiveRescueTeamsForHospital Sample.env_ok "hospital-1"
      (Sample2.world "ASSIGNED" (Some 2%Z)
         [Sample.response "ASSIGNED"; Sample2.rescue_response "resp-3" "CANCELLED"]) =
      (Returned teams,
       Sample2.world "ASSIGNED" (Some 2%Z)
         [Sample.response "ASSIGNED"; Sample2.rescue_response "resp-3" "CANCELLED"]) /\
    team ∈ teams /\
    art_id team = "rescue-1" /\
    {| lc_emergencyId := "case-1"; lc_responseId := "resp-3"; lc_status := "CANCELLED" |}
      ∈ art_linkedCases team.
Proof.
  apply (getActiveRescueTeamsForHospital_lists_every_linked_team Sample.env_ok
           "hospital-1"
           (Sample2.world "ASSIGNED" (Some 2%Z)
              [Sample.response "ASSIGNED"; Sample2.rescue_response "resp-3" "CANCELLED"])
           (Sample.request "ASSIGNED") (Sample2.rescue_response "resp-3" "CANCELLED")
           Sample2.rescue_team).
  - reflexivity.
  - intros x Hx. simpl in Hx. rewrite !elem_of_cons in Hx.
    destruct Hx as [-> | [-> | Hx]]; [| |by apply elem_of_nil in Hx];
      split; by eexists.
  - split.
    + exists (Sample.response "ASSIGNED"). split; [apply elem_of_cons; by left|].
      split; [reflexivity|]. split; [by left|reflexivity].
    + split; [apply elem_of_cons; right; apply elem_of_cons; by left|].
      split; [reflexivity|]. split; reflexivity.
Defined.
